(** * The MCP server manager of [scripts/utils/mcp-manager.py]

    A shallow embedding of [MCPServerManager]: the runtime records, the
    start/stop/restart operations, the state files and the monitor loop,
    followed by the properties of the supervisor specification that they
    satisfy or break.

    Modelling conventions.
    - Python objects are mutable and shared: [self.servers] maps a name to a
      reference, the records live in a store ([objs]) and a local variable
      such as [server] in [_monitor_servers] keeps pointing at the record it
      was bound to, also after [start_server] has rebound the name.
    - Everything the operating system decides (whether a spawn works, whether
      a pid is alive, whether a signal can be delivered, whether a file can
      be written) is read from a [World]; the code is a function of it.
    - What the code does to the outside (log lines that mark an attempt,
      sleeps, signals, waits) is appended to a [trace].
    - [cpu_percent] and [memory_mb] are floating-point gauges that no
      decision reads; they are left out of the record.
    - The module binds [subprocess], [psutil], [signal] and [time] at its
      top; [os] is imported inside [main] only, so the methods of the class
      find no global of that name.  Evaluating [os.environ] (line 155) or
      [hasattr(os, 'killpg')] (lines 224, 230, 240) raises [NameError],
      which the [except] clauses of [start_server] and [stop_server] turn
      into a failed start or stop.  Whether the name is bound is a field
      of the [World] ([os_bound]): it is not in the module as it is
      ([shipped]), where every spawn raises and no signal is sent; the
      worlds in which it is describe the same methods run with [os]
      supplied to the module. *)

From stdpp Require Import gmap strings list fin_maps.
From Stdlib Require Import ZArith Lia.

Local Open Scope Z_scope.

(** ** Data model *)

(** [MCPServerStatus.status] is one of four string literals. *)
Inductive Status := Running | Stopped | Error | Unknown.

Global Instance Status_eq_dec : EqDecision Status.
Proof. solve_decision. Defined.

Definition is_running (st : Status) : bool :=
  match st with Running => true | _ => false end.

(** [class MCPServerStatus] (the float gauges apart). *)
Record MCPServerStatus := mkStatus {
  name : string;
  status : Status;
  pid : option Z;
  port : option Z;
  command : list string;
  start_time : option Z;
  last_health_check : option Z;
  error_count : Z;
  restart_count : Z
}.

(** [class MCPServerConfig]; [env] only feeds the child's environment. *)
Record MCPServerConfig := mkConfig {
  c_name : string;
  c_command : list string;
  c_args : list string;
  auto_start : bool;
  auto_restart : bool;
  health_check_url : option string;
  max_restarts : Z;
  restart_delay : Z
}.

(** The JSON object of a [<name>.state] file.  [restart_count] and
    [error_count] are read with [.get(key, 0)], so they may be absent. *)
Record StateData := mkState {
  sd_name : string;
  sd_status : Status;
  sd_pid : option Z;
  sd_start_time : option Z;
  sd_restart_count : option Z;
  sd_error_count : option Z
}.

Inductive Signal := SIGTERM | SIGKILL.

(** What an operation does to the outside, in order. *)
Inductive Event :=
  | LogStarting (n : string)        (* "Starting MCP server: n" *)
  | LogRestarting (n : string)      (* "Restarting MCP server: n" *)
  | LogAutoRestarting (n : string)  (* "Auto-restarting failed server: n" *)
  | Spawned (n : string) (p : Z)    (* subprocess.Popen returned pid p *)
  | Sleep (secs : Z)                (* time.sleep(secs) *)
  | Killpg (p : Z) (sig : Signal)   (* os.killpg(os.getpgid(p), sig) *)
  | ProcSignal (p : Z) (sig : Signal) (* process.terminate() / process.kill() *)
  | Wait (p : Z) (timeout : Z).     (* process.wait(timeout=...) *)

Global Instance Signal_eq_dec : EqDecision Signal.
Proof. solve_decision. Defined.

Global Instance Event_eq_dec : EqDecision Event.
Proof. solve_decision. Defined.

(** Outcome of the [try] block of [start_server] up to [process.poll()].
    An exception before a process exists is what lines 154-172 raise when
    the name [os] is not bound, when the log directory cannot be made or
    when the binary is missing. *)
Inductive SpawnOutcome :=
  | SpawnRaises                       (* an exception before a process exists *)
  | SpawnReturns (p : Z) (alive : bool). (* pid, and poll() is None after 1s *)

(** Outcome of looking a pid up with [psutil]. *)
Inductive ProbeResult :=
  | PAlive      (* the process exists and is running *)
  | PGone       (* NoSuchProcess, or is_running() is False *)
  | PDenied.    (* AccessDenied *)

(** The environment of one operation (or one monitor tick). *)
Record World := mkWorld {
  now : Z;                           (* datetime.now() *)
  os_bound : bool;                   (* the global name os resolves *)
  has_killpg : bool;                 (* hasattr(os, 'killpg'), os resolving *)
  popen : string → SpawnOutcome;     (* lines 154-190, os resolving *)
  probe : Z → ProbeResult;
  kill_raises : Z → Signal → bool;   (* sending the signal raises *)
  wait_times_out : Z → bool;         (* process.wait raises TimeoutExpired *)
  save_ok : string → bool;           (* the state file can be written *)
  popen_empty_raises : bool;         (* subprocess.Popen([]) raises *)
  config_io_ok : bool;               (* mcp.json can be rewritten and reread *)
  sleep_limit : Z                    (* the shortest sleep the clock refuses *)
}.

(** Lines 154-190 of [start_server]: [os.environ] at line 155 raises
    [NameError] when [os] is not bound, before [subprocess.Popen] is
    reached. *)
Definition spawn (w : World) (n : string) : SpawnOutcome :=
  if os_bound w then popen w n else SpawnRaises.

(** A signalling statement of [stop_server] raises: at
    [hasattr(os, 'killpg')] when [os] is not bound, before any signal is
    sent, or else when the signal cannot be delivered. *)
Definition signal_raises (w : World) (p : Z) (sig : Signal) : bool :=
  negb (os_bound w) || kill_raises w p sig.

(** The module as it is: [os] is not bound where the methods run. *)
Definition shipped (w : World) : Prop := os_bound w = false.

(** [time.sleep(secs)] raises instead of sleeping: [ValueError] for a
    negative length, [OverflowError] for one that does not fit 64-bit
    nanoseconds, [OSError] where the deadline lies beyond what the
    monotonic clock can hold (9223372036 seconds less its reading: the
    [sleep_limit] of the world). *)
Definition sleep_raises (w : World) (secs : Z) : bool :=
  (secs <? 0) || (9223372036 <=? secs) || (sleep_limit w <=? secs).

(** [MCPServerManager]: the dictionaries of the instance, the record store
    they point into, the state files and the trace. *)
Record Manager := mkManager {
  server_configs : list MCPServerConfig;
  servers : gmap string nat;
  objs : list MCPServerStatus;
  processes : gmap string Z;
  disk : gmap string StateData;
  trace : list Event
}.

(** ** Record and store updates *)

Definition with_status (st : Status) (s : MCPServerStatus) : MCPServerStatus :=
  mkStatus (name s) st (pid s) (port s) (command s) (start_time s)
           (last_health_check s) (error_count s) (restart_count s).

(** [server.status = "stopped"; server.pid = None] *)
Definition mark_stopped (s : MCPServerStatus) : MCPServerStatus :=
  mkStatus (name s) Stopped None (port s) (command s) (start_time s)
           (last_health_check s) (error_count s) (restart_count s).

Definition with_error_count (k : Z) (s : MCPServerStatus) : MCPServerStatus :=
  mkStatus (name s) (status s) (pid s) (port s) (command s) (start_time s)
           (last_health_check s) k (restart_count s).

Definition with_restart_count (k : Z) (s : MCPServerStatus) : MCPServerStatus :=
  mkStatus (name s) (status s) (pid s) (port s) (command s) (start_time s)
           (last_health_check s) (error_count s) k.

(** [server.error_count = 0; server.last_health_check = datetime.now()] *)
Definition mark_healthy (t : Z) (s : MCPServerStatus) : MCPServerStatus :=
  mkStatus (name s) (status s) (pid s) (port s) (command s) (start_time s)
           (Some t) 0 (restart_count s).

Definition with_objs (o : list MCPServerStatus) (m : Manager) : Manager :=
  mkManager (server_configs m) (servers m) o (processes m) (disk m) (trace m).

(** Mutation of the record at reference [l]. *)
Definition update_obj (l : nat) (f : MCPServerStatus → MCPServerStatus)
    (m : Manager) : Manager :=
  with_objs (alter f l (objs m)) m.

Definition emit (es : list Event) (m : Manager) : Manager :=
  mkManager (server_configs m) (servers m) (objs m) (processes m) (disk m)
            (trace m ++ es).

(** [self.servers.get(n)]: the record the dictionary points at. *)
Definition get_server (m : Manager) (n : string) : option MCPServerStatus :=
  servers m !! n ≫= λ l, objs m !! l.

(** [server_name in self.server_configs] / [self.server_configs[n]] *)
Definition find_config (n : string) (cs : list MCPServerConfig)
    : option MCPServerConfig :=
  snd <$> list_find (λ c, c_name c = n) cs.

(** Python truthiness of an [Optional[int]]: [None] and [0] are false. *)
Definition pid_truthy (o : option Z) : bool :=
  match o with Some p => negb (p =? 0) | None => false end.

(** ** State files *)

Definition state_of (s : MCPServerStatus) : StateData :=
  mkState (name s) (status s) (pid s) (start_time s)
          (Some (restart_count s)) (Some (error_count s)).

(** [_save_server_state]: a write error is logged and swallowed. *)
Definition save_server_state (w : World) (m : Manager) (n : string) : Manager :=
  match get_server m n with
  | Some s =>
      if save_ok w n
      then mkManager (server_configs m) (servers m) (objs m) (processes m)
                     (<[n := state_of s]> (disk m)) (trace m)
      else m
  | None => m
  end.

(** ** start_server *)

(** The record built at lines 178-185: counters start from their defaults. *)
Definition fresh_status (w : World) (cfg : MCPServerConfig) (p : Z)
    : MCPServerStatus :=
  mkStatus (c_name cfg) Running (Some p) None (c_command cfg ++ c_args cfg)
           (Some (now w)) None 0 0.

(** [self.processes[n] = process; self.servers[n] = MCPServerStatus(...)]:
    a new record is allocated and the name is rebound to it. *)
Definition register (w : World) (cfg : MCPServerConfig) (p : Z) (m : Manager)
    : Manager :=
  mkManager (server_configs m)
            (<[c_name cfg := length (objs m)]> (servers m))
            (objs m ++ [fresh_status w cfg p])
            (<[c_name cfg := p]> (processes m))
            (disk m) (trace m).

(** [self.servers[n].status = "error"], guarded by [n in self.servers]
    where the source guards it. *)
Definition mark_error (m : Manager) (n : string) : Manager :=
  match servers m !! n with
  | Some l => update_obj l (with_status Error) m
  | None => m
  end.

Definition start_server (w : World) (m : Manager) (n : string) (force : bool)
    : Manager * bool :=
  match find_config n (server_configs m) with
  | None => (m, false)
  | Some cfg =>
      if match get_server m n with
         | Some s => is_running (status s) && negb force
         | None => false
         end
      then (m, true)
      else
        let m1 := emit [LogStarting n] m in
        match spawn w n with
        | SpawnRaises => (mark_error m1 n, false)
        | SpawnReturns p alive =>
            let m2 := emit [Spawned n p; Sleep 1] (register w cfg p m1) in
            if alive then (save_server_state w m2 n, true)
            else (mark_error m2 n, false)
        end
  end.

(** ** stop_server *)

(** One signal to the child: the whole group where [os.killpg] exists. *)
Definition signal_event (w : World) (p : Z) (sig : Signal) : Event :=
  if has_killpg w then Killpg p sig else ProcSignal p sig.

(** Lines 221-245 for a handle with pid [p]: the events performed, and
    whether the block completed ([false]: an exception left the [try]). *)
Definition stop_process (w : World) (p : Z) (force : bool)
    : list Event * bool :=
  if force then
    if signal_raises w p SIGKILL then ([], false)
    else ([signal_event w p SIGKILL], true)
  else
    if signal_raises w p SIGTERM then ([], false)
    else if wait_times_out w p then
      if signal_raises w p SIGKILL
      then ([signal_event w p SIGTERM; Wait p 10], false)
      else ([signal_event w p SIGTERM; Wait p 10; signal_event w p SIGKILL],
            true)
    else ([signal_event w p SIGTERM; Wait p 10], true).

Definition drop_process (n : string) (m : Manager) : Manager :=
  mkManager (server_configs m) (servers m) (objs m) (delete n (processes m))
            (disk m) (trace m).

(** Lines 247-253: [server.status = "stopped"; server.pid = None], then the
    state file is written. *)
Definition finish_stop (w : World) (l : nat) (n : string) (m : Manager)
    : Manager :=
  save_server_state w (update_obj l mark_stopped m) n.

Definition stop_server (w : World) (m : Manager) (n : string) (force : bool)
    : Manager * bool :=
  match servers m !! n with
  | None => (m, true)
  | Some l =>
      match objs m !! l with
      | None => (m, true)
      | Some s =>
          if negb (is_running (status s)) then (m, true)
          else
            match processes m !! n with
            | Some p =>
                let '(es, completed) := stop_process w p force in
                if completed
                then (finish_stop w l n (drop_process n (emit es m)), true)
                else (emit es m, false)
            | None => (finish_stop w l n m, true)
            end
      end
  end.

(** ** restart_server *)

Definition bump_restart_count (m : Manager) (n : string) : Manager :=
  match servers m !! n with
  | Some l => update_obj l (λ s, with_restart_count (restart_count s + 1) s) m
  | None => m
  end.

Definition restart_server (w : World) (m : Manager) (n : string)
    : Manager * bool :=
  let m1 := bump_restart_count (emit [LogRestarting n] m) n in
  let '(m2, stopped) := stop_server w m1 n false in
  if stopped then start_server w (emit [Sleep 2] m2) n false
  else (m2, false).

(** ** Liveness checks *)

(** [_health_check_server] *)
Definition health_check_server (w : World) (m : Manager) (n : string)
    : Manager * bool :=
  match servers m !! n with
  | None => (m, false)
  | Some l =>
      match objs m !! l with
      | None => (m, false)
      | Some s =>
          if negb (is_running (status s)) then (m, false)
          else if pid_truthy (pid s) then
            match probe w (default 0 (pid s)) with
            | PAlive => (m, true)
            | PGone | PDenied => (update_obj l mark_stopped m, false)
            end
          else (m, true)
      end
  end.

(** One record of [_update_server_metrics]. *)
Definition refresh (w : World) (s : MCPServerStatus) : MCPServerStatus :=
  if is_running (status s) && pid_truthy (pid s) then
    match probe w (default 0 (pid s)) with
    | PAlive => s
    | PGone | PDenied => mark_stopped s
    end
  else s.

(** [_update_server_metrics]: every record the dictionary points at. *)
Definition update_server_metrics (w : World) (m : Manager) : Manager :=
  foldr (λ nl acc, update_obj nl.2 (refresh w) acc) m
        (map_to_list (servers m)).

(** [get_server_status]: the refresh, and the snapshot handed out.  Line
    278 tests [if server_name:], so the empty string asks for every
    record, as [None] does. *)
Definition get_server_status (w : World) (m : Manager) (n : option string)
    : Manager * gmap string MCPServerStatus :=
  let m' := update_server_metrics w m in
  let all := omap (λ l, objs m' !! l) (servers m') in
  (m', match n with
       | Some k =>
           if decide (k = "") then all
           else
             match get_server m' k with
             | Some s => {[k := s]}
             | None => ∅
             end
       | None => all
       end).

(** ** The monitor loop *)

(** One iteration of the [for] loop of [_monitor_servers]; the flag is
    [true] when an exception leaves the loop: [time.sleep] does not take
    every [restart_delay]. *)
Definition monitor_iter (w : World) (m : Manager) (cfg : MCPServerConfig)
    : Manager * bool :=
  let n := c_name cfg in
  if negb (auto_restart cfg) then (m, false)
  else
    match servers m !! n with
    | None => (m, false)
    | Some l =>
        match objs m !! l with
        | None => (m, false)
        | Some s =>
            if auto_start cfg && negb (is_running (status s)) then
              if restart_count s <? max_restarts cfg then
                let m1 := emit [LogAutoRestarting n] m in
                if sleep_raises w (restart_delay cfg) then (m1, true)
                else
                  ((start_server w (emit [Sleep (restart_delay cfg)] m1)
                                 n false).1, false)
              else (m, false)
            else if is_running (status s) then
              let '(m1, healthy) := health_check_server w m n in
              if healthy then (update_obj l (mark_healthy (now w)) m1, false)
              else
                let m2 :=
                  update_obj l (λ s, with_error_count (error_count s + 1) s)
                             m1 in
                if 3 <=? default 0 (error_count <$> objs m2 !! l) then
                  let m3 := (restart_server w m2 n).1 in
                  (* [server] is still the record fetched above *)
                  (update_obj l (with_error_count 0) m3, false)
                else (m2, false)
            else (m, false)
        end
    end.

(** The [for] loop: it ends at the first exception. *)
Fixpoint monitor_pass (w : World) (cs : list MCPServerConfig) (m : Manager)
    : Manager :=
  match cs with
  | [] => m
  | c :: cs' =>
      let '(m', raised) := monitor_iter w m c in
      if raised then m' else monitor_pass w cs' m'
  end.

(** One turn of the [while] loop: the pass, then [time.sleep(interval)] on
    both the normal and the exceptional path.  An [interval] that
    [time.sleep] does not take is slept on neither. *)
Definition monitor_tick (w : World) (interval : Z) (m : Manager) : Manager :=
  let m' := monitor_pass w (server_configs m) m in
  if sleep_raises w interval then m' else emit [Sleep interval] m'.

(** The loop over successive environments, one per turn.  Where
    [time.sleep(interval)] raises, it raises again in the handler of line
    416, outside the [try]: the first turn is the last. *)
Fixpoint monitor_run (ws : list World) (interval : Z) (m : Manager)
    : Manager :=
  match ws with
  | [] => m
  | w :: ws' =>
      let m' := monitor_tick w interval m in
      if sleep_raises w interval then m' else monitor_run ws' interval m'
  end.

(** ** Start-up, deployment, bulk commands *)

(** One state file in [_load_server_states]. *)
Definition load_one (w : World) (sd : StateData) (m : Manager) : Manager :=
  let n := sd_name sd in
  match find_config n (server_configs m) with
  | None => m
  | Some cfg =>
      let alive :=
        pid_truthy (sd_pid sd) &&
        match probe w (default 0 (sd_pid sd)) with
        | PAlive => true
        | PGone | PDenied => false
        end in
      if alive && popen_empty_raises w then m  (* line 360: logged, skipped *)
      else
        let rec :=
          mkStatus n (if alive then Running else Stopped)
                   (if alive then sd_pid sd else None)
                   None (c_command cfg) (sd_start_time sd) None
                   (default 0 (sd_error_count sd))
                   (default 0 (sd_restart_count sd)) in
        mkManager (server_configs m)
                  (<[n := length (objs m)]> (servers m))
                  (objs m ++ [rec])
                  (if alive then <[n := default 0 (sd_pid sd)]> (processes m)
                   else processes m)
                  (disk m) (trace m)
  end.

(** [_load_server_states]: every [*.state] file of the runtime directory. *)
Definition load_server_states (w : World) (m : Manager) : Manager :=
  foldr (λ kv acc, load_one w kv.2 acc) m (map_to_list (disk m)).

(** [MCPServerManager(...)] followed by [_load_server_states()], as [main]
    does before every command. *)
Definition boot (w : World) (cs : list MCPServerConfig)
    (files : gmap string StateData) : Manager :=
  load_server_states w (mkManager cs ∅ [] ∅ files []).

(** [mcp_config["mcpServers"][n] = cfg]: an existing key keeps its place. *)
Fixpoint upsert_config (cfg : MCPServerConfig) (cs : list MCPServerConfig)
    : list MCPServerConfig :=
  match cs with
  | [] => [cfg]
  | c :: cs' =>
      if decide (c_name c = c_name cfg) then cfg :: cs'
      else c :: upsert_config cfg cs'
  end.

(** [deploy_server]: the configuration file is rewritten and reloaded;
    no record and no process is touched. *)
Definition deploy_server (w : World) (m : Manager) (cfg : MCPServerConfig)
    : Manager * bool :=
  if config_io_ok w
  then (mkManager (upsert_config cfg (server_configs m)) (servers m) (objs m)
                  (processes m) (disk m) (trace m), true)
  else (m, false).

(** [start_all_servers] *)
Definition start_all_servers (w : World) (m : Manager) : Manager :=
  foldl (λ acc c, if auto_start c then (start_server w acc (c_name c) false).1
                  else acc)
        m (server_configs m).

(** [list(self.servers.keys())]: a dictionary lists its keys in the order
    in which they were first inserted, and every insertion of a key (line
    178, line 349) allocates a record that carries the key as its name.
    Keys bound to a record of another name, which no method makes, come
    last. *)
Definition server_keys (m : Manager) : list string :=
  let seen := reverse (remove_dups (reverse (name <$> objs m))) in
  filter (λ n, is_Some (servers m !! n)) seen ++
  filter (λ n, n ∉ seen) (map_to_list (servers m)).*1.

(** [stop_all_servers] *)
Definition stop_all_servers (w : World) (m : Manager) (force : bool)
    : Manager :=
  foldl (λ acc n, (stop_server w acc n force).1) m (server_keys m).

(** The operations of a supervisor session; [OpTick] is one turn of the
    monitor loop. *)
Inductive Op :=
  | OpStart (n : string) (force : bool)
  | OpStop (n : string) (force : bool)
  | OpRestart (n : string)
  | OpStatus (n : option string)
  | OpDeploy (cfg : MCPServerConfig)
  | OpStartAll
  | OpStopAll (force : bool)
  | OpTick (interval : Z).

Definition exec (w : World) (op : Op) (m : Manager) : Manager :=
  match op with
  | OpStart n force => (start_server w m n force).1
  | OpStop n force => (stop_server w m n force).1
  | OpRestart n => (restart_server w m n).1
  | OpStatus n => (get_server_status w m n).1
  | OpDeploy cfg => (deploy_server w m cfg).1
  | OpStartAll => start_all_servers w m
  | OpStopAll force => stop_all_servers w m force
  | OpTick interval => monitor_tick w interval m
  end.

(** A session: each operation runs in the environment it meets. *)
Definition session (steps : list (World * Op)) (m : Manager) : Manager :=
  foldl (λ acc wo, exec wo.1 wo.2 acc) m steps.

(** The record of a running server after a failed check and the increment
    of line 405. *)
Definition after_failed_check (s : MCPServerStatus) : MCPServerStatus :=
  with_error_count (error_count s + 1) (mark_stopped s).

(** ** Footprints *)

(** The store is well formed when every name is bound to an allocated
    record and no record is shared by two names: what Python guarantees
    for a dictionary whose values are built one per key. *)
Definition wf_store (m : Manager) : Prop :=
  (∀ n l, servers m !! n = Some l → (l < length (objs m))%nat) ∧
  (∀ n1 n2 l, servers m !! n1 = Some l → servers m !! n2 = Some l → n1 = n2).

(** The log lines and spawns of an event name a server; sleeps, signals
    and waits do not. *)
Definition about (k : string) (e : Event) : Prop :=
  match e with
  | LogStarting n | LogRestarting n | LogAutoRestarting n | Spawned n _ => n = k
  | Sleep _ | Killpg _ _ | ProcSignal _ _ | Wait _ _ => True
  end.

Definition not_about (k : string) (e : Event) : Prop :=
  match e with
  | LogStarting n | LogRestarting n | LogAutoRestarting n | Spawned n _ => n ≠ k
  | Sleep _ | Killpg _ _ | ProcSignal _ _ | Wait _ _ => True
  end.

(** [confined k m m']: going from [m] to [m'] touched nothing but the
    record(s) of name [k], and added to the trace only events about [k]. *)
Record confined (k : string) (m m' : Manager) : Prop := mkConfined {
  cf_configs : server_configs m' = server_configs m;
  cf_length : (length (objs m) ≤ length (objs m'))%nat;
  cf_wf : wf_store m → wf_store m';
  cf_others : ∀ n, n ≠ k → servers m' !! n = servers m !! n;
  cf_self : servers m' !! k = servers m !! k ∨
            ∃ l', servers m' !! k = Some l' ∧ (length (objs m) ≤ l')%nat;
  cf_objs : ∀ l, (l < length (objs m))%nat → servers m !! k ≠ Some l →
                 objs m' !! l = objs m !! l;
  cf_trace : ∃ es, trace m' = trace m ++ es ∧ Forall (about k) es
}.

(** ** The Running invariant *)

(** A record that says Running names a process. *)
Definition record_ok (s : MCPServerStatus) : Prop :=
  status s = Running → is_Some (pid s).

Definition store_ok (m : Manager) : Prop := Forall record_ok (objs m).

(** ** Sample data *)

(** The spec's scenario server: [sleep 9999], restarted automatically. *)
Definition alpha : MCPServerConfig :=
  mkConfig "alpha" ["sleep"] ["9999"] true true None 3 5.

(** An environment in which everything works, [os] being supplied: spawns
    return pid 4242 and survive the grace second, every pid is alive,
    signals are delivered, children exit on SIGTERM, files can be
    written. *)
Definition calm : World :=
  mkWorld 1000 true true (λ _, SpawnReturns 4242 true) (λ _, PAlive)
          (λ _ _, false) (λ _, false) (λ _, true) true true 9223360000.

(** The environment of the module as it is, otherwise like [calm]:
    children would live and signals would be delivered, but no spawn and
    no signal gets past the unbound [os]. *)
Definition as_shipped : World :=
  mkWorld 1000 false true (λ _, SpawnReturns 4242 true) (λ _, PAlive)
          (λ _ _, false) (λ _, false) (λ _, true) true true 9223360000.

(** The same, with no pid alive. *)
Definition as_shipped_deserted : World :=
  mkWorld 2000 false true (λ _, SpawnReturns 4243 true) (λ _, PGone)
          (λ _ _, false) (λ _, false) (λ _, true) true true 9223360000.

(** A manager that knows [alpha] and nothing else. *)
Definition m_alpha : Manager := mkManager [alpha] ∅ [] ∅ ∅ [].

(** [alpha] Running under pid 4242, its handle in [self.processes]. *)
Definition m_alpha_live : Manager :=
  mkManager [alpha] {["alpha" := 0%nat]}
            [mkStatus "alpha" Running (Some 4242) None ["sleep"; "9999"]
                      (Some 1000) None 0 0]
            {["alpha" := 4242]} ∅ [].


(** [alpha] after a successful [start_server]. *)
Definition m_alpha_up : Manager := (start_server calm m_alpha "alpha" false).1.

(** An environment like [calm], except that every spawned child has
    exited by the end of the grace second. *)
Definition crashy : World :=
  mkWorld 1000 true true (λ _, SpawnReturns 4242 false) (λ _, PAlive)
          (λ _ _, false) (λ _, false) (λ _, true) true true 9223360000.

(** An environment like [calm], except that no child can be spawned
    (binary missing, permission denied). *)
Definition barren : World :=
  mkWorld 1000 true true (λ _, SpawnRaises) (λ _, PAlive)
          (λ _ _, false) (λ _, false) (λ _, true) true true 9223360000.

(** How often an event occurs in a trace. *)
Definition occurrences (e : Event) (tr : list Event) : nat :=
  length (filter (λ x, x = e) tr).

(** What one monitor turn adds to the trace when it tries to bring [alpha]
    back up in [barren] and then sleeps for 30 seconds. *)
Definition failed_auto_restart : list Event :=
  [LogAutoRestarting "alpha"; Sleep 5; LogStarting "alpha"; Sleep 30].

(** [alpha] after a start whose child exited at once: an Errored record
    with [restart_count = 0], reached with trace [tr]. *)
Definition m_alpha_failed (tr : list Event) : Manager :=
  mkManager [alpha] {["alpha" := 0%nat]}
            [with_status Error (fresh_status crashy alpha 4242)]
            {["alpha" := 4242]} ∅ tr.

(** A server that is started with the others but that the monitor must
    leave alone: [auto_restart] is off. *)
Definition beta : MCPServerConfig :=
  mkConfig "beta" ["sleep"] ["9999"] true false None 5 5.

(** [beta] Running under pid 4300, its handle in [self.processes]. *)
Definition m_beta_live : Manager :=
  mkManager [beta] {["beta" := 0%nat]}
            [mkStatus "beta" Running (Some 4300) None ["sleep"; "9999"]
                      (Some 1000) None 0 0]
            {["beta" := 4300]} ∅ [].

(** An environment like [calm], except that no pid is alive any more. *)
Definition deserted : World :=
  mkWorld 2000 true true (λ _, SpawnReturns 4243 true) (λ _, PGone)
          (λ _ _, false) (λ _, false) (λ _, true) true true 9223360000.

(** [alpha] running with two failed checks on its record, as after loading
    a state file that says so. *)
Definition m_alpha_flaky : Manager :=
  mkManager [alpha] {["alpha" := 0%nat]}
            [with_error_count 2 (fresh_status calm alpha 4242)]
            {["alpha" := 4242]} ∅ [].

(** The runtime directory after a supervisor that had [alpha] running
    (pid 4242, two restarts so far) went away without stopping it. *)
Definition alpha_state_file : gmap string StateData :=
  {["alpha" := mkState "alpha" Running (Some 4242) (Some 900) (Some 2) (Some 0)]}.

(** The record [_load_server_states] builds for a state file whose
    process is not found alive. *)
Definition loaded_stopped (cfg : MCPServerConfig) (sd : StateData)
    : MCPServerStatus :=
  mkStatus (sd_name sd) Stopped None None (c_command cfg) (sd_start_time sd)
           None (default 0 (sd_error_count sd))
           (default 0 (sd_restart_count sd)).


(** [alpha] parked: an Errored record that has used its three restarts. *)
Definition m_alpha_parked : Manager :=
  mkManager [alpha] {["alpha" := 0%nat]}
            [with_status Error
               (with_restart_count 3 (fresh_status calm alpha 4242))]
            {["alpha" := 4242]} ∅ [].

(** An environment like [calm], except that no signal can be delivered
    (the process group is gone, or belongs to somebody else). *)
Definition unreachable : World :=
  mkWorld 1000 true true (λ _, SpawnReturns 4242 true) (λ _, PAlive)
          (λ _ _, true) (λ _, false) (λ _, true) true true 9223360000.

(** An environment like [calm], except that children ignore SIGTERM and
    the SIGKILL that follows the timeout cannot be delivered. *)
Definition stubborn : World :=
  mkWorld 1000 true true (λ _, SpawnReturns 4242 true) (λ _, PAlive)
          (λ _ sig, match sig with SIGKILL => true | SIGTERM => false end)
          (λ _, true) (λ _, true) true true 9223360000.

(** Signals and waits, as opposed to log lines, spawns and sleeps. *)
Definition is_signal (e : Event) : Prop :=
  match e with
  | Killpg _ _ | ProcSignal _ _ | Wait _ _ => True
  | LogStarting _ | LogRestarting _ | LogAutoRestarting _ | Spawned _ _
  | Sleep _ => False
  end.

(** ** The configuration file *)

(** The value of ["command"] in [mcp.json]: a string or a list. *)
Inductive CommandValue :=
  | CmdString (s : string)
  | CmdList (l : list string).

(** One entry of ["mcpServers"]: every key may be absent. *)
Record ServerData := mkData {
  d_command : option CommandValue;
  d_args : option (list string);
  d_auto_start : option bool;
  d_auto_restart : option bool;
  d_health_check_url : option string;
  d_max_restarts : option Z;
  d_restart_delay : option Z
}.

(** Lines 116-130: the configuration built from an entry. *)
Definition parse_server_data (n : string) (d : ServerData) : MCPServerConfig :=
  mkConfig n
           match d_command d with
           | Some (CmdString s) => [s]
           | Some (CmdList l) => l
           | None => []
           end
           (default [] (d_args d))
           (default true (d_auto_start d))
           (default true (d_auto_restart d))
           (d_health_check_url d)
           (default 5 (d_max_restarts d))
           (default 5 (d_restart_delay d)).

(** [mcp.json]: absent ([None]), or a JSON object without ([Some None]) or
    with the key ["mcpServers"], whose entries keep their order. *)
Definition ConfigFile : Type := option (option (list (string * ServerData))).

(** [_load_server_configs] *)
Definition load_server_configs (f : ConfigFile) : list MCPServerConfig :=
  match f with
  | Some (Some l) => (λ kv, parse_server_data kv.1 kv.2) <$> l
  | Some None | None => []
  end.

(** [mcp_config["mcpServers"][n] = d] on the entries of the file. *)
Fixpoint upsert_data (n : string) (d : ServerData)
    (l : list (string * ServerData)) : list (string * ServerData) :=
  match l with
  | [] => [(n, d)]
  | (k, x) :: l' =>
      if decide (k = n) then (n, d) :: l' else (k, x) :: upsert_data n d l'
  end.

(** [deploy_server] on the file itself: an absent file is created; a file
    without ["mcpServers"] makes line 473 raise [KeyError]; after the
    write the configurations are those that [_load_server_configs] reads
    back. *)
Definition deploy_server_file (w : World) (f : ConfigFile) (m : Manager)
    (n : string) (d : ServerData) : ConfigFile * Manager * bool :=
  if config_io_ok w then
    match match f with None => Some [] | Some o => o end with
    | Some l =>
        let f' : ConfigFile := Some (Some (upsert_data n d l)) in
        (f',
         mkManager (load_server_configs f') (servers m) (objs m)
                   (processes m) (disk m) (trace m),
         true)
    | None => (f, m, false)
    end
  else (f, m, false).

(** A file with one server, given by its command line alone. *)
Definition gamma_data : ServerData :=
  mkData (Some (CmdString "gamma-server")) None None None None None None.

(** A manager with no configuration at all. *)
Definition m_empty : Manager := mkManager [] ∅ [] ∅ ∅ [].

(** ** The failure counter *)

(** A record that says Running has failed at most one check. *)
Definition record_calm (s : MCPServerStatus) : Prop :=
  status s = Running → error_count s ≤ 1.

(** No restart has been logged. *)
Definition no_restarts (tr : list Event) : Prop :=
  ∀ k, occurrences (LogRestarting k) tr = 0%nat.

(** The operations of a session other than an explicit restart. *)
Definition not_restart (op : Op) : Prop :=
  match op with OpRestart _ => False | _ => True end.

(** State files whose failure counter, where present, is at most 1. *)
Definition files_calm (files : gmap string StateData) : Prop :=
  ∀ k sd, files !! k = Some sd → default 0 (sd_error_count sd) ≤ 1.

(** What a session without explicit restart keeps true. *)
Definition calm_state (m : Manager) : Prop :=
  Forall record_calm (objs m) ∧ no_restarts (trace m) ∧ files_calm (disk m).

(** ** Handles *)

(** Every Running record that a name is bound to has a handle under that
    name, for the pid the record shows. *)
Definition handles_ok (m : Manager) : Prop :=
  wf_store m ∧
  ∀ n l s, servers m !! n = Some l → objs m !! l = Some s →
           status s = Running → processes m !! n = pid s.

(** A stopped server whose configured [restart_delay] is negative, listed
    before [alpha]. *)
Definition delta : MCPServerConfig :=
  mkConfig "delta" ["sleep"] ["1"] true true None 5 (-1).

Definition m_delta_alpha : Manager :=
  mkManager [delta; alpha] {["delta" := 0%nat; "alpha" := 1%nat]}
            [mark_stopped (fresh_status calm delta 4000);
             mark_stopped (fresh_status calm alpha 4242)]
            ∅ ∅ [].

(** The runtime directory with a state file of [alpha] (two restarts so
    far) and one of [beta], left by a supervisor whose servers are gone. *)
Definition two_state_files : gmap string StateData :=
  {["alpha" := mkState "alpha" Running (Some 4242) (Some 900) (Some 2) (Some 0);
    "beta" := mkState "beta" Running (Some 4300) (Some 900) (Some 0) (Some 0)]}.

(** The manager that [main] builds from them: both servers Stopped. *)
Definition m_booted : Manager :=
  boot as_shipped_deserted [alpha; beta] two_state_files.

(** [alpha] as [alpha_state_file] brings it back when its process is gone
    (two restarts on its record), in status [st] and with trace [tr]. *)
Definition m_alpha_loaded (st : Status) (tr : list Event) : Manager :=
  mkManager [alpha] {["alpha" := 0%nat]}
            [mkStatus "alpha" st None None ["sleep"] (Some 900) None 0 2]
            ∅ alpha_state_file tr.

(** ** The restart counter *)

(** [grows m m']: the names are bound as in [m], and every record of [m]
    is still there with a [restart_count] that is no smaller. *)
Definition grows (m m' : Manager) : Prop :=
  servers m' = servers m ∧
  ∀ l s, objs m !! l = Some s →
         ∃ s', objs m' !! l = Some s' ∧ restart_count s ≤ restart_count s'.

(** * Properties *)

(** ** Store lemmas *)

Lemma get_server_lookup m n l s :
  servers m !! n = Some l → objs m !! l = Some s → get_server m n = Some s.
Proof. intros Hn Hl. unfold get_server. by rewrite Hn. Qed.

Lemma get_server_update_obj m n l f s :
  servers m !! n = Some l → objs m !! l = Some s →
  get_server (update_obj l f m) n = Some (f s).
Proof.
  intros Hn Hl. unfold get_server, update_obj; simpl. rewrite Hn; simpl.
  rewrite list_lookup_alter_eq. by rewrite Hl.
Qed.

Lemma get_server_update_obj_ne m n l l' f :
  servers m !! n = Some l' → l ≠ l' →
  get_server (update_obj l f m) n = objs m !! l'.
Proof.
  intros Hn Hne. unfold get_server, update_obj; simpl. rewrite Hn; simpl.
  by apply list_lookup_alter_ne.
Qed.

Lemma save_server_state_disk w m n s :
  get_server m n = Some s → save_ok w n = true →
  disk (save_server_state w m n) !! n = Some (state_of s).
Proof.
  intros Hg Hs. unfold save_server_state. rewrite Hg, Hs; simpl.
  apply lookup_insert_eq.
Qed.

Lemma save_server_state_get w m n k :
  get_server (save_server_state w m n) k = get_server m k.
Proof.
  unfold save_server_state.
  destruct (get_server m n); [destruct (save_ok w n)|]; reflexivity.
Qed.

Lemma save_server_state_fields w m n :
  servers (save_server_state w m n) = servers m ∧
  objs (save_server_state w m n) = objs m ∧
  processes (save_server_state w m n) = processes m ∧
  trace (save_server_state w m n) = trace m ∧
  server_configs (save_server_state w m n) = server_configs m.
Proof.
  unfold save_server_state.
  destruct (get_server m n); [destruct (save_ok w n)|]; done.
Qed.

Lemma wf_store_update_obj l f m : wf_store m → wf_store (update_obj l f m).
Proof.
  intros [Hb Hi]. split; simpl; [|done].
  intros n l0 Hn. rewrite length_alter. by eapply Hb.
Qed.

Lemma wf_store_load_one w sd m : wf_store m → wf_store (load_one w sd m).
Proof.
  intros Hwf. unfold load_one.
  destruct (find_config _ _) as [cfg|]; [|done].
  destruct (_ && popen_empty_raises w); [done|].
  destruct Hwf as [Hb Hi]. split; simpl.
  - intros n l. rewrite length_app; simpl.
    rewrite lookup_insert. case_decide; [intros [= <-]; lia|].
    intros Hn. apply Hb in Hn. lia.
  - intros n1 n2 l. rewrite !lookup_insert.
    repeat case_decide; subst; try done.
    + intros [= <-] Hn2. apply Hb in Hn2. lia.
    + intros Hn1 [= <-]. apply Hb in Hn1. lia.
    + apply Hi.
Qed.

Lemma load_one_configs w sd m :
  server_configs (load_one w sd m) = server_configs m.
Proof.
  unfold load_one. destruct (find_config _ _); [|done].
  by destruct (_ && popen_empty_raises w).
Qed.

Lemma server_configs_boot w cs files : server_configs (boot w cs files) = cs.
Proof.
  unfold boot, load_server_states; simpl.
  induction (map_to_list files) as [|[k sd] L IH]; simpl; [done|].
  by rewrite load_one_configs.
Qed.

Lemma wf_store_boot w cs files : wf_store (boot w cs files).
Proof.
  unfold boot, load_server_states; simpl.
  induction (map_to_list files) as [|[k sd] L IH]; simpl.
  - split; simpl; intros *; by rewrite lookup_empty.
  - by apply wf_store_load_one.
Qed.

(** ** stop_server *)

Lemma shipped_spawn w n : shipped w → spawn w n = SpawnRaises.
Proof. intros Hw. unfold spawn. by rewrite Hw. Qed.

Lemma shipped_signal w p sig : shipped w → signal_raises w p sig = true.
Proof. intros Hw. unfold signal_raises. by rewrite Hw. Qed.

(** A Running server whose handle the manager holds, in the module as it
    is: the signalling statement raises and the [except] clause of line
    255 returns failure with nothing done. *)
Lemma stop_server_shipped w m n l s p force :
  shipped w →
  servers m !! n = Some l →
  objs m !! l = Some s →
  status s = Running →
  processes m !! n = Some p →
  stop_server w m n force = (emit [] m, false).
Proof.
  intros Hw Hn Hl Hrun Hp.
  unfold stop_server. rewrite Hn, Hl, Hrun, Hp; simpl.
  unfold stop_process. rewrite !shipped_signal by done. by destruct force.
Qed.

(** C7 (what the code does instead). In the module as it is, [stop_server]
    on a Running server whose process handle the manager holds, with
    [force] or without, sends no signal and waits for nothing: it returns
    failure, the record is still Running with the pid it had, every record
    and binding is as before, the handle is kept and no state file is
    written. *)
Theorem stop_server_never_signals w m n l s p force :
  shipped w →
  servers m !! n = Some l →
  objs m !! l = Some s →
  status s = Running →
  processes m !! n = Some p →
  (stop_server w m n force).2 = false ∧
  get_server (stop_server w m n force).1 n = Some s ∧
  servers (stop_server w m n force).1 = servers m ∧
  objs (stop_server w m n force).1 = objs m ∧
  processes (stop_server w m n force).1 = processes m ∧
  disk (stop_server w m n force).1 = disk m ∧
  trace (stop_server w m n force).1 = trace m.
Proof.
  intros Hw Hn Hl Hrun Hp.
  rewrite (stop_server_shipped w m n l s p force) by done. simpl.
  split; [done|]. split; [by apply get_server_lookup with l|].
  do 4 (split; [done|]). apply app_nil_r.
Qed.

Lemma stop_server_never_signals_witness :
  (stop_server as_shipped m_alpha_live "alpha" false).2 = false ∧
  get_server (stop_server as_shipped m_alpha_live "alpha" false).1 "alpha"
  = Some (mkStatus "alpha" Running (Some 4242) None ["sleep"; "9999"]
                   (Some 1000) None 0 0) ∧
  servers (stop_server as_shipped m_alpha_live "alpha" false).1
  = servers m_alpha_live ∧
  objs (stop_server as_shipped m_alpha_live "alpha" false).1
  = objs m_alpha_live ∧
  processes (stop_server as_shipped m_alpha_live "alpha" false).1
  = processes m_alpha_live ∧
  disk (stop_server as_shipped m_alpha_live "alpha" false).1
  = disk m_alpha_live ∧
  trace (stop_server as_shipped m_alpha_live "alpha" false).1
  = trace m_alpha_live.
Proof.
  apply (stop_server_never_signals as_shipped m_alpha_live "alpha" 0%nat
           (mkStatus "alpha" Running (Some 4242) None ["sleep"; "9999"]
                     (Some 1000) None 0 0) 4242 false).
  - reflexivity.
  - reflexivity.
  - reflexivity.
  - reflexivity.
  - reflexivity.
Defined.

Lemma trace_update_obj l f m : trace (update_obj l f m) = trace m.
Proof. reflexivity. Qed.

Lemma trace_mark_error m n : trace (mark_error m n) = trace m.
Proof. unfold mark_error. by destruct (servers m !! n). Qed.

Lemma trace_save_server_state w m n : trace (save_server_state w m n) = trace m.
Proof. apply save_server_state_fields. Qed.

Lemma trace_bump_restart_count m n : trace (bump_restart_count m n) = trace m.
Proof. unfold bump_restart_count. by destruct (servers m !! n). Qed.

(** ** start_server *)

Lemma find_config_name n cs cfg :
  find_config n cs = Some cfg → c_name cfg = n.
Proof.
  unfold find_config. intros H.
  destruct (list_find _ cs) as [[i c]|] eqn:Hf; simplify_eq/=.
  by apply list_find_Some in Hf as (_ & Hc & _).
Qed.

Lemma get_server_register w cfg p m :
  get_server (register w cfg p m) (c_name cfg) = Some (fresh_status w cfg p).
Proof.
  unfold get_server, register; simpl. rewrite lookup_insert_eq; simpl.
  rewrite lookup_app_r by lia. by rewrite Nat.sub_diag.
Qed.

Lemma get_server_mark_error m n :
  get_server (mark_error m n) n = with_status Error <$> get_server m n.
Proof.
  unfold mark_error, get_server.
  destruct (servers m !! n) as [l|] eqn:Hn; simpl; [|by rewrite Hn].
  rewrite Hn; simpl. apply list_lookup_alter_eq.
Qed.

(** The body of [start_server] once the two early returns are passed. *)
Lemma start_server_open w m n cfg force :
  find_config n (server_configs m) = Some cfg →
  (∀ s, get_server m n = Some s → status s = Running → force = true) →
  start_server w m n force
  = match spawn w n with
    | SpawnRaises => (mark_error (emit [LogStarting n] m) n, false)
    | SpawnReturns p alive =>
        let m2 := emit [Spawned n p; Sleep 1]
                       (register w cfg p (emit [LogStarting n] m)) in
        if alive then (save_server_state w m2 n, true)
        else (mark_error m2 n, false)
    end.
Proof.
  intros Hcfg Hnr. unfold start_server. rewrite Hcfg.
  destruct (get_server m n) as [s|] eqn:Hg; [|done].
  destruct (status s) eqn:Hst; try done.
  by rewrite (Hnr s eq_refl Hst).
Qed.

Lemma start_server_alive w m n cfg force p :
  find_config n (server_configs m) = Some cfg →
  (∀ s, get_server m n = Some s → status s = Running → force = true) →
  spawn w n = SpawnReturns p true →
  (start_server w m n force).2 = true ∧
  get_server (start_server w m n force).1 n = Some (fresh_status w cfg p) ∧
  processes (start_server w m n force).1 !! n = Some p ∧
  trace (start_server w m n force).1
  = trace m ++ [LogStarting n; Spawned n p; Sleep 1] ∧
  (save_ok w n = true →
   disk (start_server w m n force).1 !! n
   = Some (state_of (fresh_status w cfg p))).
Proof.
  intros Hcfg Hnr Hsp. rewrite (start_server_open w m n cfg) by done.
  rewrite Hsp; simpl. apply find_config_name in Hcfg as <-.
  set (m2 := emit _ _).
  assert (Hg2 : get_server m2 (c_name cfg) = Some (fresh_status w cfg p))
    by exact (get_server_register w cfg p _).
  destruct (save_server_state_fields w m2 (c_name cfg))
    as (_ & _ & Hpr & Htr & _).
  split; [done|]. split; [by rewrite save_server_state_get|].
  split; [rewrite Hpr; subst m2; simpl; apply lookup_insert_eq|].
  split; [rewrite Htr; subst m2; simpl; by rewrite <- app_assoc|].
  intros Hs. by apply save_server_state_disk.
Qed.

Lemma start_server_exited w m n cfg force p :
  find_config n (server_configs m) = Some cfg →
  (∀ s, get_server m n = Some s → status s = Running → force = true) →
  spawn w n = SpawnReturns p false →
  (start_server w m n force).2 = false ∧
  get_server (start_server w m n force).1 n
  = Some (with_status Error (fresh_status w cfg p)) ∧
  trace (start_server w m n force).1
  = trace m ++ [LogStarting n; Spawned n p; Sleep 1] ∧
  disk (start_server w m n force).1 = disk m.
Proof.
  intros Hcfg Hnr Hsp. rewrite (start_server_open w m n cfg) by done.
  rewrite Hsp; simpl. apply find_config_name in Hcfg as <-.
  set (m2 := emit _ _).
  assert (Hg2 : get_server m2 (c_name cfg) = Some (fresh_status w cfg p))
    by exact (get_server_register w cfg p _).
  split; [done|]. split; [by rewrite get_server_mark_error, Hg2|].
  split; [rewrite trace_mark_error; subst m2; simpl; by rewrite <- app_assoc|].
  unfold mark_error. by destruct (servers m2 !! c_name cfg).
Qed.

Lemma start_server_raises w m n cfg force :
  find_config n (server_configs m) = Some cfg →
  (∀ s, get_server m n = Some s → status s = Running → force = true) →
  spawn w n = SpawnRaises →
  (start_server w m n force).2 = false ∧
  get_server (start_server w m n force).1 n
  = with_status Error <$> get_server m n ∧
  servers (start_server w m n force).1 = servers m ∧
  trace (start_server w m n force).1 = trace m ++ [LogStarting n] ∧
  disk (start_server w m n force).1 = disk m.
Proof.
  intros Hcfg Hnr Hsp. rewrite (start_server_open w m n cfg) by done.
  rewrite Hsp; simpl.
  split; [done|]. split; [by rewrite get_server_mark_error|].
  rewrite trace_mark_error.
  unfold mark_error. by destruct (servers (emit _ m) !! n).
Qed.

(** C6 (as the code has it). When [start_server] is past its early returns
    (the name is configured and its server is not already Running, or
    [force] is given) and the spawn raises, it returns failure after
    logging the attempt; a record the name already had is set to Errored,
    every other field of it (the pid included) being as before; no record
    is created where there was none; no binding, no other record, no
    handle and no state file is touched, so the failure is not persisted.
    The record has no field for an error message. *)
Theorem start_server_failure w m n cfg force :
  find_config n (server_configs m) = Some cfg →
  (∀ s, get_server m n = Some s → status s = Running → force = true) →
  spawn w n = SpawnRaises →
  (start_server w m n force).2 = false ∧
  get_server (start_server w m n force).1 n
  = match get_server m n with
    | Some s =>
        Some (mkStatus (name s) Error (pid s) (port s) (command s)
                       (start_time s) (last_health_check s) (error_count s)
                       (restart_count s))
    | None => None
    end ∧
  (∀ k, k ≠ n → servers m !! k ≠ servers m !! n →
        get_server (start_server w m n force).1 k = get_server m k) ∧
  servers (start_server w m n force).1 = servers m ∧
  length (objs (start_server w m n force).1) = length (objs m) ∧
  processes (start_server w m n force).1 = processes m ∧
  disk (start_server w m n force).1 = disk m ∧
  trace (start_server w m n force).1 = trace m ++ [LogStarting n].
Proof.
  intros Hcfg Hnr Hsp.
  destruct (start_server_raises w m n cfg force Hcfg Hnr Hsp)
    as (Hr & Hg & Hs & Ht & Hd).
  split; [done|]. split; [rewrite Hg; by destruct (get_server m n)|].
  rewrite (start_server_open w m n cfg) in * by done.
  rewrite Hsp in *. simpl in *.
  split.
  { intros k Hk Hne. unfold mark_error. simpl.
    destruct (servers m !! n) as [l|] eqn:Hn; [|done].
    unfold get_server; simpl.
    destruct (servers m !! k) as [l'|] eqn:Hk'; [|done]. simpl.
    apply list_lookup_alter_ne. congruence. }
  split; [done|].
  split.
  { unfold mark_error; simpl. destruct (servers m !! n); [|done].
    simpl. by rewrite length_alter. }
  split; [unfold mark_error; simpl; by destruct (servers m !! n)|].
  done.
Qed.

Lemma start_server_failure_witness :
  (start_server as_shipped (m_alpha_loaded Stopped []) "alpha" false).2
  = false ∧
  get_server (start_server as_shipped (m_alpha_loaded Stopped []) "alpha"
                           false).1 "alpha"
  = Some (mkStatus "alpha" Error None None ["sleep"] (Some 900) None 0 2) ∧
  (∀ k, k ≠ "alpha" →
        servers (m_alpha_loaded Stopped []) !! k
        ≠ servers (m_alpha_loaded Stopped []) !! "alpha" →
        get_server (start_server as_shipped (m_alpha_loaded Stopped [])
                                 "alpha" false).1 k
        = get_server (m_alpha_loaded Stopped []) k) ∧
  servers (start_server as_shipped (m_alpha_loaded Stopped []) "alpha" false).1
  = servers (m_alpha_loaded Stopped []) ∧
  length (objs (start_server as_shipped (m_alpha_loaded Stopped []) "alpha"
                             false).1)
  = length (objs (m_alpha_loaded Stopped [])) ∧
  processes (start_server as_shipped (m_alpha_loaded Stopped []) "alpha"
                          false).1
  = processes (m_alpha_loaded Stopped []) ∧
  disk (start_server as_shipped (m_alpha_loaded Stopped []) "alpha" false).1
  = alpha_state_file ∧
  trace (start_server as_shipped (m_alpha_loaded Stopped []) "alpha" false).1
  = [] ++ [LogStarting "alpha"].
Proof.
  apply (start_server_failure as_shipped (m_alpha_loaded Stopped []) "alpha"
           alpha false).
  - reflexivity.
  - intros s Hs Hr. injection Hs as <-. discriminate Hr.
  - reflexivity.
Defined.

(** C6 (as stated) fails: a spawn that raises on a configured server
    without a record leaves no record, Errored or otherwise, and no state
    file; on a server that state files brought back as Stopped it leaves
    an Errored record in memory while the state file still says what it
    said before. *)
Lemma start_server_failure_not_persisted :
  start_server as_shipped m_alpha "alpha" false
  = (emit [LogStarting "alpha"] m_alpha, false) ∧
  get_server (start_server as_shipped m_alpha "alpha" false).1 "alpha" = None ∧
  disk (start_server as_shipped m_alpha "alpha" false).1 = ∅ ∧
  let m := boot as_shipped_deserted [alpha] alpha_state_file in
  status <$> get_server m "alpha" = Some Stopped ∧
  (start_server as_shipped m "alpha" false).2 = false ∧
  status <$> get_server (start_server as_shipped m "alpha" false).1 "alpha"
  = Some Error ∧
  disk (start_server as_shipped m "alpha" false).1 = alpha_state_file.
Proof. repeat split; reflexivity. Qed.

(** ** Traces only grow *)

Lemma start_server_trace w m n force :
  ∃ es, trace (start_server w m n force).1 = trace m ++ es.
Proof.
  unfold start_server.
  destruct (find_config n (server_configs m)) as [cfg|];
    [|exists []; simpl; by rewrite app_nil_r].
  destruct (match get_server m n with Some _ => _ | None => _ end);
    [exists []; simpl; by rewrite app_nil_r|].
  destruct (spawn w n) as [|p [|]]; simpl.
  - exists [LogStarting n]. by rewrite trace_mark_error.
  - exists [LogStarting n; Spawned n p; Sleep 1].
    rewrite trace_save_server_state; simpl. by rewrite <- app_assoc.
  - exists [LogStarting n; Spawned n p; Sleep 1].
    rewrite trace_mark_error; simpl. by rewrite <- app_assoc.
Qed.

Lemma stop_server_trace w m n force :
  ∃ es, trace (stop_server w m n force).1 = trace m ++ es.
Proof.
  unfold stop_server.
  destruct (servers m !! n) as [l|]; [|exists []; simpl; by rewrite app_nil_r].
  destruct (objs m !! l) as [s|]; [|exists []; simpl; by rewrite app_nil_r].
  destruct (negb _); [exists []; simpl; by rewrite app_nil_r|].
  destruct (processes m !! n) as [p|].
  - destruct (stop_process w p force) as [es [|]]; exists es; [|done].
    change (trace (finish_stop w l n (drop_process n (emit es m)))
            = trace m ++ es).
    unfold finish_stop. by rewrite trace_save_server_state.
  - exists [].
    change (trace (finish_stop w l n m) = trace m ++ []).
    unfold finish_stop.
    by rewrite trace_save_server_state, trace_update_obj, app_nil_r.
Qed.

(** ** restart_server *)

(** C4 (as the code has it). [restart_server] logs the restart, adds one to
    [restart_count] of the record the name is bound to (where there is
    one), and then calls [stop_server] on that state.  When the stop
    reports success it sleeps for 2 seconds, whatever [restart_delay] the
    configuration holds, and returns what [start_server] returns; when the
    stop reports failure it returns failure without sleeping or starting. *)
Theorem restart_server_sequence w m n :
  let m1 := bump_restart_count (emit [LogRestarting n] m) n in
  let m2 := (stop_server w m1 n false).1 in
  get_server m1 n
  = (λ s, with_restart_count (restart_count s + 1) s) <$> get_server m n ∧
  ∃ es_stop,
    trace m2 = trace m ++ [LogRestarting n] ++ es_stop ∧
    ((stop_server w m1 n false).2 = true →
     restart_server w m n = start_server w (emit [Sleep 2] m2) n false ∧
     ∃ es_start,
       trace (restart_server w m n).1
       = trace m ++ [LogRestarting n] ++ es_stop ++ [Sleep 2] ++ es_start) ∧
    ((stop_server w m1 n false).2 = false →
     restart_server w m n = (m2, false)).
Proof.
  intros m1 m2. split.
  { subst m1. unfold bump_restart_count, get_server; simpl.
    destruct (servers m !! n) as [l|] eqn:Hn; simpl; rewrite Hn; [|done].
    simpl. apply list_lookup_alter_eq. }
  destruct (stop_server_trace w m1 n false) as [es Hes].
  exists es. fold m2 in Hes.
  assert (Ht1 : trace m1 = trace m ++ [LogRestarting n])
    by (subst m1; by rewrite trace_bump_restart_count).
  split; [by rewrite Hes, Ht1, <- app_assoc|].
  unfold restart_server. fold m1.
  destruct (stop_server w m1 n false) as [m2' ok] eqn:Hstop.
  simpl in m2; subst m2. simpl. split; intros ->; [|done].
  split; [done|].
  destruct (start_server_trace w (emit [Sleep 2] m2') n false) as [es' Hes'].
  exists es'. rewrite Hes'; simpl. rewrite Hes, Ht1.
  by rewrite <- !app_assoc.
Qed.

(** C4 (as stated) fails: [alpha] has [restart_delay = 5], and between the
    stop and the start of a restart the manager sleeps for 2 seconds, never
    for 5. *)
Lemma restart_server_ignores_restart_delay :
  restart_delay alpha = 5 ∧
  trace (restart_server calm m_alpha_up "alpha").1
  = trace m_alpha_up ++
    [LogRestarting "alpha"; Killpg 4242 SIGTERM; Wait 4242 10; Sleep 2;
     LogStarting "alpha"; Spawned "alpha" 4242; Sleep 1] ∧
  Sleep (restart_delay alpha) ∉ trace (restart_server calm m_alpha_up "alpha").1.
Proof.
  split; [reflexivity|]. split; [reflexivity|].
  apply (bool_decide_unpack _). by vm_compute.
Qed.

(** ** The restart budget *)

Lemma start_server_crashy_alpha :
  (start_server crashy m_alpha "alpha" false).1
  = m_alpha_failed [LogStarting "alpha"; Spawned "alpha" 4242; Sleep 1].
Proof. reflexivity. Qed.

Lemma monitor_tick_barren_alpha tr :
  monitor_tick barren 30 (m_alpha_failed tr)
  = m_alpha_failed (tr ++ failed_auto_restart).
Proof.
  unfold monitor_tick, m_alpha_failed, failed_auto_restart; simpl.
  unfold monitor_iter; simpl.
  rewrite lookup_singleton_eq; simpl.
  unfold start_server; simpl. unfold get_server; simpl.
  rewrite lookup_singleton_eq; simpl.
  unfold mark_error; simpl. rewrite lookup_singleton_eq; simpl.
  unfold emit, update_obj, with_objs; simpl.
  by rewrite <- !app_assoc.
Qed.

Lemma monitor_run_barren_alpha k tr :
  monitor_run (replicate k barren) 30 (m_alpha_failed tr)
  = m_alpha_failed (tr ++ concat (replicate k failed_auto_restart)).
Proof.
  revert tr. induction k as [|k IH]; intros tr; simpl.
  - by rewrite app_nil_r.
  - unfold monitor_run in *; simpl.
    rewrite monitor_tick_barren_alpha, IH. by rewrite <- app_assoc.
Qed.

Lemma occurrences_app e tr1 tr2 :
  occurrences e (tr1 ++ tr2) = (occurrences e tr1 + occurrences e tr2)%nat.
Proof. unfold occurrences. by rewrite filter_app, length_app. Qed.

Lemma occurrences_failed_auto_restarts e k :
  occurrences e failed_auto_restart = 1%nat →
  occurrences e (concat (replicate k failed_auto_restart)) = k.
Proof.
  intros H1. induction k as [|k IH]; [done|].
  change (concat (replicate (S k) failed_auto_restart))
    with (failed_auto_restart ++ concat (replicate k failed_auto_restart)).
  rewrite occurrences_app, H1, IH. lia.
Qed.

(** C1. [alpha] has [max_restarts = 3].  After a first start whose child
    exits at once, the monitor runs [k] turns while no child can be
    spawned.  Every turn logs an automatic restart and calls
    [start_server]: [k] attempts for every [k], with [restart_count] still
    0 and the record still Errored at the end. *)
Theorem monitor_auto_restarts_unbounded (k : nat) :
  let m := monitor_run (replicate k barren) 30
                       (start_server crashy m_alpha "alpha" false).1 in
  max_restarts alpha = 3 ∧
  occurrences (LogAutoRestarting "alpha") (trace m) = k ∧
  occurrences (LogStarting "alpha") (trace m) = S k ∧
  status <$> get_server m "alpha" = Some Error ∧
  restart_count <$> get_server m "alpha" = Some 0.
Proof.
  intros m. subst m.
  rewrite start_server_crashy_alpha, monitor_run_barren_alpha.
  split; [done|].
  change (trace (m_alpha_failed ?tr)) with tr.
  rewrite !occurrences_app.
  rewrite !occurrences_failed_auto_restarts by reflexivity.
  repeat split; reflexivity.
Qed.

(** ** One iteration of the monitor loop *)

Lemma occurrences_nil e : occurrences e [] = 0%nat.
Proof. reflexivity. Qed.

Lemma start_server_trace_no_restart w m n force :
  ∃ es, trace (start_server w m n force).1 = trace m ++ es ∧
        ∀ k, occurrences (LogRestarting k) es = 0%nat.
Proof.
  unfold start_server.
  destruct (find_config n (server_configs m)) as [cfg|];
    [|exists []; simpl; by rewrite app_nil_r].
  destruct (match get_server m n with Some _ => _ | None => _ end);
    [exists []; simpl; by rewrite app_nil_r|].
  destruct (spawn w n) as [|p [|]]; simpl.
  - exists [LogStarting n]. by rewrite trace_mark_error.
  - exists [LogStarting n; Spawned n p; Sleep 1].
    rewrite trace_save_server_state; simpl. by rewrite <- app_assoc.
  - exists [LogStarting n; Spawned n p; Sleep 1].
    rewrite trace_mark_error; simpl. by rewrite <- app_assoc.
Qed.

(** The auto-start branch (lines 396-400). *)
Lemma monitor_iter_auto_start w m cfg l s :
  auto_restart cfg = true →
  servers m !! c_name cfg = Some l →
  objs m !! l = Some s →
  auto_start cfg = true →
  status s ≠ Running →
  restart_count s < max_restarts cfg →
  sleep_raises w (restart_delay cfg) = false →
  monitor_iter w m cfg
  = ((start_server w (emit [Sleep (restart_delay cfg)]
                        (emit [LogAutoRestarting (c_name cfg)] m))
                   (c_name cfg) false).1, false).
Proof.
  intros Har Hn Hl Has Hst Hrc Hd. unfold monitor_iter.
  rewrite Har, Hn, Hl, Has; simpl.
  replace (is_running (status s)) with false by (by destruct (status s)).
  simpl.
  replace (restart_count s <? max_restarts cfg) with true
    by (symmetry; by apply Z.ltb_lt).
  by rewrite Hd.
Qed.

(** The other ways through an iteration that leave everything as it is. *)
Lemma monitor_iter_not_auto_restart w m cfg :
  auto_restart cfg = false → monitor_iter w m cfg = (m, false).
Proof. intros H. unfold monitor_iter. by rewrite H. Qed.

Lemma monitor_iter_no_record w m cfg :
  servers m !! c_name cfg = None → monitor_iter w m cfg = (m, false).
Proof.
  intros H. unfold monitor_iter. rewrite H. by destruct (auto_restart cfg).
Qed.

Lemma monitor_iter_budget_spent w m cfg l s :
  servers m !! c_name cfg = Some l →
  objs m !! l = Some s →
  auto_start cfg = true →
  status s ≠ Running →
  max_restarts cfg ≤ restart_count s →
  monitor_iter w m cfg = (m, false).
Proof.
  intros Hn Hl Has Hst Hrc. unfold monitor_iter. rewrite Hn, Hl, Has.
  destruct (auto_restart cfg); [|done]; simpl.
  replace (is_running (status s)) with false by (by destruct (status s)).
  simpl.
  replace (restart_count s <? max_restarts cfg) with false
    by (symmetry; apply Z.ltb_ge; lia).
  done.
Qed.

(** An iteration leaves the loop by an exception only on a
    [restart_delay] that [time.sleep] does not take. *)
Lemma monitor_iter_raised w m cfg :
  (monitor_iter w m cfg).2 = true → sleep_raises w (restart_delay cfg) = true.
Proof.
  unfold monitor_iter.
  destruct (auto_restart cfg); [|done]; simpl.
  destruct (servers m !! c_name cfg) as [l|]; [|done].
  destruct (objs m !! l) as [s|]; [|done].
  destruct (auto_start cfg && negb (is_running (status s))).
  - destruct (restart_count s <? max_restarts cfg); [|done].
    by destruct (sleep_raises w (restart_delay cfg)) eqn:Hd.
  - destruct (is_running (status s)); [|done].
    destruct (health_check_server w m (c_name cfg)) as [m1 [|]]; [done|].
    by destruct (3 <=? _).
Qed.

Lemma health_check_server_running w m n l s :
  servers m !! n = Some l →
  objs m !! l = Some s →
  status s = Running →
  health_check_server w m n
  = if pid_truthy (pid s) then
      match probe w (default 0 (pid s)) with
      | PAlive => (m, true)
      | PGone | PDenied => (update_obj l mark_stopped m, false)
      end
    else (m, true).
Proof.
  intros Hn Hl Hst. unfold health_check_server. by rewrite Hn, Hl, Hst.
Qed.

(** The health branch (lines 403-412), check passed. *)
Lemma monitor_iter_healthy w m cfg l s :
  auto_restart cfg = true →
  servers m !! c_name cfg = Some l →
  objs m !! l = Some s →
  status s = Running →
  (pid_truthy (pid s) = true → probe w (default 0 (pid s)) = PAlive) →
  monitor_iter w m cfg = (update_obj l (mark_healthy (now w)) m, false).
Proof.
  intros Har Hn Hl Hst Hp. unfold monitor_iter.
  rewrite Har, Hn, Hl; simpl. rewrite Hst; simpl.
  rewrite andb_false_r.
  rewrite (health_check_server_running w m _ l s) by done.
  destruct (pid_truthy (pid s)); [|done]. by rewrite Hp.
Qed.

Lemma monitor_iter_unhealthy w m cfg l s :
  auto_restart cfg = true →
  servers m !! c_name cfg = Some l →
  objs m !! l = Some s →
  status s = Running →
  pid_truthy (pid s) = true →
  probe w (default 0 (pid s)) ≠ PAlive →
  let m2 := update_obj l after_failed_check m in
  monitor_iter w m cfg
  = if 3 <=? error_count s + 1
    then (update_obj l (with_error_count 0)
            (restart_server w m2 (c_name cfg)).1, false)
    else (m2, false).
Proof.
  intros Har Hn Hl Hst Hpid Hp m2. unfold monitor_iter.
  rewrite Har, Hn, Hl; simpl. rewrite Hst; simpl.
  rewrite andb_false_r.
  rewrite (health_check_server_running w m _ l s) by done.
  rewrite Hpid.
  assert (Hm2 : update_obj l (λ s, with_error_count (error_count s + 1) s)
                  (update_obj l mark_stopped m) = m2).
  { subst m2. unfold update_obj, with_objs; simpl. f_equal.
    by rewrite list_alter_alter_eq. }
  destruct (probe w (default 0 (pid s))); [done| |]; simpl;
    by rewrite !list_lookup_alter_eq, Hl, Hm2.
Qed.

(** A restart of a record that is not running: the stop is the early
    return of line 213, so the restart is the increment, the pause and the
    start. *)
Lemma restart_server_not_running w m n l s :
  servers m !! n = Some l →
  objs m !! l = Some s →
  status s ≠ Running →
  restart_server w m n
  = start_server w
      (emit [Sleep 2]
         (update_obj l (λ s, with_restart_count (restart_count s + 1) s)
            (emit [LogRestarting n] m)))
      n false.
Proof.
  intros Hn Hl Hst. unfold restart_server, bump_restart_count; simpl.
  rewrite Hn.
  unfold stop_server; simpl. rewrite Hn, list_lookup_alter_eq, Hl; simpl.
  by destruct (status s).
Qed.

(** What [start_server] can do to the binding of its own name. *)
Lemma start_server_binding w m n l s force :
  servers m !! n = Some l →
  objs m !! l = Some s →
  let m' := (start_server w m n force).1 in
  (servers m' !! n = Some l ∧
   (objs m' !! l = Some s ∨ objs m' !! l = Some (with_status Error s))) ∨
  (∃ s1, servers m' !! n = Some (length (objs m)) ∧
         objs m' !! length (objs m) = Some s1 ∧
         error_count s1 = 0 ∧ restart_count s1 = 0 ∧
         objs m' !! l = Some s).
Proof.
  intros Hn Hl m'. subst m'. unfold start_server.
  destruct (find_config n (server_configs m)) as [cfg|] eqn:Hcfg;
    [|left; by eauto].
  destruct (match get_server m n with Some _ => _ | None => _ end);
    [left; by eauto|].
  apply find_config_name in Hcfg as Hname. subst n.
  pose proof (lookup_lt_Some _ _ _ Hl) as Hlt.
  destruct (spawn w (c_name cfg)) as [|p [|]]; simpl.
  - left. unfold mark_error; simpl. rewrite Hn; simpl.
    split; [done|]. right. by rewrite list_lookup_alter_eq, Hl.
  - right. exists (fresh_status w cfg p).
    destruct (save_server_state_fields w
                (emit [Spawned (c_name cfg) p; Sleep 1]
                   (register w cfg p (emit [LogStarting (c_name cfg)] m)))
                (c_name cfg))
      as (-> & -> & _); simpl.
    rewrite lookup_insert_eq.
    rewrite lookup_app_r, Nat.sub_diag by lia.
    by rewrite lookup_app_l by lia.
  - right. exists (with_status Error (fresh_status w cfg p)).
    unfold mark_error; simpl. rewrite lookup_insert_eq; simpl.
    rewrite list_lookup_alter_eq.
    rewrite lookup_app_r, Nat.sub_diag by lia; simpl.
    rewrite list_lookup_alter_ne; [|lia].
    rewrite lookup_app_l by lia. by rewrite lookup_insert_eq.
Qed.

(** ** Footprints of the operations *)

Local Ltac no_events :=
  exists []; split; [by rewrite app_nil_r|by constructor].

Lemma confined_refl k m : confined k m m.
Proof.
  split; try done; [by left|]. no_events.
Qed.

Lemma confined_trans k m1 m2 m3 :
  confined k m1 m2 → confined k m2 m3 → confined k m1 m3.
Proof.
  intros [Hc1 Hl1 Hw1 Ho1 Hs1 Hb1 (es1 & Ht1 & Ha1)]
         [Hc2 Hl2 Hw2 Ho2 Hs2 Hb2 (es2 & Ht2 & Ha2)].
  split.
  - congruence.
  - lia.
  - auto.
  - intros n Hn. by rewrite Ho2, Ho1.
  - destruct Hs2 as [Hs2|(l' & Hs2 & Hl')].
    + destruct Hs1 as [Hs1|(l' & Hs1 & Hl')]; [left; congruence|].
      right. exists l'. by rewrite Hs2.
    + right. exists l'. split; [done|lia].
  - intros l Hl Hk. rewrite Hb2, Hb1; try done; [lia|].
    destruct Hs1 as [Hs1|(l' & Hs1 & Hl')]; rewrite Hs1; [done|].
    intros [= ->]. lia.
  - exists (es1 ++ es2). split; [by rewrite Ht2, Ht1, app_assoc|].
    by apply Forall_app.
Qed.

Lemma confined_emit k es m :
  Forall (about k) es → confined k m (emit es m).
Proof. intros Hes. split; try done; [by left|by exists es]. Qed.

Lemma confined_drop_process k n m : confined k m (drop_process n m).
Proof.
  split; try done; [by left|]. no_events.
Qed.

Lemma confined_save_server_state k w m n :
  confined k m (save_server_state w m n).
Proof.
  unfold save_server_state.
  destruct (get_server m n); [destruct (save_ok w n)|];
    try apply confined_refl.
  split; try done; [by left|]. no_events.
Qed.

(** A write through a reference that was bound to [k] in [m0], after any
    step confined to [k]. *)
Lemma confined_update_obj k m0 m l f :
  confined k m0 m → servers m0 !! k = Some l →
  confined k m0 (update_obj l f m).
Proof.
  intros [Hc Hl Hw Ho Hs Hb Ht] Hk. split; simpl; try done.
  - by rewrite length_alter.
  - intros Hw0. destruct (Hw Hw0) as [Hb' Hi']. split; simpl; [|done].
    intros n l0 Hn. rewrite length_alter. by eapply Hb'.
  - intros l0 Hl0 Hne. rewrite list_lookup_alter_ne; [by apply Hb|].
    intros ->. by apply Hne.
Qed.

Lemma confined_register w cfg p m :
  confined (c_name cfg) m (register w cfg p m).
Proof.
  split; simpl; try done.
  - rewrite length_app; simpl. lia.
  - intros [Hb Hi]. split; simpl.
    + intros n l. rewrite length_app; simpl.
      rewrite lookup_insert. case_decide; [intros [= <-]; lia|].
      intros Hn. apply Hb in Hn. lia.
    + intros n1 n2 l. rewrite !lookup_insert.
      repeat case_decide; subst; try done.
      * intros [= <-] Hn2. apply Hb in Hn2. lia.
      * intros Hn1 [= <-]. apply Hb in Hn1. lia.
      * apply Hi.
  - intros n Hn. by rewrite lookup_insert_ne.
  - right. exists (length (objs m)). by rewrite lookup_insert_eq.
  - intros l Hl _. by rewrite lookup_app_l.
  - no_events.
Qed.

Lemma confined_mark_error m0 m n :
  confined n m0 m → confined n m0 (mark_error m n).
Proof.
  intros Hc. unfold mark_error.
  destruct (servers m !! n) as [l|] eqn:Hn; [|done].
  destruct Hc as [Hc Hl Hw Ho Hs Hb Ht]. split; simpl; try done.
  - by rewrite length_alter.
  - intros Hw0. destruct (Hw Hw0) as [Hb' Hi']. split; simpl; [|done].
    intros k l0 Hk. rewrite length_alter. by eapply Hb'.
  - intros l0 Hl0 Hne. rewrite list_lookup_alter_ne; [by apply Hb|].
    intros ->. destruct Hs as [Hs|(l' & Hs & Hl')].
    + apply Hne. congruence.
    + rewrite Hn in Hs. simplify_eq. lia.
Qed.

Lemma confined_start_server w m0 m n force :
  confined n m0 m → confined n m0 (start_server w m n force).1.
Proof.
  intros Hc. unfold start_server.
  destruct (find_config n (server_configs m)) as [cfg|] eqn:Hcfg; [|done].
  destruct (match get_server m n with Some _ => _ | None => _ end); [done|].
  apply find_config_name in Hcfg as <-.
  assert (H1 : confined (c_name cfg) m0 (emit [LogStarting (c_name cfg)] m))
    by (eapply confined_trans; [done|apply confined_emit; by repeat constructor]).
  destruct (spawn w (c_name cfg)) as [|p alive]; simpl.
  { by apply confined_mark_error. }
  assert (H2 : confined (c_name cfg) m0
                 (emit [Spawned (c_name cfg) p; Sleep 1]
                    (register w cfg p (emit [LogStarting (c_name cfg)] m)))).
  { eapply confined_trans; [exact H1|].
    eapply confined_trans;
      [apply confined_register|apply confined_emit; by repeat constructor]. }
  destruct alive; simpl.
  - eapply confined_trans; [exact H2|apply confined_save_server_state].
  - by apply confined_mark_error.
Qed.

Lemma stop_process_about k w p force :
  Forall (about k) (stop_process w p force).1.
Proof.
  unfold stop_process, signal_event.
  destruct force, (has_killpg w), (signal_raises w p SIGKILL),
    (signal_raises w p SIGTERM), (wait_times_out w p); simpl;
    by repeat constructor.
Qed.

Lemma confined_stop_server w m n force :
  confined n m (stop_server w m n force).1.
Proof.
  unfold stop_server.
  destruct (servers m !! n) as [l|] eqn:Hn; [|apply confined_refl].
  destruct (objs m !! l) as [s|]; [|apply confined_refl].
  destruct (negb _); [apply confined_refl|].
  destruct (processes m !! n) as [p|].
  - pose proof (stop_process_about n w p force) as Hes.
    destruct (stop_process w p force) as [es [|]]; simpl in *;
      [|by apply confined_emit].
    unfold finish_stop.
    eapply confined_trans; [|apply confined_save_server_state].
    apply confined_update_obj; [|done].
    eapply confined_trans;
      [by apply confined_emit|apply confined_drop_process].
  - simpl. unfold finish_stop.
    eapply confined_trans; [|apply confined_save_server_state].
    apply confined_update_obj; [apply confined_refl|done].
Qed.

Lemma confined_bump_restart_count m0 m n :
  confined n m0 m → confined n m0 (bump_restart_count m n).
Proof.
  intros Hc. unfold bump_restart_count.
  destruct (servers m !! n) as [l|] eqn:Hn; [|done].
  destruct Hc as [Hc Hl Hw Ho Hs Hb Ht]. split; simpl; try done.
  - by rewrite length_alter.
  - intros Hw0. destruct (Hw Hw0) as [Hb' Hi']. split; simpl; [|done].
    intros k l0 Hk. rewrite length_alter. by eapply Hb'.
  - intros l0 Hl0 Hne. rewrite list_lookup_alter_ne; [by apply Hb|].
    intros ->. destruct Hs as [Hs|(l' & Hs & Hl')].
    + apply Hne. congruence.
    + rewrite Hn in Hs. simplify_eq. lia.
Qed.

Lemma confined_restart_server w m0 m n :
  confined n m0 m → confined n m0 (restart_server w m n).1.
Proof.
  intros Hc. unfold restart_server.
  set (m1 := bump_restart_count (emit [LogRestarting n] m) n).
  assert (H1 : confined n m0 m1).
  { apply confined_bump_restart_count.
    eapply confined_trans; [done|apply confined_emit; by repeat constructor]. }
  pose proof (confined_stop_server w m1 n false) as H2.
  destruct (stop_server w m1 n false) as [m2 [|]]; simpl in *.
  - apply confined_start_server.
    eapply confined_trans; [exact H1|].
    eapply confined_trans; [exact H2|apply confined_emit; by repeat constructor].
  - by eapply confined_trans.
Qed.

Lemma confined_health_check_server w m n :
  confined n m (health_check_server w m n).1.
Proof.
  unfold health_check_server.
  destruct (servers m !! n) as [l|] eqn:Hn; [|apply confined_refl].
  destruct (objs m !! l) as [s|]; [|apply confined_refl].
  destruct (negb _); [apply confined_refl|].
  destruct (pid_truthy (pid s)); [|apply confined_refl].
  destruct (probe w _); simpl; [apply confined_refl| |];
    (apply confined_update_obj; [apply confined_refl|done]).
Qed.

Lemma confined_monitor_iter w m cfg :
  confined (c_name cfg) m (monitor_iter w m cfg).1.
Proof.
  unfold monitor_iter.
  destruct (auto_restart cfg); [|apply confined_refl]; simpl.
  destruct (servers m !! c_name cfg) as [l|] eqn:Hn; [|apply confined_refl].
  destruct (objs m !! l) as [s|]; [|apply confined_refl].
  destruct (auto_start cfg && negb (is_running (status s))).
  - destruct (restart_count s <? max_restarts cfg); [|apply confined_refl].
    destruct (sleep_raises w (restart_delay cfg)); simpl;
      [apply confined_emit; by repeat constructor|].
    apply confined_start_server.
    eapply confined_trans; apply confined_emit; by repeat constructor.
  - destruct (is_running (status s)); [|apply confined_refl].
    pose proof (confined_health_check_server w m (c_name cfg)) as H1.
    destruct (health_check_server w m (c_name cfg)) as [m1 [|]]; simpl in *.
    { by apply confined_update_obj. }
    set (m2 := update_obj l _ m1).
    assert (H2 : confined (c_name cfg) m m2) by (by apply confined_update_obj).
    destruct (3 <=? _); simpl; [|done].
    apply confined_update_obj; [|done].
    by apply confined_restart_server.
Qed.

(** ** The whole pass *)

(** A pass over configurations none of which is named [n] leaves the
    record of [n] alone. *)
Lemma monitor_pass_other w cs m n :
  n ∉ c_name <$> cs →
  wf_store m →
  wf_store (monitor_pass w cs m) ∧
  server_configs (monitor_pass w cs m) = server_configs m ∧
  servers (monitor_pass w cs m) !! n = servers m !! n ∧
  get_server (monitor_pass w cs m) n = get_server m n ∧
  ∃ es, trace (monitor_pass w cs m) = trace m ++ es ∧
        Forall (not_about n) es.
Proof.
  revert m. induction cs as [|c cs IH]; intros m Hn Hwf; simpl.
  { repeat split; try done; try apply Hwf. no_events. }
  rewrite fmap_cons in Hn. apply not_elem_of_cons in Hn as [Hne Hn].
  pose proof (confined_monitor_iter w m c)
    as [Hc Hl Hw Ho Hs Hb (es & Ht & Ha)].
  assert (Ha' : Forall (not_about n) es).
  { eapply Forall_impl; [exact Ha|]. intros e He.
    destruct e; simpl in *; congruence. }
  assert (Hget : get_server (monitor_iter w m c).1 n = get_server m n).
  { unfold get_server. rewrite Ho by done.
    destruct (servers m !! n) as [l|] eqn:Hl0; simpl; [|done].
    apply Hb; [by eapply Hwf|].
    intros Hcl. apply Hne. symmetry. by eapply Hwf. }
  destruct (monitor_iter w m c) as [m' raised]; simpl in *.
  destruct raised.
  - repeat split; try done; try (by apply Hw); [by apply Ho|by exists es].
  - destruct (IH m' Hn (Hw Hwf)) as (Hwf' & Hc' & Hs' & Hg' & es' & Ht' & Ha'').
    repeat split; try done; try apply Hwf'.
    + congruence.
    + rewrite Hs'. by apply Ho.
    + congruence.
    + exists (es ++ es'). split; [by rewrite Ht', Ht, app_assoc|].
      by apply Forall_app.
Qed.

Lemma occurrences_not_about n es (e : string → Event) :
  (∀ x, not_about n (e x) ↔ x ≠ n) → Forall (not_about n) es →
  occurrences (e n) es = 0%nat.
Proof.
  intros He Hes. unfold occurrences.
  induction Hes as [|x es Hx Hes IH]; [done|].
  rewrite filter_cons. case_decide as Hd; [|done].
  subst x. by apply He in Hx.
Qed.

Lemma find_config_NoDup cs cfg :
  NoDup (c_name <$> cs) → cfg ∈ cs → find_config (c_name cfg) cs = Some cfg.
Proof.
  unfold find_config. induction cs as [|c cs IH]; intros Hnd Hin.
  { by apply elem_of_nil in Hin. }
  rewrite fmap_cons in Hnd. apply NoDup_cons in Hnd as [Hc Hnd].
  simpl. case_decide as Hd.
  - apply elem_of_cons in Hin as [->|Hin]; [done|].
    exfalso. apply Hc. rewrite Hd. by apply list_elem_of_fmap_2.
  - apply elem_of_cons in Hin as [->|Hin]; [done|].
    specialize (IH Hnd Hin).
    destruct (list_find _ cs) as [[i x]|]; simplify_eq/=. done.
Qed.

(** With every [restart_delay] one that [time.sleep] takes, a pass reaches
    every configuration. *)
Lemma monitor_pass_app w cs1 c cs2 m :
  (∀ c', c' ∈ cs1 ++ [c] → sleep_raises w (restart_delay c') = false) →
  monitor_pass w (cs1 ++ c :: cs2) m
  = monitor_pass w cs2 (monitor_iter w (monitor_pass w cs1 m) c).1.
Proof.
  revert m. induction cs1 as [|c1 cs1 IH]; intros m Hd; simpl.
  - pose proof (monitor_iter_raised w m c) as Hr.
    destruct (monitor_iter w m c) as [m' [|]]; simpl in *; [|done].
    specialize (Hr eq_refl).
    rewrite Hd in Hr by set_solver. done.
  - pose proof (monitor_iter_raised w m c1) as Hr.
    destruct (monitor_iter w m c1) as [m' [|]]; simpl in *.
    + specialize (Hr eq_refl).
      rewrite Hd in Hr by set_solver. done.
    + apply IH. intros c' Hc'. apply Hd. by right.
Qed.

Lemma config_NoDup_eq cs c1 c2 :
  NoDup (c_name <$> cs) → c1 ∈ cs → c2 ∈ cs → c_name c1 = c_name c2 → c1 = c2.
Proof.
  intros Hnd H1 H2 He.
  pose proof (find_config_NoDup cs c1 Hnd H1) as F1.
  pose proof (find_config_NoDup cs c2 Hnd H2) as F2.
  rewrite He in F1. congruence.
Qed.

(** A pass leaves alone the record of a server whose own iteration does
    nothing, however far the pass gets. *)
Lemma monitor_pass_idle w cs m n :
  wf_store m →
  (∀ c m', c ∈ cs → c_name c = n →
           servers m' !! n = servers m !! n →
           get_server m' n = get_server m n →
           monitor_iter w m' c = (m', false)) →
  servers (monitor_pass w cs m) !! n = servers m !! n ∧
  get_server (monitor_pass w cs m) n = get_server m n ∧
  ∃ es, trace (monitor_pass w cs m) = trace m ++ es ∧
        Forall (not_about n) es.
Proof.
  revert m. induction cs as [|c cs IH]; intros m Hwf Hidle; simpl.
  { repeat split; try done. no_events. }
  destruct (decide (c_name c = n)) as [He|Hne].
  { rewrite (Hidle c m) by (done || by left).
    apply IH; [done|]. intros c' m' Hc'. apply Hidle. by right. }
  pose proof (confined_monitor_iter w m c)
    as [Hc Hl Hw Ho Hs Hb (es & Ht & Ha)].
  assert (Ha' : Forall (not_about n) es).
  { eapply Forall_impl; [exact Ha|]. intros e He.
    destruct e; simpl in *; congruence. }
  assert (Hget : get_server (monitor_iter w m c).1 n = get_server m n).
  { unfold get_server. rewrite Ho by done.
    destruct (servers m !! n) as [l|] eqn:Hl0; simpl; [|done].
    apply Hb; [by eapply Hwf|].
    intros Hcl. apply Hne. by eapply Hwf. }
  destruct (monitor_iter w m c) as [m' raised]; simpl in *.
  destruct raised.
  - split; [by apply Ho|]. split; [done|]. by exists es.
  - destruct (IH m' (Hw Hwf)) as (Hs' & Hg' & es' & Ht' & Ha'').
    { intros c' m'' Hc' Hn' Hs'' Hg''. apply Hidle; [by right|done| |].
      - rewrite Hs''. by apply Ho.
      - by rewrite Hg''. }
    split; [rewrite Hs'; by apply Ho|]. split; [congruence|].
    exists (es ++ es'). split; [by rewrite Ht', Ht, app_assoc|].
    by apply Forall_app.
Qed.

(** The same for a whole turn. *)
Lemma monitor_tick_idle w interval m n :
  wf_store m →
  (∀ c m', c ∈ server_configs m → c_name c = n →
           servers m' !! n = servers m !! n →
           get_server m' n = get_server m n →
           monitor_iter w m' c = (m', false)) →
  servers (monitor_tick w interval m) !! n = servers m !! n ∧
  get_server (monitor_tick w interval m) n = get_server m n ∧
  ∃ es, trace (monitor_tick w interval m) = trace m ++ es ∧
        Forall (not_about n) es.
Proof.
  intros Hwf Hidle.
  destruct (monitor_pass_idle w (server_configs m) m n Hwf Hidle)
    as (Hs & Hg & es & Ht & Ha).
  unfold monitor_tick. destruct (sleep_raises w interval); [by eauto|].
  split; [done|]. split; [done|].
  exists (es ++ [Sleep interval]). simpl. rewrite Ht, app_assoc.
  split; [done|]. apply Forall_app. split; [done|]. by repeat constructor.
Qed.

(** The state in which the loop reaches a given configuration, and what
    the rest of the turn does to the record of its server: nothing. *)
Lemma monitor_tick_reaches w interval m cfg :
  wf_store m →
  NoDup (c_name <$> server_configs m) →
  (∀ c, c ∈ server_configs m → sleep_raises w (restart_delay c) = false) →
  cfg ∈ server_configs m →
  ∃ m1 pre post,
    wf_store m1 ∧
    server_configs m1 = server_configs m ∧
    servers m1 !! c_name cfg = servers m !! c_name cfg ∧
    get_server m1 (c_name cfg) = get_server m (c_name cfg) ∧
    trace m1 = trace m ++ pre ∧
    Forall (not_about (c_name cfg)) pre ∧
    get_server (monitor_tick w interval m) (c_name cfg)
    = get_server (monitor_iter w m1 cfg).1 (c_name cfg) ∧
    trace (monitor_tick w interval m)
    = trace (monitor_iter w m1 cfg).1 ++ post ∧
    Forall (not_about (c_name cfg)) post.
Proof.
  intros Hwf Hnd Hd Hin. unfold monitor_tick.
  destruct (list_elem_of_split _ _ Hin) as (cs1 & cs2 & Hcs).
  rewrite Hcs in Hnd, Hd |- *.
  rewrite fmap_app, fmap_cons in Hnd.
  apply NoDup_app in Hnd as (_ & H1 & Hnd).
  apply NoDup_cons in Hnd as [H2 _].
  assert (Hn1 : c_name cfg ∉ c_name <$> cs1).
  { intros Hx. apply (H1 _ Hx). by left. }
  rewrite monitor_pass_app.
  2:{ intros c' Hc'. apply Hd. apply elem_of_app.
      apply elem_of_app in Hc' as [?|Hc']; [by left|right].
      apply elem_of_cons in Hc' as [->|Hc']; [by left|].
      by apply elem_of_nil in Hc'. }
  destruct (monitor_pass_other w cs1 m (c_name cfg) Hn1 Hwf)
    as (Hwf1 & Hc1 & Hs1 & Hg1 & pre & Ht1 & Hp1).
  set (m1 := monitor_pass w cs1 m) in *.
  pose proof (cf_wf _ _ _ (confined_monitor_iter w m1 cfg) Hwf1) as Hwf2.
  destruct (monitor_pass_other w cs2 (monitor_iter w m1 cfg).1 (c_name cfg)
              H2 Hwf2) as (_ & _ & _ & Hg2 & post & Ht2 & Hp2).
  exists m1, pre,
    (post ++ if sleep_raises w interval then [] else [Sleep interval]).
  split; [exact Hwf1|]. split; [by rewrite Hc1|]. split; [exact Hs1|].
  split; [exact Hg1|]. split; [exact Ht1|]. split; [exact Hp1|].
  destruct (sleep_raises w interval).
  - split; [exact Hg2|]. split; [by rewrite app_nil_r|].
    by rewrite app_nil_r.
  - split; [exact Hg2|].
    split; [simpl; by rewrite Ht2, app_assoc|].
    apply Forall_app. split; [done|]. by repeat constructor.
Qed.

(** ** Auto-start on a monitor turn *)

Lemma occurrences_cons_eq e tr :
  occurrences e (e :: tr) = S (occurrences e tr).
Proof. unfold occurrences. by rewrite filter_cons_True. Qed.

Lemma occurrences_cons_ne e x tr :
  x ≠ e → occurrences e (x :: tr) = occurrences e tr.
Proof. intros H. unfold occurrences. by rewrite filter_cons_False. Qed.

(** C2 (as the code has it). On a monitor turn over a well-formed store,
    with distinct configuration names and with every configured
    [restart_delay] a length that [time.sleep] takes:
    - every configured server with [auto_restart] set that has a runtime
      record, with [auto_start] set, a status other than Running and
      [restart_count < max_restarts], is started, once: the turn logs the
      automatic restart, sleeps for the server's [restart_delay] and calls
      [start_server]; at the end of the turn the server's record is the
      one that start left: the old record set to Errored when the spawn
      raised, a new record otherwise, Running with the child's pid or
      Errored when the child had exited;
    - every configured server with [auto_restart] off, and every one
      without a runtime record, is skipped: its binding and its record are
      as before, and the turn logs no automatic restart and no start of
      it. *)
Theorem monitor_tick_auto_start w interval m :
  wf_store m →
  NoDup (c_name <$> server_configs m) →
  (∀ c, c ∈ server_configs m → sleep_raises w (restart_delay c) = false) →
  (∀ cfg l s,
     cfg ∈ server_configs m →
     auto_restart cfg = true →
     servers m !! c_name cfg = Some l →
     objs m !! l = Some s →
     auto_start cfg = true →
     status s ≠ Running →
     restart_count s < max_restarts cfg →
     (∃ pre post,
        trace (monitor_tick w interval m)
        = trace m ++ pre ++
          [LogAutoRestarting (c_name cfg); Sleep (restart_delay cfg);
           LogStarting (c_name cfg)] ++ post ∧
        Forall (not_about (c_name cfg)) pre) ∧
     occurrences (LogStarting (c_name cfg))
                 (trace (monitor_tick w interval m))
     = S (occurrences (LogStarting (c_name cfg)) (trace m)) ∧
     get_server (monitor_tick w interval m) (c_name cfg)
     = match spawn w (c_name cfg) with
       | SpawnRaises =>
           Some (mkStatus (name s) Error (pid s) (port s) (command s)
                          (start_time s) (last_health_check s)
                          (error_count s) (restart_count s))
       | SpawnReturns p alive =>
           Some (mkStatus (c_name cfg) (if alive then Running else Error)
                          (Some p) None (c_command cfg ++ c_args cfg)
                          (Some (now w)) None 0 0)
       end) ∧
  (∀ cfg,
     cfg ∈ server_configs m →
     auto_restart cfg = false ∨ servers m !! c_name cfg = None →
     servers (monitor_tick w interval m) !! c_name cfg
     = servers m !! c_name cfg ∧
     get_server (monitor_tick w interval m) (c_name cfg)
     = get_server m (c_name cfg) ∧
     occurrences (LogAutoRestarting (c_name cfg))
                 (trace (monitor_tick w interval m))
     = occurrences (LogAutoRestarting (c_name cfg)) (trace m) ∧
     occurrences (LogStarting (c_name cfg))
                 (trace (monitor_tick w interval m))
     = occurrences (LogStarting (c_name cfg)) (trace m)).
Proof.
  intros Hwf Hnd Hd. split.
  - intros cfg l s Hin Har Hn Hl Has Hst Hrc.
    destruct (monitor_tick_reaches w interval m cfg Hwf Hnd Hd Hin)
      as (m1 & pre & post & Hwf1 & Hc1 & Hs1 & Hg1 & Ht1 & Hp1 & Hg & Ht & Hp2).
    rewrite Hn in Hs1.
    assert (Hl1 : objs m1 !! l = Some s).
    { rewrite (get_server_lookup m _ l s) in Hg1 by done.
      unfold get_server in Hg1. by rewrite Hs1 in Hg1. }
    assert (Hpre : occurrences (LogStarting (c_name cfg)) pre = 0%nat)
      by (by apply (occurrences_not_about _ _ LogStarting)).
    assert (Hpost : occurrences (LogStarting (c_name cfg)) post = 0%nat)
      by (by apply (occurrences_not_about _ _ LogStarting)).
    rewrite Hg, Ht.
    rewrite (monitor_iter_auto_start w m1 cfg l s) by (auto using Hd).
    set (m0 := emit [Sleep (restart_delay cfg)]
                    (emit [LogAutoRestarting (c_name cfg)] m1)).
    assert (Hcfg : find_config (c_name cfg) (server_configs m0) = Some cfg).
    { subst m0; simpl. rewrite Hc1. by apply find_config_NoDup. }
    assert (Hg0 : get_server m0 (c_name cfg) = Some s)
      by exact (get_server_lookup m1 _ l s Hs1 Hl1).
    assert (Hgate : ∀ s', get_server m0 (c_name cfg) = Some s' →
                          status s' = Running → false = true).
    { intros s'. rewrite Hg0. intros [= <-] Hr. done. }
    assert (Htm0 : trace m0 = trace m ++ pre ++
              [LogAutoRestarting (c_name cfg); Sleep (restart_delay cfg)]).
    { subst m0; simpl. rewrite Ht1. by rewrite <- !app_assoc. }
    cbn [fst].
    assert (Hcount : ∀ rest,
      occurrences (LogStarting (c_name cfg)) rest = 0%nat →
      occurrences (LogStarting (c_name cfg))
        ((trace m ++ pre ++
          [LogAutoRestarting (c_name cfg); Sleep (restart_delay cfg)]) ++
         LogStarting (c_name cfg) :: rest)
      = S (occurrences (LogStarting (c_name cfg)) (trace m))).
    { intros rest Hrest. rewrite !occurrences_app, Hpre.
      rewrite occurrences_cons_eq, Hrest.
      rewrite !occurrences_cons_ne by done. rewrite occurrences_nil. lia. }
    destruct (spawn w (c_name cfg)) as [|p [|]] eqn:Hsp.
    + destruct (start_server_raises w m0 _ cfg false Hcfg Hgate Hsp)
        as (_ & Hgs & _ & Hts & _).
      split; [|split].
      * exists pre, post. split; [|done].
        rewrite Hts, Htm0. by rewrite <- !app_assoc.
      * rewrite Hts, Htm0, <- app_assoc. simpl. by apply Hcount.
      * by rewrite Hgs, Hg0.
    + destruct (start_server_alive w m0 _ cfg false p Hcfg Hgate Hsp)
        as (_ & Hgs & _ & Hts & _).
      split; [|split].
      * exists pre, ([Spawned (c_name cfg) p; Sleep 1] ++ post).
        split; [|done]. rewrite Hts, Htm0. by rewrite <- !app_assoc.
      * rewrite Hts, Htm0, <- app_assoc. simpl. apply Hcount.
        by rewrite !occurrences_cons_ne.
      * done.
    + destruct (start_server_exited w m0 _ cfg false p Hcfg Hgate Hsp)
        as (_ & Hgs & Hts & _).
      split; [|split].
      * exists pre, ([Spawned (c_name cfg) p; Sleep 1] ++ post).
        split; [|done]. rewrite Hts, Htm0. by rewrite <- !app_assoc.
      * rewrite Hts, Htm0, <- app_assoc. simpl. apply Hcount.
        by rewrite !occurrences_cons_ne.
      * done.
  - intros cfg Hin Hskip.
    destruct (monitor_tick_idle w interval m (c_name cfg) Hwf)
      as (Hs & Hg & es & Ht & Ha).
    { intros c m' Hc Hname Hs' Hg'.
      assert (c = cfg) as -> by (by eapply config_NoDup_eq).
      destruct Hskip as [Har|Hnone].
      - by apply monitor_iter_not_auto_restart.
      - apply monitor_iter_no_record. by rewrite Hs'. }
    split; [done|]. split; [done|].
    assert (H1 : occurrences (LogAutoRestarting (c_name cfg)) es = 0%nat)
      by (by apply (occurrences_not_about _ _ LogAutoRestarting)).
    assert (H2 : occurrences (LogStarting (c_name cfg)) es = 0%nat)
      by (by apply (occurrences_not_about _ _ LogStarting)).
    rewrite Ht, !occurrences_app, H1, H2. split; lia.
Qed.

Lemma monitor_tick_auto_start_witness :
  ((∃ pre post,
      trace (monitor_tick as_shipped 30 m_booted)
      = trace m_booted ++ pre ++
        [LogAutoRestarting "alpha"; Sleep 5; LogStarting "alpha"] ++ post ∧
      Forall (not_about "alpha") pre) ∧
   occurrences (LogStarting "alpha")
               (trace (monitor_tick as_shipped 30 m_booted))
   = S (occurrences (LogStarting "alpha") (trace m_booted)) ∧
   get_server (monitor_tick as_shipped 30 m_booted) "alpha"
   = Some (mkStatus "alpha" Error None None ["sleep"] (Some 900) None 0 2)) ∧
  (servers (monitor_tick as_shipped 30 m_booted) !! "beta"
   = servers m_booted !! "beta" ∧
   get_server (monitor_tick as_shipped 30 m_booted) "beta"
   = get_server m_booted "beta" ∧
   occurrences (LogAutoRestarting "beta")
               (trace (monitor_tick as_shipped 30 m_booted))
   = occurrences (LogAutoRestarting "beta") (trace m_booted) ∧
   occurrences (LogStarting "beta")
               (trace (monitor_tick as_shipped 30 m_booted))
   = occurrences (LogStarting "beta") (trace m_booted)).
Proof.
  destruct (monitor_tick_auto_start as_shipped 30 m_booted) as [Hstart Hskip].
  - apply wf_store_boot.
  - unfold m_booted. rewrite server_configs_boot.
    apply (bool_decide_unpack _). by vm_compute.
  - unfold m_booted. rewrite server_configs_boot. intros c Hc.
    apply elem_of_cons in Hc as [->|Hc]; [reflexivity|].
    apply elem_of_cons in Hc as [->|Hc]; [reflexivity|].
    by apply elem_of_nil in Hc.
  - split.
    + apply (Hstart alpha 1%nat
               (mkStatus "alpha" Stopped None None ["sleep"] (Some 900) None
                         0 2)).
      * unfold m_booted. rewrite server_configs_boot. by left.
      * reflexivity.
      * reflexivity.
      * reflexivity.
      * reflexivity.
      * discriminate.
      * simpl. lia.
    + apply (Hskip beta).
      * unfold m_booted. rewrite server_configs_boot. right. by left.
      * by left.
Defined.

(** C2 (as stated) fails.  [beta] has [auto_start] set, is Stopped (its
    state file brought it back so) and has spent none of its restarts,
    but its [auto_restart] is off: a monitor turn leaves its record as it
    is and attempts no start of it.  [alpha] has both flags set but no
    runtime record yet: a monitor turn only sleeps. *)
Lemma monitor_tick_skips_unmonitored :
  (auto_start beta = true ∧ auto_restart beta = false ∧
   get_server m_booted "beta"
   = Some (mkStatus "beta" Stopped None None ["sleep"] (Some 900) None 0 0) ∧
   0 < max_restarts beta ∧
   get_server (monitor_tick as_shipped 30 m_booted) "beta"
   = Some (mkStatus "beta" Stopped None None ["sleep"] (Some 900) None 0 0) ∧
   occurrences (LogAutoRestarting "beta")
               (trace (monitor_tick as_shipped 30 m_booted)) = 0%nat ∧
   occurrences (LogStarting "beta")
               (trace (monitor_tick as_shipped 30 m_booted)) = 0%nat) ∧
  (auto_start alpha = true ∧ auto_restart alpha = true ∧
   get_server m_alpha "alpha" = None ∧
   monitor_tick as_shipped 30 m_alpha = emit [Sleep 30] m_alpha).
Proof. repeat split; by vm_compute. Qed.

(** ** Health checks on a monitor turn *)

(** The health branch when the counter reaches the threshold: one restart,
    and a counter at 0 on the record the name is bound to afterwards,
    whether that is the old record or the one the restart created. *)
Lemma monitor_iter_unhealthy_restart w m cfg l s :
  auto_restart cfg = true →
  servers m !! c_name cfg = Some l →
  objs m !! l = Some s →
  status s = Running →
  pid_truthy (pid s) = true →
  probe w (default 0 (pid s)) ≠ PAlive →
  3 ≤ error_count s + 1 →
  error_count <$> get_server (monitor_iter w m cfg).1 (c_name cfg) = Some 0 ∧
  ∃ es, trace (monitor_iter w m cfg).1
        = trace m ++ [LogRestarting (c_name cfg); Sleep 2] ++ es ∧
        ∀ k, occurrences (LogRestarting k) es = 0%nat.
Proof.
  intros Har Hn Hl Hst Hpid Hp Hec.
  rewrite (monitor_iter_unhealthy w m cfg l s) by done.
  replace (3 <=? error_count s + 1) with true
    by (symmetry; by apply Z.leb_le).
  set (m2 := update_obj l after_failed_check m).
  assert (Hl2 : objs m2 !! l = Some (after_failed_check s)).
  { subst m2; simpl. by rewrite list_lookup_alter_eq, Hl. }
  rewrite (restart_server_not_running w m2 _ l (after_failed_check s))
    by done.
  set (m3 := emit [Sleep 2] _).
  set (s3 := with_restart_count (restart_count (after_failed_check s) + 1)
               (after_failed_check s)).
  assert (Hl3 : objs m3 !! l = Some s3).
  { subst m3 s3; simpl. rewrite list_lookup_alter_eq.
    change (alter after_failed_check l (objs m)) with (objs m2).
    by rewrite Hl2. }
  assert (Hn3 : servers m3 !! c_name cfg = Some l) by done.
  pose proof (lookup_lt_Some _ _ _ Hl3) as Hlt.
  split.
  - cbn [fst].
    destruct (start_server_binding w m3 _ l s3 false Hn3 Hl3)
      as [[Hb [Ho|Ho]]|(s1 & Hb & Ho & He & _ & _)].
    + by rewrite (get_server_update_obj _ _ _ _ _ Hb Ho).
    + by rewrite (get_server_update_obj _ _ _ _ _ Hb Ho).
    + rewrite (get_server_update_obj_ne _ _ l _ _ Hb) by lia.
      rewrite Ho; simpl. by f_equal.
  - destruct (start_server_trace_no_restart w m3 (c_name cfg) false)
      as (es & Hes & Hno).
    exists es. split; [|done]. simpl. rewrite Hes.
    subst m3; simpl. by rewrite <- !app_assoc.
Qed.

(** The same when the spawn of the restart raises: the record the name
    is bound to is the old one, Errored, with the restart counted. *)
Lemma monitor_iter_unhealthy_restart_raises w m cfg l s :
  find_config (c_name cfg) (server_configs m) = Some cfg →
  auto_restart cfg = true →
  servers m !! c_name cfg = Some l →
  objs m !! l = Some s →
  status s = Running →
  pid_truthy (pid s) = true →
  probe w (default 0 (pid s)) ≠ PAlive →
  3 ≤ error_count s + 1 →
  spawn w (c_name cfg) = SpawnRaises →
  get_server (monitor_iter w m cfg).1 (c_name cfg)
  = Some (mkStatus (name s) Error None (port s) (command s) (start_time s)
                   (last_health_check s) 0 (restart_count s + 1)).
Proof.
  intros Hcfg Har Hn Hl Hst Hpid Hp Hec Hsp.
  rewrite (monitor_iter_unhealthy w m cfg l s) by done.
  replace (3 <=? error_count s + 1) with true
    by (symmetry; by apply Z.leb_le).
  set (m2 := update_obj l after_failed_check m).
  assert (Hl2 : objs m2 !! l = Some (after_failed_check s)).
  { subst m2; simpl. by rewrite list_lookup_alter_eq, Hl. }
  rewrite (restart_server_not_running w m2 _ l (after_failed_check s))
    by done.
  set (m3 := emit [Sleep 2] _).
  set (s3 := with_restart_count (restart_count (after_failed_check s) + 1)
               (after_failed_check s)).
  assert (Hl3 : objs m3 !! l = Some s3).
  { subst m3 s3; simpl. rewrite list_lookup_alter_eq.
    change (alter after_failed_check l (objs m)) with (objs m2).
    by rewrite Hl2. }
  assert (Hn3 : servers m3 !! c_name cfg = Some l) by done.
  assert (Hg3 : get_server m3 (c_name cfg) = Some s3)
    by (by apply get_server_lookup with l).
  destruct (start_server_raises w m3 (c_name cfg) cfg false)
    as (_ & Hg & Hs & _ & _); [done| |done|].
  { intros s'. rewrite Hg3. by intros [= <-]. }
  rewrite Hg3 in Hg. cbn [fst].
  assert (Hn4 : servers (start_server w m3 (c_name cfg) false).1 !! c_name cfg
                = Some l) by (by rewrite Hs).
  assert (Hl4 : objs (start_server w m3 (c_name cfg) false).1 !! l
                = Some (with_status Error s3)).
  { unfold get_server in Hg. by rewrite Hn4 in Hg. }
  by rewrite (get_server_update_obj _ _ _ _ _ Hn4 Hl4).
Qed.

(** C3 (as the code has it). On a monitor turn over a well-formed store,
    with distinct configuration names and with every configured
    [restart_delay] a length that [time.sleep] takes, a configured server
    whose record is Running is health-checked when its [auto_restart] is
    set:
    - when the record has no pid to look up, or the pid is alive, the check
      succeeds: at the end of the turn the record is Running with the same
      pid, its counter is 0 and its [last_health_check] is the current
      time, and the turn restarts nothing;
    - when the pid is not alive the check fails: the record is marked
      Stopped with its pid cleared and the counter is raised by one; below
      3 nothing else happens; from 3 on the turn calls [restart_server]
      exactly once, and the counter of the server's record is 0 at the end
      of the turn (where the spawn of that restart raises, the record is
      the old one, Errored, with the restart counted).
    With [auto_restart] off the server is not checked: its record is as
    before and the turn restarts nothing. *)
Theorem monitor_tick_health_check w interval m cfg l s :
  wf_store m →
  NoDup (c_name <$> server_configs m) →
  (∀ c, c ∈ server_configs m → sleep_raises w (restart_delay c) = false) →
  cfg ∈ server_configs m →
  servers m !! c_name cfg = Some l →
  objs m !! l = Some s →
  status s = Running →
  (auto_restart cfg = true →
   ((pid_truthy (pid s) = true → probe w (default 0 (pid s)) = PAlive) →
    get_server (monitor_tick w interval m) (c_name cfg)
    = Some (mkStatus (name s) Running (pid s) (port s) (command s)
                     (start_time s) (Some (now w)) 0 (restart_count s)) ∧
    occurrences (LogRestarting (c_name cfg))
                (trace (monitor_tick w interval m))
    = occurrences (LogRestarting (c_name cfg)) (trace m)) ∧
   (pid_truthy (pid s) = true → probe w (default 0 (pid s)) ≠ PAlive →
    (error_count s + 1 < 3 →
     get_server (monitor_tick w interval m) (c_name cfg)
     = Some (mkStatus (name s) Stopped None (port s) (command s)
                      (start_time s) (last_health_check s)
                      (error_count s + 1) (restart_count s)) ∧
     occurrences (LogRestarting (c_name cfg))
                 (trace (monitor_tick w interval m))
     = occurrences (LogRestarting (c_name cfg)) (trace m)) ∧
    (3 ≤ error_count s + 1 →
     error_count <$> get_server (monitor_tick w interval m) (c_name cfg)
     = Some 0 ∧
     occurrences (LogRestarting (c_name cfg))
                 (trace (monitor_tick w interval m))
     = S (occurrences (LogRestarting (c_name cfg)) (trace m)) ∧
     (spawn w (c_name cfg) = SpawnRaises →
      get_server (monitor_tick w interval m) (c_name cfg)
      = Some (mkStatus (name s) Error None (port s) (command s)
                       (start_time s) (last_health_check s) 0
                       (restart_count s + 1)))))) ∧
  (auto_restart cfg = false →
   get_server (monitor_tick w interval m) (c_name cfg) = Some s ∧
   occurrences (LogRestarting (c_name cfg))
               (trace (monitor_tick w interval m))
   = occurrences (LogRestarting (c_name cfg)) (trace m)).
Proof.
  intros Hwf Hnd Hd Hin Hn Hl Hst. split; intros Har.
  - destruct (monitor_tick_reaches w interval m cfg Hwf Hnd Hd Hin)
      as (m1 & pre & post & Hwf1 & Hc1 & Hs1 & Hg1 & Ht1 & Hp1 & Hg & Ht & Hp2).
    rewrite Hn in Hs1.
    assert (Hl1 : objs m1 !! l = Some s).
    { rewrite (get_server_lookup m _ l s) in Hg1 by done.
      unfold get_server in Hg1. by rewrite Hs1 in Hg1. }
    assert (Hpre : occurrences (LogRestarting (c_name cfg)) pre = 0%nat)
      by (by apply (occurrences_not_about _ _ LogRestarting)).
    assert (Hpost : occurrences (LogRestarting (c_name cfg)) post = 0%nat)
      by (by apply (occurrences_not_about _ _ LogRestarting)).
    rewrite Hg, Ht, occurrences_app, Hpost.
    split; [intros Hok|intros Hpid Hbad; split; intros Hec].
    + rewrite (monitor_iter_healthy w m1 cfg l s) by done. simpl.
      split.
      * rewrite (get_server_update_obj _ _ _ _ _ Hs1 Hl1).
        unfold mark_healthy. by rewrite Hst.
      * rewrite Ht1, occurrences_app, Hpre. lia.
    + rewrite (monitor_iter_unhealthy w m1 cfg l s) by done.
      replace (3 <=? error_count s + 1) with false
        by (symmetry; apply Z.leb_gt; lia).
      simpl. split; [by rewrite (get_server_update_obj _ _ _ _ _ Hs1 Hl1)|].
      rewrite Ht1, occurrences_app, Hpre. lia.
    + destruct (monitor_iter_unhealthy_restart w m1 cfg l s)
        as (Hz & es & Hes & Hno); try done.
      split; [done|]. split.
      * rewrite Hes, Ht1, !occurrences_app, Hpre, Hno.
        unfold occurrences at 2. rewrite filter_cons_True by done.
        rewrite filter_cons_False by done. simpl. lia.
      * intros Hsp.
        apply (monitor_iter_unhealthy_restart_raises w m1 cfg l s);
          try done.
        rewrite Hc1. by apply find_config_NoDup.
  - destruct (monitor_tick_idle w interval m (c_name cfg) Hwf)
      as (Hs & Hg & es & Ht & Ha).
    { intros c m' Hc Hname Hs' Hg'.
      assert (c = cfg) as -> by (by eapply config_NoDup_eq).
      by apply monitor_iter_not_auto_restart. }
    split; [rewrite Hg; by apply get_server_lookup with l|].
    assert (H1 : occurrences (LogRestarting (c_name cfg)) es = 0%nat)
      by (by apply (occurrences_not_about _ _ LogRestarting)).
    rewrite Ht, occurrences_app, H1. lia.
Qed.

Lemma wf_store_single m n s :
  servers m = {[n := 0%nat]} → objs m = [s] → wf_store m.
Proof.
  intros Hs Ho. split; rewrite Hs, ?Ho.
  - intros k l [_ <-]%lookup_singleton_Some. simpl. lia.
  - intros n1 n2 l [<- _]%lookup_singleton_Some [<- _]%lookup_singleton_Some.
    done.
Qed.

Lemma only_alpha (c : MCPServerConfig) : c ∈ [alpha] → 0 ≤ restart_delay c.
Proof.
  intros Hc. apply elem_of_cons in Hc as [->|Hc]; [simpl; lia|].
  by apply elem_of_nil in Hc.
Qed.

Lemma sleeps_one w c0 :
  sleep_raises w (restart_delay c0) = false →
  ∀ c, c ∈ [c0] → sleep_raises w (restart_delay c) = false.
Proof.
  intros H c Hc. apply elem_of_cons in Hc as [->|Hc]; [done|].
  by apply elem_of_nil in Hc.
Qed.

Lemma monitor_tick_health_check_witness :
  (* the pid is alive *)
  (get_server (monitor_tick as_shipped 30 m_alpha_live) "alpha"
   = Some (mkStatus "alpha" Running (Some 4242) None ["sleep"; "9999"]
                    (Some 1000) (Some 1000) 0 0) ∧
   occurrences (LogRestarting "alpha")
               (trace (monitor_tick as_shipped 30 m_alpha_live))
   = occurrences (LogRestarting "alpha") (trace m_alpha_live)) ∧
  (* the pid is gone, first failure *)
  (get_server (monitor_tick as_shipped_deserted 30 m_alpha_live) "alpha"
   = Some (mkStatus "alpha" Stopped None None ["sleep"; "9999"]
                    (Some 1000) None (0 + 1) 0) ∧
   occurrences (LogRestarting "alpha")
               (trace (monitor_tick as_shipped_deserted 30 m_alpha_live))
   = occurrences (LogRestarting "alpha") (trace m_alpha_live)) ∧
  (* the pid is gone, third failure *)
  (error_count
     <$> get_server (monitor_tick as_shipped_deserted 30 m_alpha_flaky) "alpha"
   = Some 0 ∧
   occurrences (LogRestarting "alpha")
               (trace (monitor_tick as_shipped_deserted 30 m_alpha_flaky))
   = S (occurrences (LogRestarting "alpha") (trace m_alpha_flaky)) ∧
   get_server (monitor_tick as_shipped_deserted 30 m_alpha_flaky) "alpha"
   = Some (mkStatus "alpha" Error None None ["sleep"; "9999"]
                    (Some 1000) None 0 (0 + 1))) ∧
  (* auto_restart is off *)
  (get_server (monitor_tick as_shipped_deserted 30 m_beta_live) "beta"
   = Some (mkStatus "beta" Running (Some 4300) None ["sleep"; "9999"]
                    (Some 1000) None 0 0) ∧
   occurrences (LogRestarting "beta")
               (trace (monitor_tick as_shipped_deserted 30 m_beta_live))
   = occurrences (LogRestarting "beta") (trace m_beta_live)).
Proof.
  split; [|split; [|split]].
  - destruct (monitor_tick_health_check as_shipped 30 m_alpha_live alpha
                0%nat
                (mkStatus "alpha" Running (Some 4242) None ["sleep"; "9999"]
                          (Some 1000) None 0 0)) as [H _];
      [by eapply wf_store_single|apply NoDup_singleton
      |by apply sleeps_one|by left|reflexivity..|].
    destruct (H eq_refl) as [Hh _]. apply Hh. reflexivity.
  - destruct (monitor_tick_health_check as_shipped_deserted 30 m_alpha_live
                alpha 0%nat
                (mkStatus "alpha" Running (Some 4242) None ["sleep"; "9999"]
                          (Some 1000) None 0 0)) as [H _];
      [by eapply wf_store_single|apply NoDup_singleton
      |by apply sleeps_one|by left|reflexivity..|].
    destruct (H eq_refl) as [_ Hf].
    destruct Hf as [Hlow _]; [reflexivity|discriminate|].
    apply Hlow. simpl. lia.
  - destruct (monitor_tick_health_check as_shipped_deserted 30 m_alpha_flaky
                alpha 0%nat
                (with_error_count 2 (fresh_status calm alpha 4242)))
      as [H _];
      [by eapply wf_store_single|apply NoDup_singleton
      |by apply sleeps_one|by left|reflexivity..|].
    destruct (H eq_refl) as [_ Hf].
    destruct Hf as [_ Hhigh]; [reflexivity|discriminate|].
    destruct Hhigh as (Hzero & Hone & Hrec); [simpl; lia|].
    split; [exact Hzero|]. split; [exact Hone|]. apply Hrec. reflexivity.
  - destruct (monitor_tick_health_check as_shipped_deserted 30 m_beta_live
                beta 0%nat
                (mkStatus "beta" Running (Some 4300) None ["sleep"; "9999"]
                          (Some 1000) None 0 0)) as [_ H];
      [by eapply wf_store_single|apply NoDup_singleton
      |by apply sleeps_one|by left|reflexivity..|].
    apply H. reflexivity.
Defined.

(** C3 (as stated) fails.  [beta] is Running and its pid is gone, but its
    [auto_restart] is off: the monitor turn does not check it, the record
    stays Running with the dead pid and the counter is not touched.  The
    status refresh of the same moment does notice. *)
Lemma monitor_tick_skips_health_check :
  auto_restart beta = false ∧
  get_server m_beta_live "beta"
  = Some (mkStatus "beta" Running (Some 4300) None ["sleep"; "9999"]
                   (Some 1000) None 0 0) ∧
  probe as_shipped_deserted 4300 = PGone ∧
  monitor_tick as_shipped_deserted 30 m_beta_live
  = emit [Sleep 30] m_beta_live ∧
  get_server (monitor_tick as_shipped_deserted 30 m_beta_live) "beta"
  = Some (mkStatus "beta" Running (Some 4300) None ["sleep"; "9999"]
                   (Some 1000) None 0 0) ∧
  get_server (get_server_status as_shipped_deserted m_beta_live None).1 "beta"
  = Some (mkStatus "beta" Stopped None None ["sleep"; "9999"]
                   (Some 1000) None 0 0).
Proof. repeat split; reflexivity. Qed.

(** ** Start-up *)



(** C5. The state file of [alpha] carries pid 4242 and that process is
    alive.  Re-registering it calls [subprocess.Popen([])], which raises
    for want of a program to run; the exception is caught by the handler
    of the whole file, and the supervisor starts with no record and no
    handle for [alpha]: the live server is not adopted. *)
Theorem boot_drops_live_server :
  find_config "alpha" [alpha] = Some alpha ∧
  sd_pid <$> alpha_state_file !! "alpha" = Some (Some 4242) ∧
  probe calm 4242 = PAlive ∧
  popen_empty_raises calm = true ∧
  get_server (boot calm [alpha] alpha_state_file) "alpha" = None ∧
  servers (boot calm [alpha] alpha_state_file) = ∅ ∧
  processes (boot calm [alpha] alpha_state_file) = ∅.
Proof. repeat split; reflexivity. Qed.

(** The other half of start-up is as specified: a process that is not
    found alive gives a Stopped record that keeps both counters. *)
Lemma boot_keeps_counts_of_dead_server :
  get_server (boot deserted [alpha] alpha_state_file) "alpha"
  = Some (loaded_stopped alpha
            (mkState "alpha" Running (Some 4242) (Some 900) (Some 2) (Some 0))) ∧
  restart_count <$> get_server (boot deserted [alpha] alpha_state_file) "alpha"
  = Some 2 ∧
  error_count <$> get_server (boot deserted [alpha] alpha_state_file) "alpha"
  = Some 0.
Proof. repeat split; reflexivity. Qed.

(** ** Running records name a process *)

Lemma store_ok_update_obj l f m :
  (∀ s, record_ok s → record_ok (f s)) →
  store_ok m → store_ok (update_obj l f m).
Proof.
  intros Hf Hm. unfold store_ok, update_obj; simpl.
  apply Forall_lookup. intros i s.
  rewrite list_lookup_alter. case_decide; subst.
  - intros Hs. apply fmap_Some in Hs as (s0 & Hs0 & ->).
    apply Hf. by eapply (Forall_lookup_1 record_ok).
  - by apply (Forall_lookup_1 record_ok).
Qed.

Lemma record_ok_not_running f :
  (∀ s, status (f s) ≠ Running) → ∀ s, record_ok s → record_ok (f s).
Proof. intros Hf s _ Hr. by destruct (Hf s). Qed.

Lemma record_ok_same f :
  (∀ s, status (f s) = status s ∧ pid (f s) = pid s) →
  ∀ s, record_ok s → record_ok (f s).
Proof.
  intros Hf s Hs Hr. destruct (Hf s) as [H1 H2]. rewrite H2.
  apply Hs. by rewrite <- H1.
Qed.

Local Ltac store_ok_step :=
  first
    [ assumption
    | apply store_ok_update_obj;
        [ first [ apply record_ok_not_running; by intros []
                | apply record_ok_same; by intros [] ]
        | ] ].

Lemma store_ok_mark_error m n : store_ok m → store_ok (mark_error m n).
Proof.
  intros Hm. unfold mark_error.
  destruct (servers m !! n); repeat store_ok_step.
Qed.

Lemma store_ok_save_server_state w m n :
  store_ok m → store_ok (save_server_state w m n).
Proof.
  unfold store_ok. by destruct (save_server_state_fields w m n) as (_ & -> & _).
Qed.

Lemma store_ok_register w cfg p m :
  store_ok m → store_ok (register w cfg p m).
Proof.
  intros Hm. unfold store_ok, register; simpl.
  apply Forall_app. split; [done|].
  apply Forall_singleton. intros _. by eexists.
Qed.

Lemma store_ok_start_server w m n force :
  store_ok m → store_ok (start_server w m n force).1.
Proof.
  intros Hm. unfold start_server.
  destruct (find_config n (server_configs m)) as [cfg|]; [|done].
  destruct (match get_server m n with Some _ => _ | None => _ end); [done|].
  destruct (spawn w n) as [|p [|]]; simpl.
  - by apply store_ok_mark_error.
  - apply store_ok_save_server_state.
    by apply (store_ok_register w cfg p (emit [LogStarting n] m)).
  - apply store_ok_mark_error.
    by apply (store_ok_register w cfg p (emit [LogStarting n] m)).
Qed.

Lemma store_ok_stop_server w m n force :
  store_ok m → store_ok (stop_server w m n force).1.
Proof.
  intros Hm. unfold stop_server.
  destruct (servers m !! n) as [l|]; [|done].
  destruct (objs m !! l) as [s|]; [|done].
  destruct (negb _); [done|].
  destruct (processes m !! n) as [p|].
  - destruct (stop_process w p force) as [es [|]]; simpl; [|done].
    unfold finish_stop. apply store_ok_save_server_state.
    by apply (store_ok_update_obj l mark_stopped
                (drop_process n (emit es m))); [intros s' _ [=]|].
  - simpl. unfold finish_stop. apply store_ok_save_server_state.
    by apply store_ok_update_obj; [intros s' _ [=]|].
Qed.

Lemma store_ok_restart_server w m n :
  store_ok m → store_ok (restart_server w m n).1.
Proof.
  intros Hm. unfold restart_server.
  set (m1 := bump_restart_count (emit [LogRestarting n] m) n).
  assert (H1 : store_ok m1).
  { subst m1. unfold bump_restart_count; simpl.
    destruct (servers m !! n) as [l|]; [|done].
    apply (store_ok_update_obj l _ (emit [LogRestarting n] m)); [|done].
    intros s Hs Hr. by apply Hs. }
  pose proof (store_ok_stop_server w m1 n false H1) as H2.
  destruct (stop_server w m1 n false) as [m2 [|]]; simpl in *; [|done].
  by apply (store_ok_start_server w (emit [Sleep 2] m2)).
Qed.

Lemma store_ok_health_check_server w m n :
  store_ok m → store_ok (health_check_server w m n).1.
Proof.
  intros Hm. unfold health_check_server.
  destruct (servers m !! n) as [l|]; [|done].
  destruct (objs m !! l) as [s|]; [|done].
  destruct (negb _); [done|].
  destruct (pid_truthy (pid s)); [|done].
  destruct (probe w _); simpl; [done| |];
    by apply store_ok_update_obj; [intros s' _ [=]|].
Qed.

Lemma store_ok_monitor_iter w m cfg :
  store_ok m → store_ok (monitor_iter w m cfg).1.
Proof.
  intros Hm. unfold monitor_iter.
  destruct (auto_restart cfg); [|done]; simpl.
  destruct (servers m !! c_name cfg) as [l|]; [|done].
  destruct (objs m !! l) as [s|]; [|done].
  destruct (auto_start cfg && negb (is_running (status s))).
  - destruct (restart_count s <? max_restarts cfg); [|done].
    destruct (sleep_raises w (restart_delay cfg)); simpl; [done|].
    by apply (store_ok_start_server w (emit _ (emit _ m))).
  - destruct (is_running (status s)); [|done].
    pose proof (store_ok_health_check_server w m (c_name cfg) Hm) as H1.
    destruct (health_check_server w m (c_name cfg)) as [m1 [|]]; simpl in *.
    { apply store_ok_update_obj; [|done]. intros s' Hs' Hr. by apply Hs'. }
    set (m2 := update_obj l _ m1).
    assert (H2 : store_ok m2).
    { apply store_ok_update_obj; [|done]. intros s' Hs' Hr. by apply Hs'. }
    destruct (3 <=? _); simpl; [|done].
    apply store_ok_update_obj; [intros s' Hs' Hr; by apply Hs'|].
    by apply store_ok_restart_server.
Qed.

Lemma store_ok_monitor_pass w cs m :
  store_ok m → store_ok (monitor_pass w cs m).
Proof.
  revert m. induction cs as [|c cs IH]; intros m Hm; simpl; [done|].
  pose proof (store_ok_monitor_iter w m c Hm) as H1.
  destruct (monitor_iter w m c) as [m' [|]]; simpl in *; [done|].
  by apply IH.
Qed.

Lemma record_ok_refresh w s : record_ok s → record_ok (refresh w s).
Proof.
  intros Hs. unfold refresh.
  destruct (is_running (status s) && pid_truthy (pid s)); [|done].
  by destruct (probe w _).
Qed.

Lemma store_ok_update_server_metrics w m :
  store_ok m → store_ok (update_server_metrics w m).
Proof.
  intros Hm. unfold update_server_metrics.
  induction (map_to_list (servers m)) as [|[n l] L IH]; simpl; [done|].
  apply store_ok_update_obj; [apply record_ok_refresh|done].
Qed.

Lemma store_ok_load_one w sd m : store_ok m → store_ok (load_one w sd m).
Proof.
  intros Hm. unfold load_one.
  destruct (find_config _ _) as [cfg|]; [|done].
  destruct (pid_truthy (sd_pid sd)) eqn:Hpid; simpl.
  - destruct (probe w _); simpl.
    + destruct (popen_empty_raises w); [done|].
      unfold store_ok; simpl. apply Forall_app. split; [done|].
      apply Forall_singleton. intros _; simpl.
      by destruct (sd_pid sd).
    + unfold store_ok; simpl. apply Forall_app. split; [done|].
      by apply Forall_singleton.
    + unfold store_ok; simpl. apply Forall_app. split; [done|].
      by apply Forall_singleton.
  - unfold store_ok; simpl. apply Forall_app. split; [done|].
    by apply Forall_singleton.
Qed.

Lemma store_ok_boot w cs files : store_ok (boot w cs files).
Proof.
  unfold boot, load_server_states; simpl.
  induction (map_to_list files) as [|[k sd] L IH]; simpl.
  - by apply Forall_nil.
  - by apply store_ok_load_one.
Qed.

Lemma store_ok_exec w op m : store_ok m → store_ok (exec w op m).
Proof.
  intros Hm. destruct op; simpl.
  - by apply store_ok_start_server.
  - by apply store_ok_stop_server.
  - by apply store_ok_restart_server.
  - by apply store_ok_update_server_metrics.
  - unfold deploy_server. by destruct (config_io_ok w).
  - unfold start_all_servers.
    generalize (server_configs m). intros cs.
    revert m Hm. induction cs as [|c cs IH]; intros m Hm; simpl; [done|].
    apply IH. destruct (auto_start c); [|done].
    by apply store_ok_start_server.
  - unfold stop_all_servers.
    generalize (server_keys m). intros ks.
    revert m Hm. induction ks as [|k ks IH]; intros m Hm; simpl; [done|].
    apply IH. by apply store_ok_stop_server.
  - unfold monitor_tick.
    destruct (sleep_raises w interval); by apply (store_ok_monitor_pass w).
Qed.

Lemma store_ok_session steps m : store_ok m → store_ok (session steps m).
Proof.
  revert m. induction steps as [|[w op] steps IH]; intros m Hm; simpl;
    [done|].
  apply IH. by apply store_ok_exec.
Qed.

(** ** What the two liveness checks do *)

Lemma refresh_idemp w s : refresh w (refresh w s) = refresh w s.
Proof.
  unfold refresh.
  destruct (is_running (status s) && pid_truthy (pid s)) eqn:Hc.
  - destruct (probe w (default 0 (pid s))) eqn:Hp; simpl; [|done..].
    by rewrite Hc, Hp.
  - by rewrite Hc.
Qed.

Lemma refresh_all_lookup w (L : list (string * nat)) m l :
  servers (foldr (λ nl acc, update_obj nl.2 (refresh w) acc) m L) = servers m ∧
  objs (foldr (λ nl acc, update_obj nl.2 (refresh w) acc) m L) !! l
  = if bool_decide (l ∈ L.*2) then refresh w <$> objs m !! l
    else objs m !! l.
Proof.
  induction L as [|[n l0] L [IHs IHo]]; simpl; [done|]. split; [done|].
  rewrite list_lookup_alter, IHo.
  destruct (decide (l0 = l)) as [->|Hd].
  - rewrite bool_decide_eq_true_2 by (by left).
    rewrite IHo. destruct (bool_decide (l ∈ L.*2)); [|done].
    destruct (objs m !! l); simpl; [|done]. by rewrite refresh_idemp.
  - destruct (bool_decide (l ∈ L.*2)) eqn:HL.
    + apply bool_decide_eq_true in HL.
      by rewrite bool_decide_eq_true_2 by (by right).
    + apply bool_decide_eq_false in HL.
      rewrite bool_decide_eq_false_2; [done|].
      intros [->|?]%elem_of_cons; done.
Qed.

(** [_update_server_metrics] refreshes the record of every name. *)
Lemma get_server_update_server_metrics w m n :
  get_server (update_server_metrics w m) n = refresh w <$> get_server m n.
Proof.
  unfold update_server_metrics, get_server.
  destruct (refresh_all_lookup w (map_to_list (servers m)) m 0) as [-> _].
  destruct (servers m !! n) as [l|] eqn:Hn; simpl; [|done].
  destruct (refresh_all_lookup w (map_to_list (servers m)) m l) as [_ ->].
  rewrite bool_decide_eq_true_2; [done|].
  apply list_elem_of_fmap. exists (n, l). split; [done|].
  by apply elem_of_map_to_list.
Qed.

Lemma refresh_running w s p :
  status s = Running → pid s = Some p → p ≠ 0 →
  refresh w s = match probe w p with PAlive => s | _ => mark_stopped s end.
Proof.
  intros Hst Hpid Hp. unfold refresh. rewrite Hst, Hpid; simpl.
  replace (p =? 0) with false by (symmetry; by apply Z.eqb_neq).
  done.
Qed.

(** C9. In every state that a session reaches from start-up, a record that
    says Running holds a pid.  Each of the two liveness checks — the health
    check of the monitor and the refresh behind [get_server_status] —
    looks that pid up: when the process is not found alive the record
    becomes Stopped with its pid cleared, so a record that still says
    Running after a check is one whose pid that check found alive. *)
Theorem running_means_pid_verified :
  (∀ w cs files steps n s,
     get_server (session steps (boot w cs files)) n = Some s →
     status s = Running → is_Some (pid s)) ∧
  (∀ w m n l s p,
     servers m !! n = Some l → objs m !! l = Some s →
     status s = Running → pid s = Some p → p ≠ 0 →
     (probe w p ≠ PAlive →
      (health_check_server w m n).2 = false ∧
      get_server (health_check_server w m n).1 n = Some (mark_stopped s) ∧
      status (mark_stopped s) = Stopped ∧ pid (mark_stopped s) = None) ∧
     (status <$> get_server (health_check_server w m n).1 n = Some Running →
      probe w p = PAlive)) ∧
  (∀ w m q n l s p,
     servers m !! n = Some l → objs m !! l = Some s →
     status s = Running → pid s = Some p → p ≠ 0 →
     (probe w p ≠ PAlive →
      get_server (get_server_status w m q).1 n = Some (mark_stopped s) ∧
      status (mark_stopped s) = Stopped ∧ pid (mark_stopped s) = None) ∧
     (status <$> get_server (get_server_status w m q).1 n = Some Running →
      probe w p = PAlive)).
Proof.
  split; [|split].
  - intros w cs files steps n s Hg Hr.
    pose proof (store_ok_session steps _ (store_ok_boot w cs files)) as Hok.
    unfold get_server in Hg.
    destruct (servers _ !! n) as [l|]; simpl in Hg; [|done].
    by apply (Forall_lookup_1 record_ok _ _ _ Hok Hg).
  - intros w m n l s p Hn Hl Hst Hpid Hp.
    rewrite (health_check_server_running w m n l s) by done.
    rewrite Hpid; simpl.
    replace (p =? 0) with false by (symmetry; by apply Z.eqb_neq).
    simpl. split.
    + intros Hdead.
      destruct (probe w p); [done| |]; simpl;
        by rewrite (get_server_update_obj m n l _ s).
    + destruct (probe w p); [done| |]; simpl;
        by rewrite (get_server_update_obj m n l _ s).
  - intros w m q n l s p Hn Hl Hst Hpid Hp. simpl.
    rewrite get_server_update_server_metrics.
    rewrite (get_server_lookup m n l s) by done. simpl.
    rewrite (refresh_running w s p) by done. split.
    + intros Hdead. by destruct (probe w p).
    + by destruct (probe w p).
Qed.

Lemma running_means_pid_verified_witness :
  is_Some (pid (fresh_status calm alpha 4242)) ∧
  ((health_check_server deserted m_alpha_up "alpha").2 = false ∧
   get_server (health_check_server deserted m_alpha_up "alpha").1 "alpha"
   = Some (mark_stopped (fresh_status calm alpha 4242)) ∧
   status (mark_stopped (fresh_status calm alpha 4242)) = Stopped ∧
   pid (mark_stopped (fresh_status calm alpha 4242)) = None) ∧
  (get_server (get_server_status deserted m_alpha_up None).1 "alpha"
   = Some (mark_stopped (fresh_status calm alpha 4242)) ∧
   status (mark_stopped (fresh_status calm alpha 4242)) = Stopped ∧
   pid (mark_stopped (fresh_status calm alpha 4242)) = None) ∧
  probe calm 4242 = PAlive.
Proof.
  destruct running_means_pid_verified as (Hinv & Hhealth & Hstatus).
  split; [|split; [|split]].
  - apply (Hinv calm [alpha] ∅ [(calm, OpStart "alpha" false)] "alpha");
      reflexivity.
  - apply (Hhealth deserted m_alpha_up "alpha" 0%nat
             (fresh_status calm alpha 4242) 4242);
      try reflexivity; discriminate.
  - apply (Hstatus deserted m_alpha_up None "alpha" 0%nat
             (fresh_status calm alpha 4242) 4242);
      try reflexivity; discriminate.
  - apply (Hhealth calm m_alpha_up "alpha" 0%nat
             (fresh_status calm alpha 4242) 4242);
      try reflexivity; discriminate.
Defined.

(** ** Every reachable store is well formed *)

Lemma wf_store_monitor_pass w cs m :
  wf_store m → wf_store (monitor_pass w cs m).
Proof.
  revert m. induction cs as [|c cs IH]; intros m Hm; simpl; [done|].
  pose proof (cf_wf _ _ _ (confined_monitor_iter w m c) Hm) as H1.
  destruct (monitor_iter w m c) as [m' [|]]; simpl in *; [done|].
  by apply IH.
Qed.

Lemma wf_store_exec w op m : wf_store m → wf_store (exec w op m).
Proof.
  intros Hm.
  destruct op as [n force|n force|n|on|cfg| |force|interval]; simpl.
  - by apply (cf_wf _ _ _ (confined_start_server w m m n force
                             (confined_refl n m))).
  - by apply (cf_wf _ _ _ (confined_stop_server w m n force)).
  - by apply (cf_wf _ _ _ (confined_restart_server w m m n
                             (confined_refl n m))).
  - unfold update_server_metrics.
    induction (map_to_list (servers m)) as [|[k l] L IH]; simpl; [done|].
    by apply wf_store_update_obj.
  - unfold deploy_server. by destruct (config_io_ok w).
  - unfold start_all_servers.
    generalize (server_configs m). intros cs.
    revert m Hm. induction cs as [|c cs IH]; intros m Hm; simpl; [done|].
    apply IH. destruct (auto_start c); [|done].
    by apply (cf_wf _ _ _ (confined_start_server w m m (c_name c) false
                             (confined_refl _ m))).
  - unfold stop_all_servers.
    generalize (server_keys m). intros ks.
    revert m Hm. induction ks as [|k ks IH]; intros m Hm; simpl; [done|].
    apply IH. by apply (cf_wf _ _ _ (confined_stop_server w _ k force)).
  - unfold monitor_tick.
    destruct (sleep_raises w interval); by apply (wf_store_monitor_pass w).
Qed.

(** The well-formedness that the turn-level statements assume holds in
    every state of every session. *)
Lemma wf_store_session w cs files steps :
  wf_store (session steps (boot w cs files)).
Proof.
  generalize (wf_store_boot w cs files). generalize (boot w cs files).
  induction steps as [|[w' op] steps IH]; intros m Hm; simpl; [done|].
  apply IH. by apply wf_store_exec.
Qed.

(** ** What does hold of the restart budget *)

(** X1. A server that is not running and has [restart_count] at or above
    [max_restarts] is left alone by a monitor turn: its record is the same
    at the end of the turn and no start has been attempted. *)
Lemma monitor_tick_budget_spent w interval m cfg l s :
  wf_store m →
  NoDup (c_name <$> server_configs m) →
  (∀ c, c ∈ server_configs m → 0 ≤ restart_delay c) →
  cfg ∈ server_configs m →
  servers m !! c_name cfg = Some l →
  objs m !! l = Some s →
  auto_start cfg = true →
  status s ≠ Running →
  max_restarts cfg ≤ restart_count s →
  get_server (monitor_tick w interval m) (c_name cfg) = Some s ∧
  occurrences (LogStarting (c_name cfg)) (trace (monitor_tick w interval m))
  = occurrences (LogStarting (c_name cfg)) (trace m).
Proof.
  intros Hwf Hnd _ Hin Hn Hl Has Hst Hrc.
  destruct (monitor_tick_idle w interval m (c_name cfg) Hwf)
    as (Hs & Hg & es & Ht & Ha).
  { intros c m' Hc Hname Hs' Hg'.
    assert (c = cfg) as -> by (by eapply config_NoDup_eq).
    rewrite Hn in Hs'.
    apply (monitor_iter_budget_spent w m' cfg l s); try done.
    rewrite (get_server_lookup m _ l s) in Hg' by done.
    unfold get_server in Hg'. by rewrite Hs' in Hg'. }
  split; [rewrite Hg; by apply get_server_lookup with l|].
  assert (H1 : occurrences (LogStarting (c_name cfg)) es = 0%nat)
    by (by apply (occurrences_not_about _ _ LogStarting)).
  rewrite Ht, occurrences_app, H1. lia.
Qed.

Lemma stop_server_keeps_count w m n l s force :
  servers m !! n = Some l →
  objs m !! l = Some s →
  servers (stop_server w m n force).1 = servers m ∧
  server_configs (stop_server w m n force).1 = server_configs m ∧
  ∃ s', objs (stop_server w m n force).1 !! l = Some s' ∧
        restart_count s' = restart_count s ∧
        ((stop_server w m n force).2 = true → status s' ≠ Running).
Proof.
  intros Hn Hl. unfold stop_server. rewrite Hn, Hl.
  destruct (is_running (status s)) eqn:Hr; simpl.
  2:{ repeat split; try done. exists s. repeat split; try done.
      intros _ Hs. by rewrite Hs in Hr. }
  assert (Hfin : ∀ m0, servers m0 = servers m → objs m0 = objs m →
            server_configs m0 = server_configs m →
            servers (finish_stop w l n m0) = servers m ∧
            server_configs (finish_stop w l n m0) = server_configs m ∧
            ∃ s', objs (finish_stop w l n m0) !! l = Some s' ∧
                  restart_count s' = restart_count s ∧
                  (true = true → status s' ≠ Running)).
  { intros m0 H1 H2 H3. unfold finish_stop.
    destruct (save_server_state_fields w (update_obj l mark_stopped m0) n)
      as (-> & -> & _ & _ & ->); simpl.
    repeat split; try done. exists (mark_stopped s).
    rewrite H2, list_lookup_alter_eq, Hl. by repeat split. }
  destruct (processes m !! n) as [p|]; [|by apply Hfin].
  destruct (stop_process w p force) as [es [|]]; simpl; [by apply Hfin|].
  repeat split; try done. exists s. by repeat split.
Qed.

(** A restart whose stop fails, or whose spawn raises. *)
Lemma restart_server_fails w m n l s :
  servers m !! n = Some l →
  objs m !! l = Some s →
  (stop_server w (bump_restart_count (emit [LogRestarting n] m) n) n false).2
    = false ∨ spawn w n = SpawnRaises →
  (restart_server w m n).2 = false ∧
  restart_count <$> get_server (restart_server w m n).1 n
  = Some (restart_count s + 1).
Proof.
  intros Hn Hl Hfail. unfold restart_server.
  set (m1 := bump_restart_count (emit [LogRestarting n] m) n) in *.
  set (s1 := with_restart_count (restart_count s + 1) s).
  assert (Hn1 : servers m1 !! n = Some l).
  { subst m1. unfold bump_restart_count; simpl. by rewrite Hn. }
  assert (Hl1 : objs m1 !! l = Some s1).
  { subst m1. unfold bump_restart_count; simpl. rewrite Hn; simpl.
    by rewrite list_lookup_alter_eq, Hl. }
  destruct (stop_server_keeps_count w m1 n l s1 false Hn1 Hl1)
    as (Hs2 & Hc2 & s2 & Hl2 & Hrc2 & Hst2).
  destruct (stop_server w m1 n false) as [m2 [|]] eqn:Hstop; simpl in *.
  2:{ split; [done|]. unfold get_server. rewrite Hs2, Hn1; simpl.
      by rewrite Hl2; simpl; f_equal. }
  destruct Hfail as [?|Hsp]; [done|].
  set (m3 := emit [Sleep 2] m2).
  assert (Hg3 : get_server m3 n = Some s2).
  { apply (get_server_lookup m3 n l); [|done]. simpl. by rewrite Hs2. }
  unfold start_server.
  destruct (find_config n (server_configs m3)) as [cfg|];
    [|split; [done|]; cbn [fst]; by rewrite Hg3; simpl; f_equal].
  rewrite Hg3.
  replace (is_running (status s2)) with false
    by (specialize (Hst2 eq_refl); by destruct (status s2)).
  cbn [andb]. rewrite Hsp. split; [done|]. cbn [fst].
  rewrite get_server_mark_error.
  change (get_server (emit [LogStarting n] m3) n) with (get_server m3 n).
  rewrite Hg3; simpl. by f_equal.
Qed.

(** X2. When the stop of a restart fails, or when its spawn raises, the
    restart reports failure, the record stays bound to the name and its
    [restart_count] is one more than before. *)
Lemma restart_server_count_kept w m n l s :
  servers m !! n = Some l →
  objs m !! l = Some s →
  (stop_server w (bump_restart_count (emit [LogRestarting n] m) n) n false).2
    = false ∨ spawn w n = SpawnRaises →
  (restart_server w m n).2 = false ∧
  restart_count <$> get_server (restart_server w m n).1 n
  = Some (restart_count s + 1).
Proof. apply restart_server_fails. Qed.

(** * Further properties of the manager *)

Lemma monitor_tick_budget_spent_witness :
  get_server (monitor_tick calm 30 m_alpha_parked) "alpha"
  = Some (with_status Error
            (with_restart_count 3 (fresh_status calm alpha 4242))) ∧
  occurrences (LogStarting "alpha") (trace (monitor_tick calm 30 m_alpha_parked))
  = occurrences (LogStarting "alpha") (trace m_alpha_parked).
Proof.
  apply (monitor_tick_budget_spent calm 30 m_alpha_parked alpha 0%nat
           (with_status Error
              (with_restart_count 3 (fresh_status calm alpha 4242))));
    [by eapply wf_store_single|apply NoDup_singleton|apply only_alpha
    |by left|reflexivity|reflexivity|reflexivity|discriminate|simpl; lia].
Defined.

Lemma restart_server_count_kept_witness :
  (restart_server barren m_alpha_up "alpha").2 = false ∧
  restart_count <$> get_server (restart_server barren m_alpha_up "alpha").1 "alpha"
  = Some (restart_count (fresh_status calm alpha 4242) + 1).
Proof.
  apply (restart_server_count_kept barren m_alpha_up "alpha" 0%nat
           (fresh_status calm alpha 4242));
    [reflexivity|reflexivity|by right].
Defined.

(** ** stop_server when a signal cannot be delivered *)

(** X3. When the first signal of [stop_server] raises, or when the child
    outlives the 10 second wait and the SIGKILL that follows raises,
    [stop_server] reports failure and records nothing: the record is still
    Running with its pid, the handle is kept and no state file is written.
    In the second case SIGTERM has been sent and waited for all the same. *)
Theorem stop_server_signal_failure w m n l s p (force : bool) :
  servers m !! n = Some l →
  objs m !! l = Some s →
  status s = Running →
  processes m !! n = Some p →
  signal_raises w p (if force then SIGKILL else SIGTERM) = true ∨
  (force = false ∧ signal_raises w p SIGTERM = false ∧
   wait_times_out w p = true ∧ signal_raises w p SIGKILL = true) →
  (stop_server w m n force).2 = false ∧
  get_server (stop_server w m n force).1 n = Some s ∧
  processes (stop_server w m n force).1 !! n = Some p ∧
  disk (stop_server w m n force).1 = disk m ∧
  trace (stop_server w m n force).1
  = trace m ++
    (if signal_raises w p (if force then SIGKILL else SIGTERM) then []
     else [signal_event w p SIGTERM; Wait p 10]).
Proof.
  intros Hn Hl Hst Hp Hraise. unfold stop_server.
  rewrite Hn, Hl, Hst, Hp; simpl. unfold stop_process.
  destruct Hraise as [Hr|(-> & Ht & Hw & Hk)].
  - destruct force; rewrite Hr; simpl;
      (split; [done|]; split; [by apply (get_server_lookup _ n l)|done]).
  - rewrite Ht, Hw, Hk; simpl.
    split; [done|]; split; [by apply (get_server_lookup _ n l)|done].
Qed.

Lemma stop_server_signal_failure_witness :
  ((stop_server unreachable m_alpha_up "alpha" false).2 = false ∧
   get_server (stop_server unreachable m_alpha_up "alpha" false).1 "alpha"
   = Some (fresh_status calm alpha 4242) ∧
   processes (stop_server unreachable m_alpha_up "alpha" false).1 !! "alpha"
   = Some 4242 ∧
   disk (stop_server unreachable m_alpha_up "alpha" false).1 = disk m_alpha_up ∧
   trace (stop_server unreachable m_alpha_up "alpha" false).1
   = trace m_alpha_up ++ []) ∧
  ((stop_server stubborn m_alpha_up "alpha" false).2 = false ∧
   get_server (stop_server stubborn m_alpha_up "alpha" false).1 "alpha"
   = Some (fresh_status calm alpha 4242) ∧
   processes (stop_server stubborn m_alpha_up "alpha" false).1 !! "alpha"
   = Some 4242 ∧
   disk (stop_server stubborn m_alpha_up "alpha" false).1 = disk m_alpha_up ∧
   trace (stop_server stubborn m_alpha_up "alpha" false).1
   = trace m_alpha_up ++ [Killpg 4242 SIGTERM; Wait 4242 10]).
Proof.
  split.
  - apply (stop_server_signal_failure unreachable m_alpha_up "alpha" 0%nat
             (fresh_status calm alpha 4242) 4242 false);
      [reflexivity..|by left].
  - apply (stop_server_signal_failure stubborn m_alpha_up "alpha" 0%nat
             (fresh_status calm alpha 4242) 4242 false);
      [reflexivity..|right; by repeat split].
Defined.

(** ** Starting and stopping twice *)

Lemma server_configs_start_server w m n force :
  server_configs (start_server w m n force).1 = server_configs m.
Proof. apply (confined_start_server w m m n force (confined_refl n m)). Qed.

Lemma processes_mark_error m n : processes (mark_error m n) = processes m.
Proof. unfold mark_error. by destruct (servers m !! n). Qed.

(** X4. [start_server], with [force] or without, sends no signal and waits
    for no process: every event it adds to the trace is a log line, a
    spawn or a sleep, and the handles of the other servers are as before.
    With [force] on a server that is Running it does not stop the process
    that is running. *)
Theorem start_server_sends_no_signal w m n force :
  (∃ es, trace (start_server w m n force).1 = trace m ++ es ∧
         Forall (λ e, ¬ is_signal e) es) ∧
  (∀ k, k ≠ n →
        processes (start_server w m n force).1 !! k = processes m !! k).
Proof.
  unfold start_server.
  destruct (find_config n (server_configs m)) as [cfg|] eqn:Hcfg;
    [|split; [exists []; simpl; by rewrite app_nil_r|done]].
  destruct (match get_server m n with Some _ => _ | None => _ end);
    [split; [exists []; simpl; by rewrite app_nil_r|done]|].
  apply find_config_name in Hcfg as Hname.
  destruct (spawn w n) as [|p [|]]; simpl.
  - split.
    + exists [LogStarting n]. rewrite trace_mark_error. split; [done|].
      repeat constructor; by intros [].
    + intros k Hk. by rewrite processes_mark_error.
  - split.
    + exists [LogStarting n; Spawned n p; Sleep 1].
      rewrite trace_save_server_state; simpl. rewrite <- app_assoc.
      split; [done|]. repeat constructor; by intros [].
    + intros k Hk.
      destruct (save_server_state_fields w
                  (emit [Spawned n p; Sleep 1]
                     (register w cfg p (emit [LogStarting n] m))) n)
        as (_ & _ & -> & _). simpl.
      rewrite lookup_insert_ne; [done|congruence].
  - split.
    + exists [LogStarting n; Spawned n p; Sleep 1].
      rewrite trace_mark_error; simpl. rewrite <- app_assoc.
      split; [done|]. repeat constructor; by intros [].
    + intros k Hk. rewrite processes_mark_error. simpl.
      rewrite lookup_insert_ne; [done|congruence].
Qed.

Lemma start_server_twice_open w w' m n cfg force :
  find_config n (server_configs m) = Some cfg →
  (∀ s, get_server m n = Some s → status s = Running → force = true) →
  (start_server w m n force).2 = true →
  start_server w' (start_server w m n force).1 n false
  = ((start_server w m n force).1, true).
Proof.
  intros Hcfg Hgate Hok. destruct (spawn w n) as [|p [|]] eqn:Hsp.
  - destruct (start_server_raises w m n cfg force Hcfg Hgate Hsp) as [Hr _].
    congruence.
  - destruct (start_server_alive w m n cfg force p Hcfg Hgate Hsp)
      as (_ & Hg & _).
    unfold start_server at 1.
    by rewrite server_configs_start_server, Hcfg, Hg.
  - destruct (start_server_exited w m n cfg force p Hcfg Hgate Hsp) as [Hr _].
    congruence.
Qed.

(** X5. A [start_server] that reported success makes the next
    [start_server] without [force] a successful no-op, whatever the
    environment has become: nothing is spawned and nothing changes; the
    code trusts the record, it does not look the process up. *)
Theorem start_server_twice w w' m n force :
  (start_server w m n force).2 = true →
  start_server w' (start_server w m n force).1 n false
  = ((start_server w m n force).1, true).
Proof.
  intros Hok.
  destruct (find_config n (server_configs m)) as [cfg|] eqn:Hcfg;
    [|unfold start_server in Hok; by rewrite Hcfg in Hok].
  destruct (get_server m n) as [s|] eqn:Hg.
  - destruct (is_running (status s) && negb force) eqn:Hgate.
    + assert (Hsame : start_server w m n force = (m, true))
        by (unfold start_server; by rewrite Hcfg, Hg, Hgate).
      rewrite Hsame. simpl. unfold start_server. rewrite Hcfg, Hg.
      apply andb_true_iff in Hgate as [-> _]. done.
    + apply (start_server_twice_open w w' m n cfg force); [done| |done].
      intros s' Hs' Hr. rewrite Hg in Hs'. injection Hs' as <-.
      rewrite Hr in Hgate. by destruct force.
  - apply (start_server_twice_open w w' m n cfg force); [done| |done].
    intros s' Hs'. by rewrite Hg in Hs'.
Qed.

Lemma start_server_twice_witness :
  start_server as_shipped_deserted
               (start_server as_shipped m_alpha_live "alpha" false).1
               "alpha" false
  = ((start_server as_shipped m_alpha_live "alpha" false).1, true).
Proof.
  apply (start_server_twice as_shipped as_shipped_deserted m_alpha_live
           "alpha" false).
  reflexivity.
Defined.

(** X6. A [stop_server] that reported success makes every later
    [stop_server] of that name a successful no-op: no signal is sent
    twice, nothing is written twice. *)
Theorem stop_server_twice w w' m n force force' :
  (stop_server w m n force).2 = true →
  stop_server w' (stop_server w m n force).1 n force'
  = ((stop_server w m n force).1, true).
Proof.
  intros Hok.
  destruct (servers m !! n) as [l|] eqn:Hn;
    [|unfold stop_server; rewrite Hn; simpl; by rewrite Hn].
  destruct (objs m !! l) as [s|] eqn:Hl;
    [|unfold stop_server; rewrite Hn, Hl; simpl; by rewrite Hn, Hl].
  destruct (stop_server_keeps_count w m n l s force Hn Hl)
    as (Hs & _ & s' & Hl' & _ & Hst).
  unfold stop_server at 1. rewrite Hs, Hn, Hl'.
  specialize (Hst Hok). by destruct (status s').
Qed.

Lemma stop_server_twice_witness :
  stop_server unreachable (stop_server calm m_alpha_up "alpha" false).1
              "alpha" true
  = ((stop_server calm m_alpha_up "alpha" false).1, true).
Proof.
  apply (stop_server_twice calm unreachable m_alpha_up "alpha" false true).
  reflexivity.
Defined.

(** ** The status snapshot *)

Lemma update_server_metrics_fields w m :
  servers (update_server_metrics w m) = servers m ∧
  processes (update_server_metrics w m) = processes m ∧
  disk (update_server_metrics w m) = disk m ∧
  trace (update_server_metrics w m) = trace m ∧
  server_configs (update_server_metrics w m) = server_configs m.
Proof.
  unfold update_server_metrics.
  induction (map_to_list (servers m)) as [|[n l] L IH]; simpl; done.
Qed.

Lemma refresh_fields w s :
  name (refresh w s) = name s ∧
  restart_count (refresh w s) = restart_count s ∧
  error_count (refresh w s) = error_count s ∧
  start_time (refresh w s) = start_time s ∧
  (status (refresh w s) = Running → status s = Running ∧ pid (refresh w s) = pid s) ∧
  (status s ≠ Running → refresh w s = s).
Proof.
  unfold refresh. destruct (status s) eqn:Hst; simpl;
    [|repeat split; intros; congruence..].
  destruct (pid_truthy (pid s)); [|repeat split; intros; congruence].
  destruct (probe w _); simpl; repeat split; intros; simpl in *; congruence.
Qed.

(** X7. [get_server_status] hands out, for every name that has a record,
    the record after one look at the process table: unchanged when it was
    not Running, Stopped with the pid cleared when the process is not
    found alive; asked for one name other than the empty string it hands
    out that entry alone, and nothing for a name without a record; asked
    for the empty string it hands out every entry, as when asked for no
    name.  The refresh never changes a counter, never turns a record back
    to Running, and touches neither the handles nor the state files: what
    it found is not persisted. *)
Theorem get_server_status_snapshot w m :
  (∀ n, (get_server_status w m None).2 !! n = refresh w <$> get_server m n) ∧
  (∀ k n, k ≠ "" →
          (get_server_status w m (Some k)).2 !! n
          = if decide (n = k) then refresh w <$> get_server m k else None) ∧
  get_server_status w m (Some "") = get_server_status w m None ∧
  (∀ q n, get_server (get_server_status w m q).1 n
          = refresh w <$> get_server m n) ∧
  (∀ q, processes (get_server_status w m q).1 = processes m ∧
        disk (get_server_status w m q).1 = disk m ∧
        trace (get_server_status w m q).1 = trace m) ∧
  (∀ s, restart_count (refresh w s) = restart_count s ∧
        error_count (refresh w s) = error_count s ∧
        (status (refresh w s) = Running → status s = Running)).
Proof.
  split; [|split; [|split; [|split; [|split]]]].
  - intros n. simpl. rewrite lookup_omap.
    rewrite <- get_server_update_server_metrics. done.
  - intros k n Hk. simpl. rewrite decide_False by done.
    rewrite <- get_server_update_server_metrics.
    destruct (get_server (update_server_metrics w m) k) as [s|].
    + case_decide; subst; [by rewrite lookup_singleton_eq|].
      by rewrite lookup_singleton_ne.
    + rewrite lookup_empty. by case_decide.
  - reflexivity.
  - intros q n. simpl. apply get_server_update_server_metrics.
  - intros q. simpl.
    by destruct (update_server_metrics_fields w m) as (_ & -> & -> & -> & _).
  - intros s. destruct (refresh_fields w s) as (_ & H1 & H2 & _ & H3 & _).
    repeat split; try done. intros Hr. by apply H3.
Qed.

(** ** Operations on one name leave the others alone *)

Lemma confined_get_server k m m' n :
  confined k m m' → wf_store m → n ≠ k → get_server m' n = get_server m n.
Proof.
  intros [_ _ _ Ho _ Hb _] Hwf Hne. unfold get_server. rewrite Ho by done.
  destruct (servers m !! n) as [l|] eqn:Hl; simpl; [|done].
  apply Hb; [by eapply Hwf|].
  intros Hk. apply Hne. by eapply Hwf.
Qed.

(** ** start_all_servers *)

Lemma start_all_fold w (cs : list MCPServerConfig) m :
  wf_store m →
  let step acc c :=
    if auto_start c then (start_server w acc (c_name c) false).1 else acc in
  wf_store (foldl step m cs) ∧
  server_configs (foldl step m cs) = server_configs m ∧
  (∀ n, (∀ c, c ∈ cs → c_name c = n → auto_start c = false) →
        get_server (foldl step m cs) n = get_server m n).
Proof.
  intros Hwf step. revert m Hwf.
  induction cs as [|c cs IH]; intros m Hwf; simpl.
  { repeat split; try done; try apply Hwf. }
  assert (Hc : confined (c_name c) m (step m c)).
  { subst step; simpl. destruct (auto_start c); [|apply confined_refl].
    apply confined_start_server, confined_refl. }
  destruct (IH (step m c) (cf_wf _ _ _ Hc Hwf)) as (Hwf' & Hcfg' & Hout).
  split; [done|]. split; [by rewrite Hcfg', (cf_configs _ _ _ Hc)|].
  intros n Hn. rewrite Hout by (intros c' Hc'; apply Hn; by right).
  destruct (decide (n = c_name c)) as [->|Hne].
  - subst step; simpl. by rewrite (Hn c) by (done || by left).
  - by apply (confined_get_server (c_name c)).
Qed.

(** A start whose spawn raises, whatever the record says. *)
Lemma start_server_raises_any w m n cfg :
  find_config n (server_configs m) = Some cfg →
  spawn w n = SpawnRaises →
  get_server (start_server w m n false).1 n
  = (λ s, if is_running (status s) then s else with_status Error s)
      <$> get_server m n ∧
  servers (start_server w m n false).1 = servers m ∧
  processes (start_server w m n false).1 = processes m ∧
  disk (start_server w m n false).1 = disk m.
Proof.
  intros Hcfg Hsp.
  assert ((∃ s, get_server m n = Some s ∧ status s = Running) ∨
          ¬ (∃ s, get_server m n = Some s ∧ status s = Running))
    as [(s & Hg & Hr)|Hno].
  { destruct (get_server m n) as [s|]; [|right; by intros (s & ? & _)].
    destruct (decide (status s = Running)); [left; by exists s|right].
    intros (s' & [= <-] & ?). done. }
  { unfold start_server. rewrite Hcfg, Hg, Hr. simpl. by rewrite Hg, Hr. }
  assert (Hgate : ∀ s, get_server m n = Some s → status s = Running →
                       false = true).
  { intros s Hs Hr. exfalso. apply Hno. by exists s. }
  destruct (start_server_raises w m n cfg false Hcfg Hgate Hsp)
    as (_ & Hg' & Hs & _ & Hd).
  split.
  { rewrite Hg'. destruct (get_server m n) as [s|] eqn:Hg; [|done]. simpl.
    destruct (is_running (status s)) eqn:Hr; [|done].
    exfalso. apply Hno. exists s. split; [done|]. by destruct (status s). }
  split; [done|]. split; [|done].
  rewrite (start_server_open w m n cfg) by done.
  rewrite Hsp. simpl. by rewrite processes_mark_error.
Qed.

Lemma start_all_fold_raises w (cs : list MCPServerConfig) m :
  wf_store m →
  let step acc c :=
    if auto_start c then (start_server w acc (c_name c) false).1 else acc in
  NoDup (c_name <$> cs) →
  (∀ c, c ∈ cs → find_config (c_name c) (server_configs m) = Some c) →
  (∀ c, c ∈ cs → spawn w (c_name c) = SpawnRaises) →
  servers (foldl step m cs) = servers m ∧
  processes (foldl step m cs) = processes m ∧
  disk (foldl step m cs) = disk m ∧
  ∀ c, c ∈ cs → auto_start c = true →
       get_server (foldl step m cs) (c_name c)
       = (λ s, if is_running (status s) then s else with_status Error s)
           <$> get_server m (c_name c).
Proof.
  intros Hwf step. revert m Hwf.
  induction cs as [|c cs IH]; intros m Hwf Hnd Hfind Hsp; simpl.
  { repeat split; try done. intros c Hc. by apply elem_of_nil in Hc. }
  apply NoDup_cons in Hnd as [Hfresh Hnd].
  assert (Hc : confined (c_name c) m (step m c)).
  { subst step; simpl. destruct (auto_start c); [|apply confined_refl].
    apply confined_start_server, confined_refl. }
  assert (Hstep : servers (step m c) = servers m ∧
                  processes (step m c) = processes m ∧
                  disk (step m c) = disk m).
  { subst step; simpl. destruct (auto_start c); [|done].
    destruct (start_server_raises_any w m (c_name c) c) as (_ & ? & ? & ?);
      [apply Hfind; by left|apply Hsp; by left|done]. }
  destruct Hstep as (Hs1 & Hp1 & Hd1).
  destruct (IH (step m c) (cf_wf _ _ _ Hc Hwf) Hnd) as (Hs & Hp & Hd & Hin).
  { intros c' Hc'. rewrite (cf_configs _ _ _ Hc). apply Hfind. by right. }
  { intros c' Hc'. apply Hsp. by right. }
  split; [congruence|]. split; [congruence|]. split; [congruence|].
  intros c' Hc' Has. apply elem_of_cons in Hc' as [->|Hc'].
  - destruct (start_all_fold w cs (step m c) (cf_wf _ _ _ Hc Hwf))
      as (_ & _ & Hout).
    fold step in Hout. rewrite Hout.
    + subst step; simpl. rewrite Has.
      apply (start_server_raises_any w m (c_name c) c);
        [apply Hfind; by left|apply Hsp; by left].
    + intros c' Hc' Hname. exfalso. apply Hfresh. rewrite <- Hname.
      by apply list_elem_of_fmap_2.
  - rewrite (Hin c' Hc' Has). f_equal.
    apply (confined_get_server (c_name c)); [done|done|].
    intros Hname. apply Hfresh. rewrite <- Hname.
    by apply list_elem_of_fmap_2.
Qed.

(** X9. Over a well-formed store with distinct configuration names, when
    the spawn of every configured server raises, [start_all_servers]
    brings nothing up: of a server with [auto_start] set, a record that is
    Running is left as it is, any other record is set to Errored with its
    other fields kept, and no record is made where there was none; the
    record of a server that is not configured or whose [auto_start] is off
    is not touched; no binding, no handle and no state file changes. *)
Theorem start_all_servers_spawn_raises w m :
  wf_store m →
  NoDup (c_name <$> server_configs m) →
  (∀ c, c ∈ server_configs m → spawn w (c_name c) = SpawnRaises) →
  (∀ c, c ∈ server_configs m → auto_start c = true →
        get_server (start_all_servers w m) (c_name c)
        = match get_server m (c_name c) with
          | Some s =>
              Some (if is_running (status s) then s
                    else mkStatus (name s) Error (pid s) (port s) (command s)
                                  (start_time s) (last_health_check s)
                                  (error_count s) (restart_count s))
          | None => None
          end) ∧
  (∀ n, (∀ c, c ∈ server_configs m → c_name c = n → auto_start c = false) →
        get_server (start_all_servers w m) n = get_server m n) ∧
  servers (start_all_servers w m) = servers m ∧
  processes (start_all_servers w m) = processes m ∧
  disk (start_all_servers w m) = disk m.
Proof.
  intros Hwf Hnd Hsp. unfold start_all_servers.
  destruct (start_all_fold w (server_configs m) m Hwf) as (_ & _ & Hout).
  destruct (start_all_fold_raises w (server_configs m) m Hwf Hnd)
    as (Hs & Hp & Hd & Hin); [|done|].
  { intros c Hc. by apply find_config_NoDup. }
  split; [|done].
  intros c Hc Has. rewrite (Hin c Hc Has).
  by destruct (get_server m (c_name c)).
Qed.

Lemma start_all_servers_spawn_raises_witness :
  get_server (start_all_servers as_shipped m_booted) "alpha"
  = Some (mkStatus "alpha" Error None None ["sleep"] (Some 900) None 0 2) ∧
  get_server (start_all_servers as_shipped m_booted) "beta"
  = Some (mkStatus "beta" Error None None ["sleep"] (Some 900) None 0 0) ∧
  servers (start_all_servers as_shipped m_booted) = servers m_booted ∧
  processes (start_all_servers as_shipped m_booted) = processes m_booted ∧
  disk (start_all_servers as_shipped m_booted) = disk m_booted.
Proof.
  destruct (start_all_servers_spawn_raises as_shipped m_booted)
    as (Hin & _ & Hs & Hp & Hd).
  - apply wf_store_boot.
  - unfold m_booted. rewrite server_configs_boot.
    apply (bool_decide_unpack _). by vm_compute.
  - reflexivity.
  - split; [|split; [|by repeat split]].
    + etrans; [apply (Hin alpha)|reflexivity]; [|reflexivity].
      unfold m_booted. rewrite server_configs_boot. by left.
    + etrans; [apply (Hin beta)|reflexivity]; [|reflexivity].
      unfold m_booted. rewrite server_configs_boot. right. by left.
Defined.

(** ** Start-up over a whole runtime directory *)







(** ** Across a restart of the supervisor *)




(** ** Deployment *)

Lemma find_config_cons n c cs :
  find_config n (c :: cs)
  = if decide (c_name c = n) then Some c else find_config n cs.
Proof.
  unfold find_config; simpl. case_decide; [done|].
  by destruct (list_find _ cs) as [[i x]|].
Qed.

Lemma find_config_upsert_eq cfg cs :
  find_config (c_name cfg) (upsert_config cfg cs) = Some cfg.
Proof.
  induction cs as [|c cs IH]; simpl.
  - rewrite find_config_cons. by case_decide.
  - case_decide as Hd; rewrite find_config_cons; by case_decide.
Qed.

Lemma find_config_upsert_ne n cfg cs :
  n ≠ c_name cfg →
  find_config n (upsert_config cfg cs) = find_config n cs.
Proof.
  intros Hne. induction cs as [|c cs IH]; simpl.
  - rewrite find_config_cons. by case_decide.
  - case_decide as Hd; rewrite !find_config_cons.
    + repeat case_decide; congruence.
    + by rewrite IH.
Qed.

Lemma elem_of_upsert_names n cfg cs :
  n ∈ c_name <$> upsert_config cfg cs ↔ n = c_name cfg ∨ n ∈ c_name <$> cs.
Proof.
  induction cs as [|c cs IH]; simpl.
  - rewrite elem_of_cons. split; [intros [?|?]|intros [?|?]]; auto.
  - case_decide as Hd; simpl; rewrite !elem_of_cons.
    + rewrite Hd. tauto.
    + rewrite IH. tauto.
Qed.

Lemma NoDup_upsert_config cfg cs :
  NoDup (c_name <$> cs) → NoDup (c_name <$> upsert_config cfg cs).
Proof.
  induction cs as [|c cs IH]; simpl; intros Hnd.
  - apply NoDup_singleton.
  - apply NoDup_cons in Hnd as [Hc Hnd].
    case_decide as Hd; simpl; apply NoDup_cons.
    + by rewrite <- Hd.
    + split; [|by apply IH]. rewrite elem_of_upsert_names.
      intros [?|?]; [congruence|done].
Qed.

(** The entries of the file and the configurations read from them change
    together. *)
Lemma load_server_configs_upsert n d l :
  load_server_configs (Some (Some (upsert_data n d l)))
  = upsert_config (parse_server_data n d) (load_server_configs (Some (Some l))).
Proof.
  simpl. induction l as [|[k x] l IH]; simpl; [done|].
  destruct (decide (k = n)) as [->|Hne]; simpl; [done|].
  f_equal. exact IH.
Qed.

(** X12. [deploy_server] on a configuration file that is absent or has
    its ["mcpServers"] key, when the file can be read and written:
    it reports success; the configurations of the manager are those the
    file now holds; the deployed name is configured with the values given
    and the defaults for the keys left out ([auto_start] and
    [auto_restart] on, 5 restarts, 5 seconds, a command given as one
    string taken as a one-word command line); every other name is
    configured as before and names stay distinct; no record, handle,
    state file or process is touched.  It is the deployment that a session
    performs with the parsed configuration. *)
Theorem deploy_server_file_registers w f m n d :
  config_io_ok w = true →
  f ≠ Some None →
  server_configs m = load_server_configs f →
  let r := deploy_server_file w f m n d in
  r.2 = true ∧
  server_configs r.1.2 = load_server_configs r.1.1 ∧
  find_config n (server_configs r.1.2) = Some (parse_server_data n d) ∧
  (∀ k, k ≠ n →
        find_config k (server_configs r.1.2) = find_config k (server_configs m)) ∧
  (NoDup (c_name <$> server_configs m) →
   NoDup (c_name <$> server_configs r.1.2)) ∧
  (servers r.1.2 = servers m ∧ objs r.1.2 = objs m ∧
   processes r.1.2 = processes m ∧ disk r.1.2 = disk m ∧
   trace r.1.2 = trace m) ∧
  (r.1.2, r.2) = deploy_server w m (parse_server_data n d).
Proof.
  intros Hio Hf Hm. unfold deploy_server_file, deploy_server. rewrite Hio.
  assert (∃ l, match f with None => Some [] | Some o => o end = Some l ∧
               server_configs m = load_server_configs (Some (Some l)))
    as (l & -> & Hl).
  { destruct f as [[l|]|]; [by exists l|done|by exists []]. }
  cbn [fst snd server_configs servers objs processes disk trace].
  rewrite load_server_configs_upsert, <- Hl.
  split; [done|]. split; [done|].
  split; [apply (find_config_upsert_eq (parse_server_data n d))|].
  split; [intros k Hk; by apply find_config_upsert_ne|].
  split; [apply NoDup_upsert_config|]. done.
Qed.

Lemma deploy_server_file_registers_witness :
  let r := deploy_server_file calm None m_empty "gamma" gamma_data in
  r.2 = true ∧
  server_configs r.1.2 = load_server_configs r.1.1 ∧
  find_config "gamma" (server_configs r.1.2)
  = Some (mkConfig "gamma" ["gamma-server"] [] true true None 5 5) ∧
  (∀ k, k ≠ "gamma" →
        find_config k (server_configs r.1.2)
        = find_config k (server_configs m_empty)) ∧
  (NoDup (c_name <$> server_configs m_empty) →
   NoDup (c_name <$> server_configs r.1.2)) ∧
  (servers r.1.2 = servers m_empty ∧ objs r.1.2 = objs m_empty ∧
   processes r.1.2 = processes m_empty ∧ disk r.1.2 = disk m_empty ∧
   trace r.1.2 = trace m_empty) ∧
  (r.1.2, r.2) = deploy_server calm m_empty (parse_server_data "gamma" gamma_data).
Proof.
  apply (deploy_server_file_registers calm None m_empty "gamma" gamma_data).
  - reflexivity.
  - discriminate.
  - reflexivity.
Defined.

(** X13. A name that is not configured cannot be started: [start_server]
    reports failure and does nothing.  Once deployed, the start is
    attempted and logged; when its spawn raises, [start_server] reports
    failure and the name still has no record, no handle and no state
    file. *)
Theorem deploy_then_start w w' f m n d :
  config_io_ok w = true →
  f ≠ Some None →
  server_configs m = load_server_configs f →
  find_config n (server_configs m) = None →
  get_server m n = None →
  spawn w' n = SpawnRaises →
  (∀ force, start_server w' m n force = (m, false)) ∧
  (start_server w' (deploy_server_file w f m n d).1.2 n false).2 = false ∧
  trace (start_server w' (deploy_server_file w f m n d).1.2 n false).1
  = trace m ++ [LogStarting n] ∧
  get_server (start_server w' (deploy_server_file w f m n d).1.2 n false).1 n
  = None ∧
  processes (start_server w' (deploy_server_file w f m n d).1.2 n false).1
  = processes m ∧
  disk (start_server w' (deploy_server_file w f m n d).1.2 n false).1
  = disk m.
Proof.
  intros Hio Hf Hm Hcfg Hg Hsp. split.
  { intros force. unfold start_server. by rewrite Hcfg. }
  set (m' := (deploy_server_file w f m n d).1.2).
  assert (Hcfg' : find_config n (server_configs m')
                  = Some (parse_server_data n d)).
  { subst m'. unfold deploy_server_file. rewrite Hio.
    destruct f as [[l|]|]; [|done|]; cbn [fst snd server_configs];
      rewrite load_server_configs_upsert;
      apply (find_config_upsert_eq (parse_server_data n d)). }
  assert (Hsame : servers m' = servers m ∧ objs m' = objs m ∧
                  processes m' = processes m ∧ disk m' = disk m ∧
                  trace m' = trace m).
  { subst m'. unfold deploy_server_file. rewrite Hio.
    by destruct f as [[l|]|]. }
  destruct Hsame as (Hs' & Ho' & Hp' & Hd' & Ht').
  assert (Hg' : get_server m' n = None).
  { unfold get_server in *. by rewrite Hs', Ho'. }
  destruct (start_server_raises_any w' m' n _ Hcfg' Hsp)
    as (Hgs & _ & Hps & Hds).
  destruct (start_server_raises w' m' n _ false Hcfg') as (Hr & _ & _ & Hts & _);
    [intros s Hs; by rewrite Hg' in Hs|done|].
  split; [done|]. split; [by rewrite Hts, Ht'|].
  split; [by rewrite Hgs, Hg'|]. split; congruence.
Qed.

Lemma deploy_then_start_witness :
  (∀ force, start_server as_shipped m_empty "gamma" force = (m_empty, false)) ∧
  (start_server as_shipped
     (deploy_server_file as_shipped None m_empty "gamma" gamma_data).1.2
     "gamma" false).2 = false ∧
  trace (start_server as_shipped
           (deploy_server_file as_shipped None m_empty "gamma" gamma_data).1.2
           "gamma" false).1
  = trace m_empty ++ [LogStarting "gamma"] ∧
  get_server (start_server as_shipped
                (deploy_server_file as_shipped None m_empty "gamma"
                                    gamma_data).1.2
                "gamma" false).1 "gamma"
  = None ∧
  processes (start_server as_shipped
               (deploy_server_file as_shipped None m_empty "gamma"
                                   gamma_data).1.2
               "gamma" false).1
  = processes m_empty ∧
  disk (start_server as_shipped
          (deploy_server_file as_shipped None m_empty "gamma" gamma_data).1.2
          "gamma" false).1
  = disk m_empty.
Proof.
  apply (deploy_then_start as_shipped as_shipped None m_empty "gamma"
           gamma_data);
    [reflexivity|discriminate|reflexivity..].
Defined.

(** ** Invariants of the record store, generically *)

Section StoreInvariant.
Variable P : MCPServerStatus → Prop.
Hypothesis P_fresh : ∀ w cfg p, P (fresh_status w cfg p).
Hypothesis P_error : ∀ s, P s → P (with_status Error s).
Hypothesis P_stopped : ∀ s, P s → P (mark_stopped s).

Lemma all_update_obj l f m :
  (∀ s, P s → P (f s)) →
  Forall P (objs m) → Forall P (objs (update_obj l f m)).
Proof.
  intros Hf Hm. simpl. apply Forall_lookup. intros i s.
  rewrite list_lookup_alter. case_decide; subst.
  - intros Hs. apply fmap_Some in Hs as (s0 & Hs0 & ->).
    apply Hf. by eapply (Forall_lookup_1 P).
  - by apply (Forall_lookup_1 P).
Qed.

Lemma all_mark_error m n :
  Forall P (objs m) → Forall P (objs (mark_error m n)).
Proof.
  intros Hm. unfold mark_error. destruct (servers m !! n); [|done].
  by apply all_update_obj.
Qed.

Lemma all_save_server_state w m n :
  Forall P (objs m) → Forall P (objs (save_server_state w m n)).
Proof. by destruct (save_server_state_fields w m n) as (_ & -> & _). Qed.

Lemma all_start_server w m n force :
  Forall P (objs m) → Forall P (objs (start_server w m n force).1).
Proof.
  intros Hm. unfold start_server.
  destruct (find_config n (server_configs m)) as [cfg|]; [|done].
  destruct (match get_server m n with Some _ => _ | None => _ end); [done|].
  assert (Hreg : ∀ p, Forall P (objs (emit [Spawned n p; Sleep 1]
                   (register w cfg p (emit [LogStarting n] m))))).
  { intros p. simpl. apply Forall_app. split; [done|].
    by apply Forall_singleton. }
  destruct (spawn w n) as [|p [|]]; simpl.
  - by apply all_mark_error.
  - by apply all_save_server_state.
  - by apply all_mark_error.
Qed.

Lemma all_stop_server w m n force :
  Forall P (objs m) → Forall P (objs (stop_server w m n force).1).
Proof.
  intros Hm. unfold stop_server.
  destruct (servers m !! n) as [l|]; [|done].
  destruct (objs m !! l) as [s|]; [|done].
  destruct (negb _); [done|].
  destruct (processes m !! n) as [p|].
  - destruct (stop_process w p force) as [es [|]]; simpl; [|done].
    unfold finish_stop. apply all_save_server_state.
    by apply (all_update_obj l mark_stopped (drop_process n (emit es m))).
  - simpl. unfold finish_stop. apply all_save_server_state.
    by apply all_update_obj.
Qed.

Lemma all_health_check_server w m n :
  Forall P (objs m) → Forall P (objs (health_check_server w m n).1).
Proof.
  intros Hm. unfold health_check_server.
  destruct (servers m !! n) as [l|]; [|done].
  destruct (objs m !! l) as [s|]; [|done].
  destruct (negb _); [done|].
  destruct (pid_truthy (pid s)); [|done].
  destruct (probe w _); simpl; [done| |]; by apply all_update_obj.
Qed.

Lemma all_update_server_metrics w m :
  Forall P (objs m) → Forall P (objs (update_server_metrics w m)).
Proof.
  intros Hm. unfold update_server_metrics.
  induction (map_to_list (servers m)) as [|[n l] L IH]; simpl; [done|].
  apply (all_update_obj l (refresh w)); [|done].
  intros s Hs. unfold refresh.
  destruct (_ && _); [|done]. destruct (probe w _); auto.
Qed.

Lemma all_start_all_servers w m :
  Forall P (objs m) → Forall P (objs (start_all_servers w m)).
Proof.
  unfold start_all_servers. generalize (server_configs m). intros cs.
  revert m. induction cs as [|c cs IH]; intros m Hm; simpl; [done|].
  apply IH. destruct (auto_start c); [|done]. by apply all_start_server.
Qed.

Lemma all_stop_all_servers w m force :
  Forall P (objs m) → Forall P (objs (stop_all_servers w m force)).
Proof.
  unfold stop_all_servers. generalize (server_keys m). intros ks.
  revert m. induction ks as [|k ks IH]; intros m Hm; simpl; [done|].
  apply IH. by apply all_stop_server.
Qed.
End StoreInvariant.

(** ** The restart threshold is out of reach *)

Lemma record_calm_fresh w cfg p : record_calm (fresh_status w cfg p).
Proof. intros _. simpl. lia. Qed.

Lemma record_calm_error s : record_calm s → record_calm (with_status Error s).
Proof. by intros _ [=]. Qed.

Lemma record_calm_stopped s : record_calm s → record_calm (mark_stopped s).
Proof. by intros _ [=]. Qed.

Lemma no_restarts_app tr es :
  no_restarts tr → no_restarts es → no_restarts (tr ++ es).
Proof. intros H1 H2 k. by rewrite occurrences_app, H1, H2. Qed.

Lemma files_calm_save w m n :
  (∀ s, get_server m n = Some s → error_count s ≤ 1) →
  files_calm (disk m) → files_calm (disk (save_server_state w m n)).
Proof.
  intros Hs Hd. unfold save_server_state.
  destruct (get_server m n) as [s|]; [|done].
  destruct (save_ok w n); [|done]. simpl.
  intros k sd. rewrite lookup_insert. case_decide; [|apply Hd].
  intros [= <-]. simpl. by apply Hs.
Qed.

Lemma disk_mark_error m n : disk (mark_error m n) = disk m.
Proof. unfold mark_error. by destruct (servers m !! n). Qed.

Lemma calm_start_server w m n force :
  calm_state m → calm_state (start_server w m n force).1.
Proof.
  intros (Ho & Ht & Hd). split; [|split].
  - apply all_start_server;
      auto using record_calm_fresh, record_calm_error.
  - destruct (start_server_trace_no_restart w m n force) as (es & -> & Hes).
    by apply no_restarts_app.
  - unfold start_server.
    destruct (find_config n (server_configs m)) as [cfg|] eqn:Hcfg; [|done].
    destruct (match get_server m n with Some _ => _ | None => _ end); [done|].
    apply find_config_name in Hcfg as <-.
    destruct (spawn w (c_name cfg)) as [|p [|]]; simpl.
    + by rewrite disk_mark_error.
    + apply files_calm_save; [|done]. intros s Hs.
      pose proof (get_server_register w cfg p
                    (emit [LogStarting (c_name cfg)] m)) as Hg.
      change (get_server (register w cfg p (emit [LogStarting (c_name cfg)] m))
                         (c_name cfg))
        with (get_server (emit [Spawned (c_name cfg) p; Sleep 1]
                            (register w cfg p
                               (emit [LogStarting (c_name cfg)] m)))
                         (c_name cfg)) in Hg.
      rewrite Hg in Hs. injection Hs as <-. simpl. lia.
    + by rewrite disk_mark_error.
Qed.

Lemma stop_process_no_restart w p force :
  no_restarts (stop_process w p force).1.
Proof.
  intros k. unfold stop_process, signal_event.
  destruct force, (has_killpg w), (signal_raises w p SIGKILL),
    (signal_raises w p SIGTERM), (wait_times_out w p); reflexivity.
Qed.

Lemma calm_stop_server w m n force :
  calm_state m → calm_state (stop_server w m n force).1.
Proof.
  intros (Ho & Ht & Hd). split; [|split].
  - apply all_stop_server; auto using record_calm_stopped.
  - unfold stop_server.
    destruct (servers m !! n) as [l|]; [|done].
    destruct (objs m !! l) as [s|]; [|done].
    destruct (negb _); [done|].
    destruct (processes m !! n) as [p|].
    + pose proof (stop_process_no_restart w p force) as Hes.
      destruct (stop_process w p force) as [es [|]]; simpl in *.
      * unfold finish_stop. rewrite trace_save_server_state; simpl.
        by apply no_restarts_app.
      * by apply no_restarts_app.
    + simpl. unfold finish_stop. by rewrite trace_save_server_state.
  - unfold stop_server.
    destruct (servers m !! n) as [l|] eqn:Hn; [|done].
    destruct (objs m !! l) as [s|] eqn:Hl; [|done].
    destruct (is_running (status s)) eqn:Hr; simpl; [|done].
    assert (Hs : error_count s ≤ 1).
    { apply (Forall_lookup_1 record_calm _ _ _ Ho Hl).
      by destruct (status s). }
    assert (Hfin : ∀ m0, servers m0 = servers m → objs m0 = objs m →
                         disk m0 = disk m →
                         files_calm (disk (finish_stop w l n m0))).
    { intros m0 H1 H2 H3. unfold finish_stop. apply files_calm_save.
      - intros s'. rewrite (get_server_update_obj m0 n l _ s)
          by (by rewrite ?H1, ?H2).
        by intros [= <-].
      - simpl. by rewrite H3. }
    destruct (processes m !! n) as [p|]; [|by apply Hfin].
    destruct (stop_process w p force) as [es [|]]; simpl; [by apply Hfin|done].
Qed.

Lemma calm_update_server_metrics w m :
  calm_state m → calm_state (update_server_metrics w m).
Proof.
  intros (Ho & Ht & Hd).
  destruct (update_server_metrics_fields w m) as (_ & _ & Hd' & Ht' & _).
  split; [|by rewrite Ht', Hd'].
  apply all_update_server_metrics; auto using record_calm_stopped.
Qed.

(** Under the invariant the comparison of line 406 is never true. *)
Lemma calm_monitor_iter w m cfg :
  calm_state m → calm_state (monitor_iter w m cfg).1.
Proof.
  intros Hm. pose proof Hm as (Ho & Ht & Hd).
  destruct (auto_restart cfg) eqn:Har;
    [|by rewrite monitor_iter_not_auto_restart].
  destruct (servers m !! c_name cfg) as [l|] eqn:Hn;
    [|by rewrite monitor_iter_no_record].
  destruct (objs m !! l) as [s|] eqn:Hl;
    [|unfold monitor_iter; by rewrite Har, Hn, Hl].
  pose proof (Forall_lookup_1 record_calm _ _ _ Ho Hl) as Hs.
  destruct (decide (status s = Running)) as [Hr|Hr].
  - specialize (Hs Hr).
    destruct (pid_truthy (pid s)) eqn:Hpid.
    + assert (probe w (default 0 (pid s)) = PAlive ∨
              probe w (default 0 (pid s)) ≠ PAlive) as [Hp|Hp]
        by (destruct (probe w (default 0 (pid s))); auto).
      * rewrite (monitor_iter_healthy w m cfg l s) by done.
        split; [|done]. apply all_update_obj; [|done].
        intros s' _ _. simpl. lia.
      * rewrite (monitor_iter_unhealthy w m cfg l s) by done.
        replace (3 <=? error_count s + 1) with false
          by (symmetry; apply Z.leb_gt; lia).
        split; [|done]. apply all_update_obj; [|done]. by intros s' _ [=].
    + rewrite (monitor_iter_healthy w m cfg l s)
        by (first [done | intros; congruence]).
      split; [|done]. apply all_update_obj; [|done].
      intros s' _ _. simpl. lia.
  - unfold monitor_iter. rewrite Har, Hn, Hl; simpl.
    replace (is_running (status s)) with false by (by destruct (status s)).
    rewrite andb_true_r.
    destruct (auto_start cfg); [|done].
    destruct (restart_count s <? max_restarts cfg); [|done].
    assert (H1 : calm_state (emit [LogAutoRestarting (c_name cfg)] m)).
    { split; [done|]. split; [|done]. by apply no_restarts_app. }
    destruct (sleep_raises w (restart_delay cfg)); [done|]. cbn [fst].
    apply calm_start_server.
    destruct H1 as (H1o & H1t & H1d). split; [done|]. split; [|done].
    by apply (no_restarts_app _ [Sleep (restart_delay cfg)]).
Qed.

Lemma calm_monitor_pass w cs m :
  calm_state m → calm_state (monitor_pass w cs m).
Proof.
  revert m. induction cs as [|c cs IH]; intros m Hm; simpl; [done|].
  pose proof (calm_monitor_iter w m c Hm) as H1.
  destruct (monitor_iter w m c) as [m' [|]]; simpl in *; [done|].
  by apply IH.
Qed.

Lemma calm_load_one w sd m :
  default 0 (sd_error_count sd) ≤ 1 →
  calm_state m → calm_state (load_one w sd m).
Proof.
  intros Hsd (Ho & Ht & Hd). unfold load_one.
  destruct (find_config _ _) as [cfg|]; [|done].
  destruct (_ && popen_empty_raises w); [done|].
  split; [|done]. simpl. apply Forall_app. split; [done|].
  apply Forall_singleton. by intros _.
Qed.

Lemma calm_boot w cs files : files_calm files → calm_state (boot w cs files).
Proof.
  intros Hf. unfold boot, load_server_states; simpl.
  assert (Hl : ∀ kv, kv ∈ map_to_list files →
                     default 0 (sd_error_count kv.2) ≤ 1).
  { intros [k sd] Hk. apply (Hf k). by apply elem_of_map_to_list. }
  induction (map_to_list files) as [|[k sd] L IH]; simpl.
  - split; [by apply Forall_nil|]. split; [by intros k|done].
  - apply calm_load_one.
    + apply (Hl (k, sd)). by left.
    + apply IH. intros kv Hkv. apply Hl. by right.
Qed.

Lemma calm_exec w op m :
  not_restart op → calm_state m → calm_state (exec w op m).
Proof.
  intros Hop Hm.
  destruct op as [n force|n force|n|q|cfg| |force|interval]; simpl.
  - by apply calm_start_server.
  - by apply calm_stop_server.
  - done.
  - by apply calm_update_server_metrics.
  - unfold deploy_server. by destruct (config_io_ok w).
  - unfold start_all_servers. generalize (server_configs m). intros cs.
    revert m Hm. induction cs as [|c cs IH]; intros m Hm; simpl; [done|].
    apply IH. destruct (auto_start c); [|done]. by apply calm_start_server.
  - unfold stop_all_servers. generalize (server_keys m). intros ks.
    revert m Hm. induction ks as [|k ks IH]; intros m Hm; simpl; [done|].
    apply IH. by apply calm_stop_server.
  - unfold monitor_tick.
    destruct (calm_monitor_pass w (server_configs m) m Hm) as (Ho & Ht & Hd).
    destruct (sleep_raises w interval); [done|].
    split; [done|]. split; [|done].
    by apply (no_restarts_app _ [Sleep interval]).
Qed.

(** X14. The restart after three failed health checks cannot happen.  In
    any session of starts, stops, status requests, deployments and
    monitor turns — no explicit restart — that begins with state files
    whose failure counter is at most 1, no restart is ever logged: a
    failed check marks the record Stopped, so it is not checked again
    until a start has replaced it by a record that counts from 0.  The
    session keeps Running records at one failure at most and writes only
    state files whose failure counter is at most 1, so the premise holds
    again at the next start-up. *)
Theorem monitor_never_restarts w cs files steps :
  files_calm files →
  Forall (λ wo : World * Op, not_restart wo.2) steps →
  (∀ n, occurrences (LogRestarting n)
                    (trace (session steps (boot w cs files))) = 0%nat) ∧
  (∀ n s, get_server (session steps (boot w cs files)) n = Some s →
          status s = Running → error_count s ≤ 1) ∧
  files_calm (disk (session steps (boot w cs files))).
Proof.
  intros Hf Hsteps.
  assert (Hcalm : calm_state (session steps (boot w cs files))).
  { generalize (calm_boot w cs files Hf). generalize (boot w cs files).
    induction Hsteps as [|[w' op] steps Hop Hsteps IH]; intros m Hm; simpl;
      [done|].
    apply IH. by apply calm_exec. }
  destruct Hcalm as (Ho & Ht & Hd). split; [done|]. split; [|done].
  intros n s Hg. unfold get_server in Hg.
  destruct (servers _ !! n) as [l|]; simpl in Hg; [|done].
  by apply (Forall_lookup_1 record_calm _ _ _ Ho Hg).
Qed.

Lemma monitor_never_restarts_witness :
  let steps := [(calm, OpStart "alpha" false); (deserted, OpTick 30);
                (deserted, OpTick 30); (calm, OpStatus None);
                (calm, OpTick 30)] in
  (∀ n, occurrences (LogRestarting n)
          (trace (session steps (boot deserted [alpha] alpha_state_file)))
        = 0%nat) ∧
  (∀ n s, get_server (session steps (boot deserted [alpha] alpha_state_file)) n
          = Some s →
          status s = Running → error_count s ≤ 1) ∧
  files_calm (disk (session steps (boot deserted [alpha] alpha_state_file))).
Proof.
  apply (monitor_never_restarts deserted [alpha] alpha_state_file).
  - intros k sd Hk. unfold alpha_state_file in Hk.
    apply lookup_singleton_Some in Hk as [_ <-]. simpl. lia.
  - repeat constructor.
Defined.

(** ** Every Running server has its handle *)

Lemma handles_update_obj l f m :
  (∀ s, status (f s) = Running → status s = Running ∧ pid (f s) = pid s) →
  handles_ok m → handles_ok (update_obj l f m).
Proof.
  intros Hf [Hwf Hh]. split; [by apply wf_store_update_obj|].
  intros n l0 s Hn. simpl. rewrite list_lookup_alter. case_decide; subst.
  - intros Hs Hr. apply fmap_Some in Hs as (s0 & Hs0 & ->).
    destruct (Hf s0 Hr) as [Hr0 ->]. by eapply Hh.
  - intros Hs Hr. by eapply Hh.
Qed.

Lemma handles_mark_error m n : handles_ok m → handles_ok (mark_error m n).
Proof.
  intros Hm. unfold mark_error. destruct (servers m !! n); [|done].
  by apply handles_update_obj; [intros s [=]|].
Qed.

Lemma handles_save_server_state w m n :
  handles_ok m → handles_ok (save_server_state w m n).
Proof.
  unfold save_server_state.
  destruct (get_server m n); [destruct (save_ok w n)|]; done.
Qed.

Lemma handles_emit es m : handles_ok m → handles_ok (emit es m).
Proof. done. Qed.

Lemma handles_register w cfg p m :
  handles_ok m → handles_ok (register w cfg p m).
Proof.
  intros [Hwf Hh].
  split; [by apply (cf_wf _ _ _ (confined_register w cfg p m))|].
  intros n l s. simpl. rewrite !lookup_insert. case_decide; subst.
  - intros [= <-]. rewrite lookup_app_r, Nat.sub_diag by lia.
    by intros [= <-] _.
  - intros Hn. pose proof (proj1 Hwf _ _ Hn) as Hlt.
    rewrite lookup_app_l by done. by apply Hh.
Qed.

Lemma handles_start_server w m n force :
  handles_ok m → handles_ok (start_server w m n force).1.
Proof.
  intros Hm. unfold start_server.
  destruct (find_config n (server_configs m)) as [cfg|]; [|done].
  destruct (match get_server m n with Some _ => _ | None => _ end); [done|].
  destruct (spawn w n) as [|p [|]]; simpl.
  - by apply handles_mark_error.
  - apply handles_save_server_state.
    by apply (handles_register w cfg p (emit [LogStarting n] m)).
  - apply handles_mark_error.
    by apply (handles_register w cfg p (emit [LogStarting n] m)).
Qed.

Lemma handles_finish_stop w l n m0 m :
  servers m0 !! n = Some l →
  servers m = servers m0 → objs m = objs m0 →
  processes m = processes m0 ∨ processes m = delete n (processes m0) →
  handles_ok m0 → handles_ok (finish_stop w l n m).
Proof.
  intros Hn Hs Ho Hp [Hwf Hh]. unfold finish_stop.
  apply handles_save_server_state. split.
  { apply wf_store_update_obj. destruct Hwf as [Hb Hi].
    split; rewrite Hs, ?Ho; done. }
  intros k l0 s. simpl. rewrite Hs, Ho, list_lookup_alter.
  case_decide; subst.
  - intros _ Hs0 Hr. apply fmap_Some in Hs0 as (s0 & _ & ->). done.
  - intros Hk Hs0 Hr.
    assert (k ≠ n) by (intros ->; congruence).
    destruct Hp as [-> | ->]; [|rewrite lookup_delete_ne by done];
      by eapply Hh.
Qed.

Lemma handles_stop_server w m n force :
  handles_ok m → handles_ok (stop_server w m n force).1.
Proof.
  intros Hm. unfold stop_server.
  destruct (servers m !! n) as [l|] eqn:Hn; [|done].
  destruct (objs m !! l) as [s|]; [|done].
  destruct (negb _); [done|].
  destruct (processes m !! n) as [p|].
  - destruct (stop_process w p force) as [es [|]]; simpl; [|done].
    apply (handles_finish_stop w l n m); auto.
  - simpl. apply (handles_finish_stop w l n m); auto.
Qed.

Lemma handles_restart_server w m n :
  handles_ok m → handles_ok (restart_server w m n).1.
Proof.
  intros Hm. unfold restart_server.
  set (m1 := bump_restart_count (emit [LogRestarting n] m) n).
  assert (H1 : handles_ok m1).
  { subst m1. unfold bump_restart_count; simpl.
    destruct (servers m !! n) as [l|]; [|done].
    by apply (handles_update_obj l _ (emit [LogRestarting n] m)). }
  pose proof (handles_stop_server w m1 n false H1) as H2.
  destruct (stop_server w m1 n false) as [m2 [|]]; simpl in *; [|done].
  by apply (handles_start_server w (emit [Sleep 2] m2)).
Qed.

Lemma handles_health_check_server w m n :
  handles_ok m → handles_ok (health_check_server w m n).1.
Proof.
  intros Hm. unfold health_check_server.
  destruct (servers m !! n) as [l|]; [|done].
  destruct (objs m !! l) as [s|]; [|done].
  destruct (negb _); [done|].
  destruct (pid_truthy (pid s)); [|done].
  destruct (probe w _); simpl; [done| |];
    by apply handles_update_obj; [intros s' [=]|].
Qed.

Lemma handles_monitor_iter w m cfg :
  handles_ok m → handles_ok (monitor_iter w m cfg).1.
Proof.
  intros Hm. unfold monitor_iter.
  destruct (auto_restart cfg); [|done]; simpl.
  destruct (servers m !! c_name cfg) as [l|]; [|done].
  destruct (objs m !! l) as [s|]; [|done].
  destruct (auto_start cfg && negb (is_running (status s))).
  - destruct (restart_count s <? max_restarts cfg); [|done].
    destruct (sleep_raises w (restart_delay cfg)); simpl; [done|].
    by apply (handles_start_server w (emit _ (emit _ m))).
  - destruct (is_running (status s)); [|done].
    pose proof (handles_health_check_server w m (c_name cfg) Hm) as H1.
    destruct (health_check_server w m (c_name cfg)) as [m1 [|]]; simpl in *.
    { by apply handles_update_obj. }
    set (m2 := update_obj l _ m1).
    assert (H2 : handles_ok m2) by (by apply handles_update_obj).
    destruct (3 <=? _); simpl; [|done].
    apply handles_update_obj; [done|]. by apply handles_restart_server.
Qed.

Lemma handles_load_one w sd m : handles_ok m → handles_ok (load_one w sd m).
Proof.
  intros [Hwf Hh]. split; [by apply wf_store_load_one|].
  unfold load_one. destruct (find_config _ _) as [cfg|]; [|done].
  destruct (pid_truthy (sd_pid sd) && _) eqn:Ha; simpl.
  - destruct (popen_empty_raises w); [done|]. simpl.
    intros n l s. rewrite !lookup_insert. case_decide; subst.
    + intros [= <-]. rewrite lookup_app_r, Nat.sub_diag by lia.
      intros [= <-] _. simpl. destruct (sd_pid sd); [done|].
      by apply andb_true_iff in Ha as [? _].
    + intros Hn. pose proof (proj1 Hwf _ _ Hn) as Hlt.
      rewrite lookup_app_l by done. by apply Hh.
  - intros n l s. rewrite !lookup_insert. case_decide; subst.
    + intros [= <-]. rewrite lookup_app_r, Nat.sub_diag by lia.
      by intros [= <-] [=].
    + intros Hn. pose proof (proj1 Hwf _ _ Hn) as Hlt.
      rewrite lookup_app_l by done. by apply Hh.
Qed.

Lemma handles_boot w cs files : handles_ok (boot w cs files).
Proof.
  unfold boot, load_server_states; simpl.
  induction (map_to_list files) as [|[k sd] L IH]; simpl.
  - split; [split|]; simpl; intros *; by rewrite lookup_empty.
  - by apply handles_load_one.
Qed.

Lemma handles_exec w op m : handles_ok m → handles_ok (exec w op m).
Proof.
  intros Hm.
  destruct op as [n force|n force|n|q|cfg| |force|interval]; simpl.
  - by apply handles_start_server.
  - by apply handles_stop_server.
  - by apply handles_restart_server.
  - unfold update_server_metrics.
    induction (map_to_list (servers m)) as [|[k l] L IH]; simpl; [done|].
    apply handles_update_obj; [|done]. intros s Hr.
    destruct (refresh_fields w s) as (_ & _ & _ & _ & H & _). by apply H.
  - unfold deploy_server. by destruct (config_io_ok w).
  - unfold start_all_servers. generalize (server_configs m). intros cs.
    revert m Hm. induction cs as [|c cs IH]; intros m Hm; simpl; [done|].
    apply IH. destruct (auto_start c); [|done].
    by apply handles_start_server.
  - unfold stop_all_servers. generalize (server_keys m). intros ks.
    revert m Hm. induction ks as [|k ks IH]; intros m Hm; simpl; [done|].
    apply IH. by apply handles_stop_server.
  - unfold monitor_tick.
    assert (Hpass : handles_ok (monitor_pass w (server_configs m) m)).
    { generalize (server_configs m). intros cs.
      revert m Hm. induction cs as [|c cs IH]; intros m Hm; simpl; [done|].
      pose proof (handles_monitor_iter w m c Hm) as H1.
      destruct (monitor_iter w m c) as [m' [|]]; simpl in *; [done|].
      by apply IH. }
    destruct (sleep_raises w interval); [done|]. by apply handles_emit.
Qed.

Lemma handles_session steps m : handles_ok m → handles_ok (session steps m).
Proof.
  revert m. induction steps as [|[w op] steps IH]; intros m Hm; simpl;
    [done|].
  apply IH. by apply handles_exec.
Qed.

(** X15. In every state that a session reaches from start-up, the manager
    holds a process handle for every server whose record says Running,
    and the handle is for the pid the record shows: [stop_server] always
    has a process to signal, and it is the recorded one. *)
Theorem running_server_has_handle w cs files steps n s :
  get_server (session steps (boot w cs files)) n = Some s →
  status s = Running →
  ∃ p, pid s = Some p ∧
       processes (session steps (boot w cs files)) !! n = Some p.
Proof.
  intros Hg Hr.
  pose proof (handles_session steps _ (handles_boot w cs files)) as Hh.
  pose proof (store_ok_session steps _ (store_ok_boot w cs files)) as Hok.
  unfold get_server in Hg.
  destruct (servers _ !! n) as [l|] eqn:Hn; simpl in Hg; [|done].
  destruct (Forall_lookup_1 record_ok _ _ _ Hok Hg Hr) as [p Hp].
  exists p. split; [done|]. rewrite <- Hp. by apply (proj2 Hh n l s).
Qed.

Lemma running_server_has_handle_witness :
  ∃ p, pid (fresh_status calm alpha 4242) = Some p ∧
       processes (session [(calm, OpStart "alpha" false); (calm, OpTick 30)]
                          (boot calm [alpha] ∅)) !! "alpha" = Some p.
Proof.
  apply (running_server_has_handle calm [alpha] ∅
           [(calm, OpStart "alpha" false); (calm, OpTick 30)] "alpha"
           (mark_healthy 1000 (fresh_status calm alpha 4242)));
    reflexivity.
Defined.

(** ** A negative restart_delay *)

Lemma monitor_iter_negative_delay w m cfg l s :
  auto_restart cfg = true →
  servers m !! c_name cfg = Some l →
  objs m !! l = Some s →
  auto_start cfg = true →
  status s ≠ Running →
  restart_count s < max_restarts cfg →
  restart_delay cfg < 0 →
  monitor_iter w m cfg = (emit [LogAutoRestarting (c_name cfg)] m, true).
Proof.
  intros Har Hn Hl Has Hst Hrc Hd. unfold monitor_iter.
  rewrite Har, Hn, Hl, Has; simpl.
  replace (is_running (status s)) with false by (by destruct (status s)).
  simpl.
  replace (restart_count s <? max_restarts cfg) with true
    by (symmetry; by apply Z.ltb_lt).
  unfold sleep_raises.
  by replace (restart_delay cfg <? 0) with true
    by (symmetry; by apply Z.ltb_lt).
Qed.

(** A pass in the situation of X16: it ends at the entry of the server
    with the negative delay, or before. *)
Lemma monitor_pass_negative_delay w cs1 cfg cs2 m l s :
  wf_store m →
  c_name cfg ∉ c_name <$> cs1 →
  auto_restart cfg = true →
  auto_start cfg = true →
  restart_delay cfg < 0 →
  servers m !! c_name cfg = Some l →
  objs m !! l = Some s →
  status s ≠ Running →
  restart_count s < max_restarts cfg →
  wf_store (monitor_pass w (cs1 ++ cfg :: cs2) m) ∧
  server_configs (monitor_pass w (cs1 ++ cfg :: cs2) m) = server_configs m ∧
  servers (monitor_pass w (cs1 ++ cfg :: cs2) m) !! c_name cfg = Some l ∧
  objs (monitor_pass w (cs1 ++ cfg :: cs2) m) !! l = Some s ∧
  ∀ n, n ∉ c_name <$> cs1 →
       get_server (monitor_pass w (cs1 ++ cfg :: cs2) m) n = get_server m n.
Proof.
  intros Hwf Hfresh Har Has Hneg. revert m Hwf.
  induction cs1 as [|c1 cs1 IH]; intros m Hwf Hn Hl Hst Hrc; simpl.
  { rewrite (monitor_iter_negative_delay w m cfg l s) by done.
    split; [exact Hwf|]. by repeat split. }
  rewrite fmap_cons in Hfresh. apply not_elem_of_cons in Hfresh as [Hne Hfresh].
  pose proof (confined_monitor_iter w m c1) as Hc.
  assert (Hn1 : servers (monitor_iter w m c1).1 !! c_name cfg = Some l)
    by (rewrite (cf_others _ _ _ Hc) by done; done).
  assert (Hl1 : objs (monitor_iter w m c1).1 !! l = Some s).
  { rewrite (cf_objs _ _ _ Hc); [done|by eapply lookup_lt_Some|].
    intros Hx. apply Hne. symmetry. by eapply Hwf. }
  assert (Hg1 : ∀ n, n ∉ c_name <$> c1 :: cs1 →
                     get_server (monitor_iter w m c1).1 n = get_server m n).
  { intros n Hnn. rewrite fmap_cons in Hnn.
    apply not_elem_of_cons in Hnn as [Hnn _].
    by apply (confined_get_server (c_name c1)). }
  pose proof (cf_wf _ _ _ Hc Hwf) as Hwf1.
  pose proof (cf_configs _ _ _ Hc) as Hcfg1.
  destruct (monitor_iter w m c1) as [m1 [|]]; simpl in *; [done|].
  destruct (IH Hfresh m1 Hwf1 Hn1 Hl1 Hst Hrc)
    as (Hwf' & Hc' & Hn' & Hl' & Hg').
  split; [done|]. split; [congruence|]. split; [done|]. split; [done|].
  intros n Hnn. rewrite Hg'; [by apply Hg1|].
  rewrite ?fmap_cons in Hnn. by apply not_elem_of_cons in Hnn as [_ ?].
Qed.

(** One turn of the monitor in the situation of X16, which it leaves as it
    found it. *)
Lemma monitor_tick_negative_delay w interval m cs1 cfg cs2 l s :
  wf_store m →
  server_configs m = cs1 ++ cfg :: cs2 →
  NoDup (c_name <$> server_configs m) →
  auto_restart cfg = true →
  auto_start cfg = true →
  restart_delay cfg < 0 →
  servers m !! c_name cfg = Some l →
  objs m !! l = Some s →
  status s ≠ Running →
  restart_count s < max_restarts cfg →
  wf_store (monitor_tick w interval m) ∧
  server_configs (monitor_tick w interval m) = server_configs m ∧
  servers (monitor_tick w interval m) !! c_name cfg = Some l ∧
  objs (monitor_tick w interval m) !! l = Some s ∧
  ∀ n, n ∉ c_name <$> cs1 →
       get_server (monitor_tick w interval m) n = get_server m n.
Proof.
  intros Hwf Hcs Hnd Har Has Hneg Hn Hl Hst Hrc.
  rewrite Hcs in Hnd. rewrite fmap_app, fmap_cons in Hnd.
  apply NoDup_app in Hnd as (_ & H1 & _).
  assert (Hn1 : c_name cfg ∉ c_name <$> cs1).
  { intros Hx. apply (H1 _ Hx). by left. }
  destruct (monitor_pass_negative_delay w cs1 cfg cs2 m l s)
    as (Hwf' & Hc' & Hn' & Hl' & Hg'); try done.
  unfold monitor_tick. rewrite Hcs. rewrite Hcs in Hc'.
  destruct (sleep_raises w interval);
    (split; [exact Hwf'|]; split; [exact Hc'|]; split; [exact Hn'|];
     split; [exact Hl'|]; exact Hg').
Qed.

(** X16. A monitored server that is down, still has restarts left and is
    configured with a negative [restart_delay] stops every pass of the
    monitor at its own entry: the sleep raises, the pass is abandoned, and
    the next turn meets the same situation.  Neither that server nor any
    server configured after it is ever started, checked or restarted by
    the monitor, for as long as it runs. *)
Theorem monitor_negative_delay_starves ws interval m cs1 cfg cs2 l s :
  wf_store m →
  server_configs m = cs1 ++ cfg :: cs2 →
  NoDup (c_name <$> server_configs m) →
  (∀ c, c ∈ cs1 → 0 ≤ restart_delay c) →
  auto_restart cfg = true →
  auto_start cfg = true →
  restart_delay cfg < 0 →
  servers m !! c_name cfg = Some l →
  objs m !! l = Some s →
  status s ≠ Running →
  restart_count s < max_restarts cfg →
  ∀ n, n ∉ c_name <$> cs1 →
       get_server (monitor_run ws interval m) n = get_server m n.
Proof.
  intros Hwf Hcs Hnd _ Har Has Hneg Hn Hl Hst Hrc n Hnn.
  revert m Hwf Hcs Hnd Hn Hl.
  induction ws as [|w ws IH]; intros m Hwf Hcs Hnd Hn Hl; simpl; [done|].
  destruct (monitor_tick_negative_delay w interval m cs1 cfg cs2 l s)
    as (Hwf' & Hcs' & Hn' & Hl' & Hg'); try done.
  destruct (sleep_raises w interval); [by apply Hg'|].
  rewrite IH; try done; [by apply Hg'|congruence|by rewrite Hcs'].
Qed.

Lemma wf_store_m_delta_alpha : wf_store m_delta_alpha.
Proof.
  split; simpl.
  - intros n l Hn. apply lookup_insert_Some in Hn as [[_ <-]|[_ Hn]]; [lia|].
    apply lookup_singleton_Some in Hn as [_ <-]. lia.
  - intros n1 n2 l H1 H2.
    apply lookup_insert_Some in H1 as [[<- <-]|[? H1]];
      apply lookup_insert_Some in H2 as [[<- ?]|[? H2]]; try done.
    + by apply lookup_singleton_Some in H2 as [_ ?].
    + by apply lookup_singleton_Some in H1 as [_ <-].
    + apply lookup_singleton_Some in H1 as [<- _].
      by apply lookup_singleton_Some in H2 as [<- _].
Qed.

Lemma NoDup_delta_alpha : NoDup (c_name <$> server_configs m_delta_alpha).
Proof.
  simpl. apply NoDup_cons. split; [|apply NoDup_singleton].
  intros Hx. apply elem_of_cons in Hx as [?|Hx]; [done|].
  by apply elem_of_nil in Hx.
Qed.

Lemma monitor_negative_delay_starves_witness :
  get_server (monitor_run [calm; calm; calm] 30 m_delta_alpha) "alpha"
  = get_server m_delta_alpha "alpha" ∧
  get_server (monitor_run [calm; calm; calm] 30 m_delta_alpha) "delta"
  = get_server m_delta_alpha "delta".
Proof.
  split;
    apply (monitor_negative_delay_starves [calm; calm; calm] 30
             m_delta_alpha [] delta [alpha] 0%nat
             (mark_stopped (fresh_status calm delta 4000)));
    first [ apply wf_store_m_delta_alpha
          | apply NoDup_delta_alpha
          | reflexivity
          | discriminate
          | simpl; lia
          | intros c Hc; by apply elem_of_nil in Hc
          | intros Hx; by apply elem_of_nil in Hx ].
Defined.

(** ** restart_count only grows *)

Lemma grows_refl m : grows m m.
Proof. split; [done|]. intros l s Hl. exists s. split; [done|lia]. Qed.

Lemma grows_trans m1 m2 m3 : grows m1 m2 → grows m2 m3 → grows m1 m3.
Proof.
  intros [Hs1 Ho1] [Hs2 Ho2]. split; [congruence|].
  intros l s Hl. destruct (Ho1 l s Hl) as (s' & Hl' & Hle).
  destruct (Ho2 l s' Hl') as (s'' & Hl'' & Hle'). exists s''.
  split; [done|lia].
Qed.

Lemma grows_update_obj l f m :
  (∀ s, restart_count s ≤ restart_count (f s)) → grows m (update_obj l f m).
Proof.
  intros Hf. split; [done|]. intros l0 s Hl0. simpl.
  destruct (decide (l0 = l)) as [->|Hne].
  - exists (f s). by rewrite list_lookup_alter_eq, Hl0.
  - exists s. rewrite list_lookup_alter_ne by done. split; [done|lia].
Qed.

Lemma grows_same m m' :
  servers m' = servers m → objs m' = objs m → grows m m'.
Proof.
  intros Hs Ho. split; [done|]. intros l s Hl. exists s. rewrite Ho.
  split; [done|lia].
Qed.

Lemma grows_save_server_state w m n : grows m (save_server_state w m n).
Proof.
  destruct (save_server_state_fields w m n) as (Hs & Ho & _).
  by apply grows_same.
Qed.

Lemma grows_mark_error m n : grows m (mark_error m n).
Proof.
  unfold mark_error. destruct (servers m !! n); [|apply grows_refl].
  apply grows_update_obj. intros s. simpl. lia.
Qed.

Lemma grows_mark_stopped l m : grows m (update_obj l mark_stopped m).
Proof. apply grows_update_obj. intros s. simpl. lia. Qed.

(** A start whose spawn raises allocates nothing and rebinds nothing. *)
Lemma grows_start_server w m n force :
  spawn w n = SpawnRaises → grows m (start_server w m n force).1.
Proof.
  intros Hsp. unfold start_server.
  destruct (find_config n (server_configs m)); [|apply grows_refl].
  destruct (match get_server m n with Some _ => _ | None => _ end);
    [apply grows_refl|].
  rewrite Hsp. simpl.
  apply (grows_trans _ (emit [LogStarting n] m)); [by apply grows_same|].
  apply grows_mark_error.
Qed.

Lemma grows_stop_server w m n force : grows m (stop_server w m n force).1.
Proof.
  unfold stop_server.
  destruct (servers m !! n) as [l|]; [|apply grows_refl].
  destruct (objs m !! l) as [s|]; [|apply grows_refl].
  destruct (negb _); [apply grows_refl|].
  assert (Hfin : ∀ m0, grows m m0 → grows m (finish_stop w l n m0)).
  { intros m0 H0. unfold finish_stop.
    eapply grows_trans; [exact H0|].
    eapply grows_trans; [apply grows_mark_stopped|].
    apply grows_save_server_state. }
  destruct (processes m !! n) as [p|]; [|apply Hfin, grows_refl].
  destruct (stop_process w p force) as [es [|]]; simpl.
  - apply Hfin. by apply grows_same.
  - by apply grows_same.
Qed.

Lemma grows_bump_restart_count m n : grows m (bump_restart_count m n).
Proof.
  unfold bump_restart_count. destruct (servers m !! n); [|apply grows_refl].
  apply grows_update_obj. intros s. simpl. lia.
Qed.

Lemma grows_restart_server w m n :
  spawn w n = SpawnRaises → grows m (restart_server w m n).1.
Proof.
  intros Hsp. unfold restart_server.
  set (m1 := bump_restart_count (emit [LogRestarting n] m) n).
  assert (H1 : grows m m1).
  { apply (grows_trans _ (emit [LogRestarting n] m)); [by apply grows_same|].
    apply grows_bump_restart_count. }
  pose proof (grows_stop_server w m1 n false) as H2.
  destruct (stop_server w m1 n false) as [m2 [|]]; simpl in *.
  - eapply grows_trans; [exact H1|]. eapply grows_trans; [exact H2|].
    apply (grows_trans _ (emit [Sleep 2] m2)); [by apply grows_same|].
    by apply grows_start_server.
  - by eapply grows_trans.
Qed.

Lemma grows_health_check_server w m n : grows m (health_check_server w m n).1.
Proof.
  unfold health_check_server.
  destruct (servers m !! n) as [l|]; [|apply grows_refl].
  destruct (objs m !! l) as [s|]; [|apply grows_refl].
  destruct (negb _); [apply grows_refl|].
  destruct (pid_truthy (pid s)); [|apply grows_refl].
  destruct (probe w _); simpl;
    [apply grows_refl|apply grows_mark_stopped..].
Qed.

Lemma grows_monitor_iter w m cfg :
  spawn w (c_name cfg) = SpawnRaises → grows m (monitor_iter w m cfg).1.
Proof.
  intros Hsp. unfold monitor_iter.
  destruct (auto_restart cfg); [|apply grows_refl]; simpl.
  destruct (servers m !! c_name cfg) as [l|]; [|apply grows_refl].
  destruct (objs m !! l) as [s|]; [|apply grows_refl].
  destruct (auto_start cfg && negb (is_running (status s))).
  - destruct (restart_count s <? max_restarts cfg); [|apply grows_refl].
    destruct (sleep_raises w (restart_delay cfg)); simpl;
      [by apply grows_same|].
    eapply grows_trans; [|by apply grows_start_server].
    by apply grows_same.
  - destruct (is_running (status s)); [|apply grows_refl].
    pose proof (grows_health_check_server w m (c_name cfg)) as H1.
    destruct (health_check_server w m (c_name cfg)) as [m1 [|]]; simpl in *.
    { eapply grows_trans; [exact H1|].
      apply grows_update_obj. intros s'. simpl. lia. }
    set (m2 := update_obj l _ m1).
    assert (H2 : grows m m2).
    { eapply grows_trans; [exact H1|].
      apply grows_update_obj. intros s'. simpl. lia. }
    destruct (3 <=? _); simpl; [|done].
    eapply grows_trans; [exact H2|].
    eapply grows_trans; [by apply grows_restart_server|].
    apply grows_update_obj. intros s'. simpl. lia.
Qed.

Lemma grows_monitor_pass w cs m :
  (∀ n, spawn w n = SpawnRaises) → grows m (monitor_pass w cs m).
Proof.
  intros Hsp. revert m.
  induction cs as [|c cs IH]; intros m; simpl; [apply grows_refl|].
  pose proof (grows_monitor_iter w m c (Hsp _)) as H1.
  destruct (monitor_iter w m c) as [m' [|]]; simpl in *; [done|].
  by eapply grows_trans.
Qed.

Lemma grows_update_server_metrics w m : grows m (update_server_metrics w m).
Proof.
  unfold update_server_metrics.
  induction (map_to_list (servers m)) as [|[n l] L IH]; simpl;
    [apply grows_refl|].
  eapply grows_trans; [exact IH|]. apply grows_update_obj.
  intros s. destruct (refresh_fields w s) as (_ & -> & _). lia.
Qed.

(** Every operation of a session, in the module as it is. *)
Lemma grows_exec w op m : shipped w → grows m (exec w op m).
Proof.
  intros Hw. pose proof (shipped_spawn w) as Hsp.
  destruct op as [n force|n force|n|q|cfg| |force|interval]; simpl.
  - by apply grows_start_server, Hsp.
  - apply grows_stop_server.
  - by apply grows_restart_server, Hsp.
  - apply grows_update_server_metrics.
  - unfold deploy_server. destruct (config_io_ok w); [|apply grows_refl].
    by apply grows_same.
  - unfold start_all_servers. generalize (server_configs m). intros cs.
    assert (H : ∀ m0, grows m m0 →
              grows m (foldl (λ acc c, if auto_start c
                                       then (start_server w acc (c_name c) false).1
                                       else acc) m0 cs)).
    { induction cs as [|c cs IH]; intros m0 H0; simpl; [done|].
      apply IH. destruct (auto_start c); [|done].
      eapply grows_trans; [exact H0|]. by apply grows_start_server, Hsp. }
    apply H, grows_refl.
  - unfold stop_all_servers. generalize (server_keys m). intros ks.
    assert (H : ∀ m0, grows m m0 →
              grows m (foldl (λ acc n, (stop_server w acc n force).1) m0 ks)).
    { induction ks as [|k ks IH]; intros m0 H0; simpl; [done|].
      apply IH. eapply grows_trans; [exact H0|]. apply grows_stop_server. }
    apply H, grows_refl.
  - unfold monitor_tick.
    pose proof (grows_monitor_pass w (server_configs m) m
                  (λ n, Hsp n Hw)) as H.
    destruct (sleep_raises w interval); [done|].
    eapply grows_trans; [exact H|]. by apply grows_same.
Qed.

Lemma grows_session steps m :
  Forall (λ wo, shipped wo.1) steps → grows m (session steps m).
Proof.
  intros Hall.
  assert (H : ∀ m0, grows m m0 → grows m (session steps m0)).
  { induction Hall as [|[w op] steps Hw Hall IH]; intros m0 H0; simpl;
      [done|].
    apply IH. eapply grows_trans; [exact H0|]. by apply grows_exec. }
  apply H, grows_refl.
Qed.

(** C8. In the module as it is, whatever a session does (starts, stops,
    restarts, status requests, deployments, start-all, stop-all and turns
    of the monitor, in any order and in any environment), a server that
    has a record keeps it, the name stays bound to that same record, and
    its [restart_count] never goes down: at the end of the session it is
    at least what it was at any earlier point.  No operation allocates a
    record in place of another one, the monitor included. *)
Theorem restart_count_never_decreases steps m n l s :
  Forall (λ wo, shipped wo.1) steps →
  servers m !! n = Some l →
  objs m !! l = Some s →
  servers (session steps m) !! n = Some l ∧
  ∃ s', get_server (session steps m) n = Some s' ∧
        objs (session steps m) !! l = Some s' ∧
        restart_count s ≤ restart_count s'.
Proof.
  intros Hall Hn Hl.
  destruct (grows_session steps m Hall) as [Hs Ho].
  destruct (Ho l s Hl) as (s' & Hl' & Hle).
  split; [by rewrite Hs|]. exists s'.
  split; [|done]. unfold get_server. by rewrite Hs, Hn.
Qed.

Lemma restart_count_never_decreases_witness :
  let steps := [(as_shipped, OpRestart "alpha");
                (as_shipped, OpTick 30);
                (as_shipped, OpStart "alpha" true);
                (as_shipped_deserted, OpStatus None);
                (as_shipped, OpStopAll false);
                (as_shipped, OpStartAll);
                (as_shipped, OpDeploy alpha);
                (as_shipped, OpStop "alpha" false)] in
  servers (session steps m_booted) !! "alpha" = Some 1%nat ∧
  ∃ s', get_server (session steps m_booted) "alpha" = Some s' ∧
        objs (session steps m_booted) !! 1%nat = Some s' ∧
        2 ≤ restart_count s'.
Proof.
  apply (restart_count_never_decreases
           [(as_shipped, OpRestart "alpha");
            (as_shipped, OpTick 30);
            (as_shipped, OpStart "alpha" true);
            (as_shipped_deserted, OpStatus None);
            (as_shipped, OpStopAll false);
            (as_shipped, OpStartAll);
            (as_shipped, OpDeploy alpha);
            (as_shipped, OpStop "alpha" false)]
           m_booted "alpha" 1%nat
           (mkStatus "alpha" Stopped None None ["sleep"] (Some 900) None 0 2)).
  - repeat constructor.
  - reflexivity.
  - reflexivity.
Defined.

(** ** A failed restart counts *)

Lemma servers_restart_server w m n :
  spawn w n = SpawnRaises → servers (restart_server w m n).1 = servers m.
Proof. intros Hsp. by destruct (grows_restart_server w m n Hsp). Qed.

(** C10. In the module as it is, for a server that has a record,
    [restart_server] raises [restart_count] by one on that record before
    it calls [stop_server], and reports failure; at its return the name is
    still bound to that record and the count is still one more than
    before. *)
Theorem restart_server_increment_persists w m n l s :
  shipped w →
  servers m !! n = Some l →
  objs m !! l = Some s →
  restart_server w m n
  = (let '(m2, stopped) :=
       stop_server w (bump_restart_count (emit [LogRestarting n] m) n) n false in
     if stopped then start_server w (emit [Sleep 2] m2) n false
     else (m2, false)) ∧
  restart_count
    <$> get_server (bump_restart_count (emit [LogRestarting n] m) n) n
  = Some (restart_count s + 1) ∧
  (restart_server w m n).2 = false ∧
  servers (restart_server w m n).1 !! n = Some l ∧
  restart_count <$> objs (restart_server w m n).1 !! l
  = Some (restart_count s + 1) ∧
  restart_count <$> get_server (restart_server w m n).1 n
  = Some (restart_count s + 1).
Proof.
  intros Hw Hn Hl. pose proof (shipped_spawn w n Hw) as Hsp.
  destruct (restart_server_fails w m n l s Hn Hl) as [Hr Hg];
    [by right|].
  assert (Hs : servers (restart_server w m n).1 !! n = Some l)
    by (by rewrite servers_restart_server).
  split; [done|]. split.
  { unfold bump_restart_count, get_server; simpl. rewrite Hn; simpl.
    rewrite Hn; simpl. by rewrite list_lookup_alter_eq, Hl. }
  split; [done|]. split; [done|]. split; [|done].
  unfold get_server in Hg. by rewrite Hs in Hg.
Qed.

Lemma restart_server_increment_persists_witness :
  restart_server as_shipped m_alpha_live "alpha"
  = (let '(m2, stopped) :=
       stop_server as_shipped
         (bump_restart_count (emit [LogRestarting "alpha"] m_alpha_live) "alpha")
         "alpha" false in
     if stopped then start_server as_shipped (emit [Sleep 2] m2) "alpha" false
     else (m2, false)) ∧
  restart_count
    <$> get_server
          (bump_restart_count (emit [LogRestarting "alpha"] m_alpha_live) "alpha")
          "alpha"
  = Some (0 + 1) ∧
  (restart_server as_shipped m_alpha_live "alpha").2 = false ∧
  servers (restart_server as_shipped m_alpha_live "alpha").1 !! "alpha"
  = Some 0%nat ∧
  restart_count <$> objs (restart_server as_shipped m_alpha_live "alpha").1 !! 0%nat
  = Some (0 + 1) ∧
  restart_count <$> get_server (restart_server as_shipped m_alpha_live "alpha").1 "alpha"
  = Some (0 + 1).
Proof.
  apply (restart_server_increment_persists as_shipped m_alpha_live "alpha"
           0%nat
           (mkStatus "alpha" Running (Some 4242) None ["sleep"; "9999"]
                     (Some 1000) None 0 0)).
  - reflexivity.
  - reflexivity.
  - reflexivity.
Defined.

(** ** The restart budget in the module as it is *)

Lemma boot_alpha_loaded :
  boot as_shipped_deserted [alpha] alpha_state_file = m_alpha_loaded Stopped [].
Proof. reflexivity. Qed.

Lemma monitor_tick_alpha_loaded st tr :
  st ≠ Running →
  monitor_tick as_shipped 30 (m_alpha_loaded st tr)
  = m_alpha_loaded Error (tr ++ failed_auto_restart).
Proof.
  intros Hst.
  unfold monitor_tick, m_alpha_loaded, failed_auto_restart; simpl.
  unfold monitor_iter; simpl.
  rewrite lookup_singleton_eq; simpl.
  replace (is_running st) with false by (by destruct st). simpl.
  unfold start_server; simpl. unfold get_server; simpl.
  rewrite lookup_singleton_eq; simpl.
  replace (is_running st) with false by (by destruct st). simpl.
  unfold mark_error; simpl. rewrite lookup_singleton_eq; simpl.
  unfold emit, update_obj, with_objs; simpl.
  by rewrite <- !app_assoc.
Qed.

Lemma monitor_run_alpha_loaded k st tr :
  st ≠ Running →
  monitor_run (replicate (S k) as_shipped) 30 (m_alpha_loaded st tr)
  = m_alpha_loaded Error (tr ++ concat (replicate (S k) failed_auto_restart)).
Proof.
  revert st tr. induction k as [|k IH]; intros st tr Hst.
  - change (monitor_run (replicate 1 as_shipped) 30 (m_alpha_loaded st tr))
      with (monitor_tick as_shipped 30 (m_alpha_loaded st tr)).
    change (concat (replicate 1 failed_auto_restart))
      with (failed_auto_restart ++ []).
    rewrite monitor_tick_alpha_loaded by done. by rewrite app_nil_r.
  - change (monitor_run (replicate (S (S k)) as_shipped) 30
              (m_alpha_loaded st tr))
      with (monitor_run (replicate (S k) as_shipped) 30
              (monitor_tick as_shipped 30 (m_alpha_loaded st tr))).
    rewrite monitor_tick_alpha_loaded by done. rewrite IH by done.
    change (concat (replicate (S (S k)) failed_auto_restart))
      with (failed_auto_restart
              ++ concat (replicate (S k) failed_auto_restart)).
    by rewrite <- app_assoc.
Qed.

(** X17. In the module as it is, a server that a state file brings back
    as Stopped with [restart_count = 2], under [max_restarts = 3], is
    attempted by the monitor on every turn, without end: after [k + 1]
    turns there are [k + 1] automatic restarts logged and [k + 1] calls of
    [start_server], the record is Errored, and its [restart_count] is
    still 2. *)
Theorem monitor_auto_restarts_unbounded_from_state_file (k : nat) :
  max_restarts alpha = 3 ∧
  get_server (boot as_shipped_deserted [alpha] alpha_state_file) "alpha"
  = Some (mkStatus "alpha" Stopped None None ["sleep"] (Some 900) None 0 2) ∧
  occurrences (LogAutoRestarting "alpha")
    (trace (monitor_run (replicate (S k) as_shipped) 30
              (boot as_shipped_deserted [alpha] alpha_state_file)))
  = S k ∧
  occurrences (LogStarting "alpha")
    (trace (monitor_run (replicate (S k) as_shipped) 30
              (boot as_shipped_deserted [alpha] alpha_state_file)))
  = S k ∧
  get_server (monitor_run (replicate (S k) as_shipped) 30
                (boot as_shipped_deserted [alpha] alpha_state_file)) "alpha"
  = Some (mkStatus "alpha" Error None None ["sleep"] (Some 900) None 0 2).
Proof.
  rewrite boot_alpha_loaded, monitor_run_alpha_loaded by done.
  split; [done|]. split; [done|].
  change (trace (m_alpha_loaded ?st ?tr)) with tr.
  rewrite !occurrences_app.
  rewrite !occurrences_failed_auto_restarts by reflexivity.
  repeat split; reflexivity.
Qed.
